(** * DNS uptime monitor (intodnspy.py): rolling statistics and anomaly logic

    A shallow embedding of [LatencyStats], [UptimeStats] and of the
    per-probe path of [DNSUptimerAI] from [src/intodnspy.py].

    Numbers.  Python [float] values are idealised as real numbers [R]:
    rounding error of binary64 arithmetic is outside the model.  The
    concrete inputs used below (16, 26, 26.625, 50 and 0.0625 ms, and the
    samples alternating between 15 and 17 ms) are values on which the
    binary64 computation gives the same numbers as the real one, or numbers
    that differ from it far less than they differ from the thresholds they
    are compared with, so the idealisation does not decide any of them.
    General bounds on the size of a z-score are bounds on the exact
    quotient: on a window that is constant up to the last binary digit, the
    rounding of the mean moves the computed quotient (nine samples of 16.0
    and a tenth one unit in the last place above give 10/3, where the exact
    z-score is 3).

    Exceptions.  Operations that can raise in Python ([statistics.mean],
    [statistics.pstdev], [statistics.median], float division, list indexing)
    return a value in the error monad [res]. *)

From Stdlib Require Import Reals Lra Lia ZArith List Sorted Permutation.
From stdpp Require Import gmap strings.
From Stdlib Require Import Ascii.
Import ListNotations.

Local Open Scope R_scope.

(** ** The error monad *)

(** Failures of one DNS query, as [dns.resolver] reports them. *)
Inductive dns_failure : Type :=
  | NetworkUnreachable
  | TimeoutExpired
  | NXDOMAIN
  | NODATA
  | MalformedResponse.

(** Exceptions.  The last three derive from [BaseException] only; every
    other one is an instance of [Exception]. *)
Inductive pyexc : Type :=
  | StatisticsError
  | ZeroDivisionError
  | IndexError
  | DNSException (k : dns_failure) (msg : string)
  | OtherException (msg : string)
  | KeyboardInterrupt
  | SystemExit
  | CancelledError.

(** [str(e)]. *)
Definition str_exc (e : pyexc) : string :=
  match e with
  | DNSException _ msg | OtherException msg => msg
  | ZeroDivisionError => "float division by zero"
  | IndexError => "list index out of range"
  | _ => EmptyString
  end.

Inductive res (A : Type) : Type :=
  | Ret (a : A)
  | Raise (e : pyexc).

Arguments Ret {A} a.
Arguments Raise {A} e.

#[global] Instance res_ret : MRet res := fun A a => Ret a.

#[global] Instance res_bind : MBind res := fun A B k m =>
  match m with
  | Ret a => k a
  | Raise e => Raise e
  end.

(** The two [except] clauses of the program. *)
Inductive except_clause : Type :=
  | ExceptStatisticsError
  | ExceptException.

Definition catches (c : except_clause) (e : pyexc) : bool :=
  match c, e with
  | ExceptStatisticsError, StatisticsError => true
  | ExceptStatisticsError, _ => false
  | ExceptException, (KeyboardInterrupt | SystemExit | CancelledError) => false
  | ExceptException, _ => true
  end.

(** [try: m  except c as e: h e]. *)
Definition try_except {A : Type} (m : res A) (c : except_clause)
    (h : pyexc -> res A) : res A :=
  match m with
  | Ret a => Ret a
  | Raise e => if catches c e then h e else Raise e
  end.

Definition raises {A : Type} (m : res A) : Prop :=
  exists e, m = Raise e.

(** ** Python numerics *)

(** Comparisons of floats as booleans. *)
Definition Rltb (x y : R) : bool := if Rlt_dec x y then true else false.
Definition Rleb (x y : R) : bool := if Rle_dec x y then true else false.
Definition Reqb (x y : R) : bool := if Req_dec_T x y then true else false.

(** Float true division [a / b]: raises [ZeroDivisionError] on a zero divisor. *)
Definition py_div (a b : R) : res R :=
  if Reqb b 0 then Raise ZeroDivisionError else Ret (a / b).

(** Round to the nearest integer, ties to the even one (what [round] does). *)
Definition round_half_even (x : R) : Z :=
  let f := Zfloor x in
  let d := x - IZR f in
  if Rltb d (1 / 2) then f
  else if Rltb (1 / 2) d then (f + 1)%Z
  else if Z.even f then f else (f + 1)%Z.

(** [round(x, ndigits)]. *)
Definition py_round (x : R) (ndigits : nat) : R :=
  IZR (round_half_even (x * 10 ^ ndigits)) / 10 ^ ndigits.

(** [int(x)]: truncation towards zero. *)
Definition py_int (x : R) : Z :=
  if Rleb 0 x then Zfloor x else Zceil x.

(** [a or b] on an optional float: [None] and [0.0] are both falsy. *)
Definition float_or (a : option R) (b : R) : R :=
  match a with
  | Some v => if Reqb v 0 then b else v
  | None => b
  end.

(** ** [collections.deque] with a [maxlen] *)

Record deque (A : Type) : Type := mkDeque {
  maxlen : nat;
  items : list A
}.

Arguments mkDeque {A} maxlen items.
Arguments maxlen {A} d.
Arguments items {A} d.

Definition deque_new {A : Type} (n : nat) : deque A := mkDeque n [].

(** [d.append(x)]: the item goes to the right end; when the length then
    exceeds [maxlen] one item is dropped from the left end. *)
Definition deque_append {A : Type} (d : deque A) (x : A) : deque A :=
  let l := items d ++ [x] in
  mkDeque (maxlen d)
    (if (maxlen d <? length l)%nat then tail l else l).

Definition deque_len {A : Type} (d : deque A) : nat := length (items d).

(** A run of [append] calls. *)
Definition feed {A : Type} (d : deque A) (xs : list A) : deque A :=
  fold_left deque_append xs d.

(** ** The [statistics] module, on a non-empty sample *)

Definition Rsum (l : list R) : R := fold_right Rplus 0 l.

Definition mean (data : list R) : res R :=
  match data with
  | [] => Raise StatisticsError
  | _ => Ret (Rsum data / INR (length data))
  end.

(** Sum of squared deviations from [c]. *)
Definition sumsq (c : R) (data : list R) : R :=
  Rsum (map (fun x => (x - c) * (x - c)) data).

Definition pvariance (data : list R) : res R :=
  mu ← mean data;
  Ret (sumsq mu data / INR (length data)).

Definition pstdev (data : list R) : res R :=
  v ← pvariance data;
  Ret (sqrt v).

(** [sorted]: insertion of each item into the sorted rest. *)
Fixpoint insert_sorted (x : R) (l : list R) : list R :=
  match l with
  | [] => [x]
  | y :: t => if Rleb x y then x :: y :: t else y :: insert_sorted x t
  end.

Definition sorted (l : list R) : list R := fold_right insert_sorted [] l.

(** List indexing [l[i]]; a negative index counts from the end. *)
Definition index (l : list R) (i : Z) : res R :=
  let j := if (i <? 0)%Z then (Z.of_nat (length l) + i)%Z else i in
  if (j <? 0)%Z then Raise IndexError
  else match nth_error l (Z.to_nat j) with
       | Some v => Ret v
       | None => Raise IndexError
       end.

(** [statistics.median]: the middle item of the sorted data, or the mean of
    the two middle items when the count is even. *)
Definition median (data : list R) : res R :=
  let s := sorted data in
  let n := length s in
  if (n =? 0)%nat then Raise StatisticsError
  else if Nat.odd n then index s (Z.of_nat (n / 2))
  else
    a ← index s (Z.of_nat (n / 2) - 1);
    b ← index s (Z.of_nat (n / 2));
    Ret ((a + b) / 2).

(** ** Values built by the program *)

(** The anomaly text.  The three f-strings differ in their leading words;
    the numbers they format are kept as values. *)
Inductive anomaly : Type :=
  | RepeatedFailures (upt : R)
  | SingleFailure
  | LatencySpike (z latency_ms : R).

(** The dict returned by [LatencyStats.summary]: a key that is absent from
    the dict is [None] here. *)
Record summary_dict : Type := mkSummary {
  count : nat;
  median_ms : option R;
  p95_ms : option R;
  ema_ms : option R
}.

Module LatencyStats.

Record t : Type := mk {
  samples : deque R;
  ema : option R;
  alpha : R;
  last_anomaly : option anomaly;
  last_anomaly_ts : option R
}.

(** [LatencyStats()]: the dataclass defaults. *)
Definition new : t := mk (deque_new 200) None 0.25 None None.

Definition add (self : t) (value : R) : t :=
  mk (deque_append (samples self) value)
     (match ema self with
      | None => Some value
      | Some e => Some (alpha self * value + (1 - alpha self) * e)
      end)
     (alpha self) (last_anomaly self) (last_anomaly_ts self).

Definition zscore (self : t) (value : R) : res R :=
  if (deque_len (samples self) <? 10)%nat then Ret 0.0
  else
    mu ← mean (items (samples self));
    sigma ← try_except (pstdev (items (samples self)))
              ExceptStatisticsError (fun _ => Ret 0.0);
    if Reqb sigma 0 then Ret 0.0
    else py_div (value - mu) sigma.

Definition summary (self : t) : res summary_dict :=
  let xs := items (samples self) in
  if (deque_len (samples self) =? 0)%nat then Ret (mkSummary 0 None None None)
  else
    med ← median xs;
    p95 ← index (sorted xs)
            (py_int (0.95 * IZR (Z.of_nat (deque_len (samples self)) - 1)));
    Ret (mkSummary (deque_len (samples self))
           (Some (py_round med 2))
           (Some (py_round p95 2))
           (Some (py_round (float_or (ema self) med) 2))).

Definition set_anomaly (self : t) (a : anomaly) (ts : R) : t :=
  mk (samples self) (ema self) (alpha self) (Some a) (Some ts).

End LatencyStats.

Module UptimeStats.

Record t : Type := mk {
  window : Z;
  results : deque Z
}.

(** [UptimeStats(window=w)]: the [results] default does not read [w]. *)
Definition new (w : Z) : t := mk w (deque_new 200).

Definition add (self : t) (success : bool) : t :=
  mk (window self)
     (deque_append (results self) (if success then 1%Z else 0%Z)).

Definition Zsum (l : list Z) : Z := fold_right Z.add 0%Z l.

Definition ratio (self : t) : res R :=
  match items (results self) with
  | [] => Ret 0.0
  | _ => py_div (IZR (Zsum (items (results self))))
                (INR (deque_len (results self)))
  end.

End UptimeStats.

(** The [result] dict of one probe. *)
Module CheckResult.

Record t : Type := mk {
  target : string;
  resolver : string;
  rtype : string;
  ok : bool;
  latency_ms : R;
  zscore : R;
  addresses : list string;
  error : option string;
  uptime_window_ratio : R;
  latency_summary : summary_dict;
  timestamp : R
}.

End CheckResult.

(** ** The monitor *)

Abbreviation CheckKey := (string * string * string)%type.

(** [d[k]] on a [defaultdict]: a missing key is first filled by the factory. *)
Definition defaultdict_get {V : Type} (factory : V) (d : gmap CheckKey V)
    (k : CheckKey) : V * gmap CheckKey V :=
  match d !! k with
  | Some v => (v, d)
  | None => (factory, <[k := factory]> d)
  end.

(** What one probe meets outside the program: the two [perf_counter]
    readings, what [res.resolve] does (the answer's records as text, or an
    exception), and the two [time.time] readings. *)
Record probe_env : Type := mkEnv {
  t_start : R;
  t_end : R;
  answer : res (list string);
  now_result : R;
  now_anomaly : R
}.

(** One call of [_alert]: the three names and the anomaly that make up the
    text, and the payload. *)
Record alert : Type := mkAlert {
  alert_target : string;
  alert_resolver : string;
  alert_rtype : string;
  alert_anomaly : anomaly;
  alert_payload : CheckResult.t
}.

Module DNSUptimerAI.

Record t : Type := mk {
  targets : list string;
  resolvers : list string;
  records : list string;
  interval : R;
  window : Z;
  timeout : R;
  webhook : option string;
  latency : gmap CheckKey LatencyStats.t;
  uptime : gmap CheckKey UptimeStats.t;
  last_results : gmap CheckKey CheckResult.t;
  _stop : bool
}.

Definition new (targets resolvers records : list string) (interval : R)
    (window : Z) (timeout : R) (webhook : option string) : t :=
  mk targets resolvers records interval window timeout webhook ∅ ∅ ∅ false.

Definition _resolve_once (self : t) (target resolver_ip rtype : string)
    (env : probe_env)
    : res (bool * R * option (list string) * option string) :=
  try_except
    (ans ← answer env;
     Ret (true, (t_end env - t_start env) * 1000.0, Some ans, None))
    ExceptException
    (fun e =>
       Ret (false, (t_end env - t_start env) * 1000.0, None,
            Some (str_exc e))).

(** The anomaly decision, lines 157-164 of the source: [ok], the latency,
    [z], [upt], the number of recorded outcomes and the key's current EMA. *)
Definition anomaly_logic (ok : bool) (latency_ms z upt : R)
    (n_results : nat) (ema_now : option R) : option anomaly :=
  if negb ok then
    if Rltb upt 0.95 && (20 <=? n_results)%nat
    then Some (RepeatedFailures upt)
    else Some SingleFailure
  else if Rleb 3.0 z && Rltb (float_or ema_now latency_ms * 1.5) latency_ms
  then Some (LatencySpike z latency_ms)
  else None.

Definition _check_and_analyze (self : t) (target resolver_ip rtype : string)
    (env : probe_env) : res (t * option alert) :=
  let key := (target, resolver_ip, rtype) in
  '(ok, latency_ms, addrs, err) ← _resolve_once self target resolver_ip rtype env;
  (* self.uptime[key].add(ok) *)
  let '(u0, um) := defaultdict_get (UptimeStats.new (window self)) (uptime self) key in
  let u1 := UptimeStats.add u0 ok in
  let um := <[key := u1]> um in
  (* self.latency[key].add(latency_ms) *)
  let '(l0, lm) := defaultdict_get LatencyStats.new (latency self) key in
  let l1 := LatencyStats.add l0 latency_ms in
  let lm := <[key := l1]> lm in
  z ← LatencyStats.zscore l1 latency_ms;
  summary ← LatencyStats.summary l1;
  upt ← UptimeStats.ratio u1;
  let result :=
    CheckResult.mk target resolver_ip rtype ok (py_round latency_ms 2)
      (py_round z 2) (default [] addrs) err (py_round upt 4) summary
      (now_result env) in
  let lr := <[key := result]> (last_results self) in
  match anomaly_logic ok latency_ms z upt
          (deque_len (UptimeStats.results u1)) (LatencyStats.ema l1) with
  | Some a =>
      let l2 := LatencyStats.set_anomaly l1 a (now_anomaly env) in
      Ret (mk (targets self) (resolvers self) (records self) (interval self)
             (window self) (timeout self) (webhook self)
             (<[key := l2]> lm) um lr (_stop self),
           Some (mkAlert target resolver_ip rtype a result))
  | None =>
      Ret (mk (targets self) (resolvers self) (records self) (interval self)
             (window self) (timeout self) (webhook self)
             lm um lr (_stop self),
           None)
  end.

End DNSUptimerAI.

(** ** The monitor loop

    [run_loop] awaits at two places: [asyncio.gather] on the wave and
    [asyncio.wait_for] on the stop event.  The model follows the clock
    through these.  The loop is entered with the monitor [self], whose
    event [_stop] may be set already; [stop_at] is the time, if any, at
    which the signal handler calls [stop] while the loop runs (the event is
    never cleared), and [wave_time i] is how long the gather of wave [i]
    takes.  A wave is represented by its tasks; what each task does to the
    statistics is [_check_and_analyze] above. *)

(** [stop]: the event is set. *)
Definition stop (self : DNSUptimerAI.t) : DNSUptimerAI.t :=
  DNSUptimerAI.mk (DNSUptimerAI.targets self) (DNSUptimerAI.resolvers self)
    (DNSUptimerAI.records self) (DNSUptimerAI.interval self)
    (DNSUptimerAI.window self) (DNSUptimerAI.timeout self)
    (DNSUptimerAI.webhook self) (DNSUptimerAI.latency self)
    (DNSUptimerAI.uptime self) (DNSUptimerAI.last_results self) true.

Record loop_env : Type := mkLoopEnv {
  stop_at : option R;
  wave_time : nat -> R
}.

Inductive loop_event : Type :=
  | WaveStarted (at_time : R) (tasks : list CheckKey)
  | Exited (at_time : R).

(** The monitor as the loop finds it at time [now]: [stop] has been called
    on it if the signal has arrived by then. *)
Definition monitor_at (self : DNSUptimerAI.t) (env : loop_env) (now : R)
    : DNSUptimerAI.t :=
  match stop_at env with
  | Some ts => if Rleb ts now then stop self else self
  | None => self
  end.

(** [self._stop.is_set()] at time [now]. *)
Definition is_set (self : DNSUptimerAI.t) (env : loop_env) (now : R) : bool :=
  DNSUptimerAI._stop (monitor_at self env now).

(** The tasks of one wave, in the order of the three nested loops. *)
Definition wave_tasks (self : DNSUptimerAI.t) : list CheckKey :=
  flat_map (fun t =>
    flat_map (fun r =>
      map (fun rt => (t, r, rt)) (DNSUptimerAI.records self))
      (DNSUptimerAI.resolvers self))
    (DNSUptimerAI.targets self).

(** [await asyncio.wait_for(self._stop.wait(), timeout)] entered at [now]:
    the time at which it returns, or raises the [TimeoutError] that the loop
    passes over. *)
Definition wait_for_stop (self : DNSUptimerAI.t) (env : loop_env)
    (timeout now : R) : R :=
  if is_set self env now then now
  else if Rleb timeout 0 then now
  else match stop_at env with
       | Some ts => if Rltb ts (now + timeout) then ts else now + timeout
       | None => now + timeout
       end.

(** The loop, entered at time [now] for its [i]-th wave; the events it
    produces within [fuel] evaluations of the [while] condition, which
    reads the event of the monitor.  The tasks of a wave change neither the
    event nor the configuration the loop reads (lemma
    [check_and_analyze_frame]), so these are read from [self]. *)
Fixpoint run_loop (fuel : nat) (self : DNSUptimerAI.t) (env : loop_env)
    (i : nat) (now : R) : list loop_event :=
  match fuel with
  | O => []
  | S fuel' =>
      if is_set self env now then [Exited now]
      else
        let tasks := wave_tasks self in
        let now1 := now + wave_time env i in
        let now2 := wait_for_stop self env (DNSUptimerAI.interval self) now1 in
        WaveStarted now tasks :: run_loop fuel' self env (S i) now2
  end.

(** ** What [self.latency[key]] and [self.uptime[key]] denote *)

Definition latency_of (self : DNSUptimerAI.t) (key : CheckKey) : LatencyStats.t :=
  default LatencyStats.new (DNSUptimerAI.latency self !! key).

Definition uptime_of (self : DNSUptimerAI.t) (key : CheckKey) : UptimeStats.t :=
  default (UptimeStats.new (DNSUptimerAI.window self))
          (DNSUptimerAI.uptime self !! key).

(** The two middle-of-the-sorted-list values the summary is specified by. *)
Definition sorted_middle (xs : list R) : R :=
  let s := sorted xs in
  let n := length xs in
  if Nat.odd n then nth (n / 2) s 0
  else (nth (n / 2 - 1) s 0 + nth (n / 2) s 0) / 2.

Definition nearest_rank_95 (xs : list R) : R :=
  nth (Z.to_nat (Zfloor (0.95 * (INR (length xs) - 1)))) (sorted xs) 0.

(** ** Concrete inputs *)

Definition key0 : CheckKey := ("example.com", "1.1.1.1", "A").

(** A key after [n] successful probes of 16 ms each. *)
Definition warm_latency (n : nat) : LatencyStats.t :=
  LatencyStats.mk (mkDeque 200 (repeat 16 n)) (Some 16) 0.25 None None.

Definition warm_uptime (n : nat) : UptimeStats.t :=
  UptimeStats.mk 200 (mkDeque 200 (repeat 1%Z n)).

Definition warm_monitor (n : nat) : DNSUptimerAI.t :=
  DNSUptimerAI.mk ["example.com"] ["1.1.1.1"] ["A"] 15 200 3 None
    {[ key0 := warm_latency n ]} {[ key0 := warm_uptime n ]} ∅ false.

(** A key with 25 recorded outcomes, 20 of them successes. *)
Definition degraded_uptime : UptimeStats.t :=
  UptimeStats.mk 200 (mkDeque 200 (repeat 1%Z 20 ++ repeat 0%Z 5)).

Definition degraded_monitor : DNSUptimerAI.t :=
  DNSUptimerAI.mk ["example.com"] ["1.1.1.1"] ["A"] 15 200 3 None
    {[ key0 := warm_latency 25 ]} {[ key0 := degraded_uptime ]} ∅ false.

(** A key after one probe of 0.0625 ms. *)
Definition one_sample : LatencyStats.t :=
  LatencyStats.mk (mkDeque 200 [0.0625]) (Some 0.0625) 0.25 None None.

(** The monitor as it is constructed, before any probe. *)
Definition fresh_monitor : DNSUptimerAI.t :=
  DNSUptimerAI.new ["example.com"] ["1.1.1.1"] ["A"] 15 200 3 None.

(** Twenty probes that alternate between 15 ms and 17 ms, and a key that
    has seen them, all successful. *)
Definition alternating : list R :=
  [15; 17; 15; 17; 15; 17; 15; 17; 15; 17;
   15; 17; 15; 17; 15; 17; 15; 17; 15; 17].

Definition varied_latency : LatencyStats.t :=
  fold_left LatencyStats.add alternating LatencyStats.new.

Definition varied_monitor : DNSUptimerAI.t :=
  DNSUptimerAI.mk ["example.com"] ["1.1.1.1"] ["A"] 15 200 3 None
    {[ key0 := varied_latency ]} {[ key0 := warm_uptime 20 ]} ∅ false.

(** A probe that succeeds after [ms] milliseconds. *)
Definition answered (ms : R) : probe_env :=
  mkEnv 0 (ms / 1000) (Ret ["93.184.216.34"]) 1700000000 1700000000.

(** A probe that fails after [ms] milliseconds. *)
Definition timed_out (ms : R) : probe_env :=
  mkEnv 0 (ms / 1000) (Raise (DNSException TimeoutExpired "The DNS operation timed out."))
    1700000000 1700000000.

(** Waves that take 2 s each, and a stop signal at second 10. *)
Definition stop_at_10 : loop_env := mkLoopEnv (Some 10) (fun _ => 2).

(** ** The states a monitor goes through *)

(** A monitor is constructed, and then runs probe-and-update cycles, for
    any keys in any order, and may be stopped. *)
Inductive reachable : DNSUptimerAI.t -> Prop :=
  | reach_new (targets resolvers records : list string) (interval : R)
      (window : Z) (timeout : R) (webhook : option string) :
      reachable (DNSUptimerAI.new targets resolvers records interval window
                   timeout webhook)
  | reach_cycle (self self' : DNSUptimerAI.t) (target resolver_ip rtype : string)
      (env : probe_env) (al : option alert) :
      reachable self ->
      DNSUptimerAI._check_and_analyze self target resolver_ip rtype env =
        Ret (self', al) ->
      reachable self'
  | reach_stop (self : DNSUptimerAI.t) :
      reachable self -> reachable (stop self).

(** What holds of the statistics and the last result of a key that has
    been probed. *)
Record key_invariant (self : DNSUptimerAI.t) (key : CheckKey)
    (l : LatencyStats.t) (u : UptimeStats.t) (r : CheckResult.t) : Prop :=
  mkKeyInvariant {
    inv_latency_maxlen : maxlen (LatencyStats.samples l) = 200%nat;
    inv_uptime_maxlen : maxlen (UptimeStats.results u) = 200%nat;
    inv_same_length :
      deque_len (LatencyStats.samples l) = deque_len (UptimeStats.results u);
    inv_length : (1 <= deque_len (LatencyStats.samples l) <= 200)%nat;
    inv_alpha : LatencyStats.alpha l = 0.25;
    inv_ema : is_Some (LatencyStats.ema l);
    inv_window : UptimeStats.window u = DNSUptimerAI.window self;
    inv_outcomes :
      forall z, In z (items (UptimeStats.results u)) -> z = 0%Z \/ z = 1%Z;
    inv_result_key :
      (CheckResult.target r, CheckResult.resolver r, CheckResult.rtype r) = key;
    inv_result_count : count (CheckResult.latency_summary r) =
                       deque_len (LatencyStats.samples l)
  }.

(** ** The snapshot for the dashboard *)

(** One entry of the snapshot: the keys of the result dict (its own
    resolver and record type replace the two written before it) and the two
    anomaly fields of the key's [LatencyStats]. *)
Record snapshot_entry : Type := mkEntry {
  entry_result : CheckResult.t;
  entry_last_anomaly : option anomaly;
  entry_last_anomaly_ts : option R
}.

Definition with_latency (self : DNSUptimerAI.t)
    (lm : gmap CheckKey LatencyStats.t) : DNSUptimerAI.t :=
  DNSUptimerAI.mk (DNSUptimerAI.targets self) (DNSUptimerAI.resolvers self)
    (DNSUptimerAI.records self) (DNSUptimerAI.interval self)
    (DNSUptimerAI.window self) (DNSUptimerAI.timeout self)
    (DNSUptimerAI.webhook self) lm
    (DNSUptimerAI.uptime self) (DNSUptimerAI.last_results self)
    (DNSUptimerAI._stop self).

(** The body of the [for] loop of [snapshot], for one key of
    [last_results]: [self.latency[key]] is a [defaultdict] access, and
    [out[target].append(...)] is one on [out]. *)
Definition snapshot_step
    (acc : gmap string (list snapshot_entry) * DNSUptimerAI.t) (key : CheckKey)
    : gmap string (list snapshot_entry) * DNSUptimerAI.t :=
  let '(out, self) := acc in
  match DNSUptimerAI.last_results self !! key with
  | None => acc
  | Some result =>
      let '(lat, lm) :=
        defaultdict_get LatencyStats.new (DNSUptimerAI.latency self) key in
      let entry :=
        mkEntry result (LatencyStats.last_anomaly lat)
          (LatencyStats.last_anomaly_ts lat) in
      (<[key.1.1 := default [] (out !! key.1.1) ++ [entry]]> out,
       with_latency self lm)
  end.

(** [snapshot].  The dict [last_results] is gone through in the order in
    which its keys were first inserted; the finite map does not record that
    order, so it is given as [order], the list of the keys of
    [last_results].  The result is the ["targets"] dict, the
    ["generated_at"] time, and the monitor after the [defaultdict]
    accesses. *)
Definition snapshot (self : DNSUptimerAI.t) (order : list CheckKey) (now : R)
    : gmap string (list snapshot_entry) * R * DNSUptimerAI.t :=
  let '(out, self') := fold_left snapshot_step order (∅, self) in
  (out, now, self').

(** The entry of the snapshot for a key. *)
Definition entry_of (self : DNSUptimerAI.t) (key : CheckKey)
    (e : snapshot_entry) : Prop :=
  DNSUptimerAI.last_results self !! key = Some (entry_result e) /\
  (CheckResult.target (entry_result e), CheckResult.resolver (entry_result e),
   CheckResult.rtype (entry_result e)) = key /\
  entry_last_anomaly e = LatencyStats.last_anomaly (latency_of self key) /\
  entry_last_anomaly_ts e = LatencyStats.last_anomaly_ts (latency_of self key).

(** ** The command line lists

    [main_async] turns the three comma-separated options into lists.  A
    text is a list of characters here; the definitions follow Python on
    characters below 128 (on others [isspace] and [upper] do more in
    Python), which is the precondition [ascii_text] of the properties. *)

Definition ascii_text (s : list ascii) : Prop :=
  forall c, In c s -> (nat_of_ascii c < 128)%nat.

(** [c.isspace()]: tab to carriage return, the four separators, space. *)
Definition isspace (c : ascii) : bool :=
  let n := nat_of_ascii c in
  ((9 <=? n) && (n <=? 13) || (28 <=? n) && (n <=? 31) || (n =? 32))%nat.

Definition is_comma (c : ascii) : bool := (nat_of_ascii c =? 44)%nat.

(** [s.split(",")]. *)
Fixpoint split_comma (s : list ascii) : list (list ascii) :=
  match s with
  | [] => [[]]
  | c :: s' =>
      if is_comma c then [] :: split_comma s'
      else match split_comma s' with
           | [] => [[c]]
           | p :: ps => (c :: p) :: ps
           end
  end.

Fixpoint lstrip (s : list ascii) : list ascii :=
  match s with
  | [] => []
  | c :: s' => if isspace c then lstrip s' else s
  end.

Definition rstrip (s : list ascii) : list ascii := rev (lstrip (rev s)).

(** [s.strip()]. *)
Definition strip (s : list ascii) : list ascii := rstrip (lstrip s).

Definition upper_char (c : ascii) : ascii :=
  let n := nat_of_ascii c in
  if ((97 <=? n) && (n <=? 122))%nat then ascii_of_nat (n - 32) else c.

(** [s.upper()]. *)
Definition upper (s : list ascii) : list ascii := map upper_char s.

Definition nonempty (s : list ascii) : bool :=
  match s with [] => false | _ => true end.

(** [[t.strip() for t in s.split(",") if t.strip()]]. *)
Definition parse_names (s : list ascii) : list (list ascii) :=
  List.filter nonempty (map strip (split_comma s)).

(** [[rt.strip().upper() for rt in s.split(",") if rt.strip()]]. *)
Definition parse_records (s : list ascii) : list (list ascii) :=
  map upper (List.filter nonempty (map strip (split_comma s))).

(** [",".join(names)]. *)
Fixpoint join_comma (names : list (list ascii)) : list ascii :=
  match names with
  | [] => []
  | [n] => n
  | n :: rest => n ++ ","%char :: join_comma rest
  end.

(** A name as the lists hold it: not empty, no comma, no white space at
    either end. *)
Definition clean_name (n : list ascii) : Prop :=
  n <> [] /\
  (forall c, In c n -> is_comma c = false) /\
  (forall c, hd_error n = Some c -> isspace c = false) /\
  (forall c, hd_error (rev n) = Some c -> isspace c = false).

(** The monitor that [main_async] constructs from the options. *)
Definition monitor_of_args (targets resolvers records : list ascii)
    (interval : R) (window : Z) (timeout : R) (webhook : option string)
    : DNSUptimerAI.t :=
  DNSUptimerAI.new
    (map String.string_of_list_ascii (parse_names targets))
    (map String.string_of_list_ascii (parse_names resolvers))
    (map String.string_of_list_ascii (parse_records records))
    interval window timeout webhook.

(** Waves that take 2 s each, and no stop signal. *)
Definition never_stopped : loop_env := mkLoopEnv None (fun _ => 2).

(** The start of the wave that comes [k] waves after wave [i], when wave
    [i] starts at [now] and no stop signal comes: every wave before it takes
    its own time and is followed by the sleep. *)
Definition wave_start (self : DNSUptimerAI.t) (env : loop_env)
    (i k : nat) (now : R) : R :=
  now + Rsum (map (fun j => wave_time env j + Rmax 0 (DNSUptimerAI.interval self))
                (seq i k)).

(** * Properties *)

(** ** Comparisons and division *)

Lemma Rltb_true (x y : R) : Rltb x y = true <-> x < y.
Proof. unfold Rltb. destruct (Rlt_dec x y); split; intros; try easy. Qed.

Lemma Rltb_false (x y : R) : Rltb x y = false <-> y <= x.
Proof.
  unfold Rltb. destruct (Rlt_dec x y); split; intros; try easy; lra.
Qed.

Lemma Rleb_true (x y : R) : Rleb x y = true <-> x <= y.
Proof. unfold Rleb. destruct (Rle_dec x y); split; intros; try easy. Qed.

Lemma Rleb_false (x y : R) : Rleb x y = false <-> y < x.
Proof.
  unfold Rleb. destruct (Rle_dec x y); split; intros; try easy; lra.
Qed.

Lemma Reqb_true (x y : R) : Reqb x y = true <-> x = y.
Proof. unfold Reqb. destruct (Req_dec_T x y); split; intros; try easy. Qed.

Lemma Reqb_false (x y : R) : Reqb x y = false <-> x <> y.
Proof. unfold Reqb. destruct (Req_dec_T x y); split; intros; try easy. Qed.

Lemma py_div_nonzero (a b : R) : b <> 0 -> py_div a b = Ret (a / b).
Proof.
  intros Hb. unfold py_div.
  destruct (Reqb b 0) eqn:E; [apply Reqb_true in E; contradiction | reflexivity].
Qed.

Lemma float_or_nonzero (v b : R) : v <> 0 -> float_or (Some v) b = v.
Proof.
  intros Hv. unfold float_or.
  destruct (Reqb v 0) eqn:E; [apply Reqb_true in E; contradiction | reflexivity].
Qed.

(** ** Sums, mean and deviation *)

Lemma Rsum_cons (a : R) (l : list R) : Rsum (a :: l) = a + Rsum l.
Proof. reflexivity. Qed.

Lemma Rsum_repeat (c : R) (n : nat) : Rsum (repeat c n) = INR n * c.
Proof.
  induction n as [|n IH].
  - simpl. lra.
  - rewrite S_INR. cbn [repeat]. rewrite Rsum_cons, IH. lra.
Qed.

Lemma all_equal_repeat (c : R) (l : list R) :
  (forall x, In x l -> x = c) -> l = repeat c (length l).
Proof.
  induction l as [|a l IH]; intros H; simpl.
  - reflexivity.
  - rewrite (H a) by now left.
    f_equal. apply IH. intros x Hx. apply H. now right.
Qed.

Lemma mean_nonempty (data : list R) :
  data <> [] -> mean data = Ret (Rsum data / INR (length data)).
Proof. destruct data; [contradiction | reflexivity]. Qed.

Lemma pstdev_nonempty (data : list R) :
  data <> [] ->
  pstdev data =
    Ret (sqrt (sumsq (Rsum data / INR (length data)) data / INR (length data))).
Proof.
  intros H. unfold pstdev, pvariance. rewrite (mean_nonempty _ H). reflexivity.
Qed.

Lemma sumsq_repeat (c : R) (n : nat) : sumsq c (repeat c n) = 0.
Proof.
  unfold sumsq. induction n as [|n IH].
  - reflexivity.
  - cbn [repeat map]. rewrite Rsum_cons, IH. lra.
Qed.

Lemma pstdev_repeat (c : R) (n : nat) :
  (0 < n)%nat -> pstdev (repeat c n) = Ret 0.
Proof.
  intros Hn.
  assert (Hne : repeat c n <> []) by (destruct n; [lia | discriminate]).
  rewrite (pstdev_nonempty _ Hne), Rsum_repeat, repeat_length.
  assert (Hn0 : INR n <> 0) by (apply not_0_INR; lia).
  replace (INR n * c / INR n) with c by (field; exact Hn0).
  rewrite sumsq_repeat.
  replace (0 / INR n) with 0 by (field; exact Hn0).
  now rewrite sqrt_0.
Qed.

(** ** [zscore] *)

Lemma warm_latency_len (n : nat) :
  deque_len (LatencyStats.samples (warm_latency n)) = n.
Proof. apply repeat_length. Qed.

Lemma warm_latency_items (n : nat) (x : R) :
  In x (items (LatencyStats.samples (warm_latency n))) -> x = 16.
Proof. intros H. now apply repeat_spec in H. Qed.

Lemma zscore_warm (self : LatencyStats.t) (value : R) :
  (10 <= deque_len (LatencyStats.samples self))%nat ->
  let xs := items (LatencyStats.samples self) in
  let mu := Rsum xs / INR (length xs) in
  let sigma := sqrt (sumsq mu xs / INR (length xs)) in
  LatencyStats.zscore self value =
    Ret (if Reqb sigma 0 then 0.0 else (value - mu) / sigma).
Proof.
  intros Hlen xs mu sigma. unfold LatencyStats.zscore.
  assert (Hne : xs <> []).
  { unfold deque_len in Hlen. subst xs. intros E. rewrite E in Hlen. simpl in Hlen. lia. }
  destruct (deque_len (LatencyStats.samples self) <? 10)%nat eqn:E.
  { apply Nat.ltb_lt in E. lia. }
  fold xs. rewrite (mean_nonempty _ Hne), (pstdev_nonempty _ Hne).
  simpl. fold mu. fold sigma.
  destruct (Reqb sigma 0) eqn:Es.
  - reflexivity.
  - apply py_div_nonzero. now apply Reqb_false.
Qed.

Lemma zscore_total (self : LatencyStats.t) (value : R) :
  exists z, LatencyStats.zscore self value = Ret z.
Proof.
  destruct (le_lt_dec 10 (deque_len (LatencyStats.samples self))) as [H|H].
  - eexists. apply (zscore_warm self value H).
  - exists 0.0. unfold LatencyStats.zscore.
    destruct (deque_len (LatencyStats.samples self) <? 10)%nat eqn:E.
    + reflexivity.
    + apply Nat.ltb_ge in E. lia.
Qed.

Lemma zscore_cold_start_aux (self : LatencyStats.t) (value : R) :
  (deque_len (LatencyStats.samples self) < 10)%nat ->
  LatencyStats.zscore self value = Ret 0.0.
Proof.
  intros H. unfold LatencyStats.zscore.
  destruct (deque_len (LatencyStats.samples self) <? 10)%nat eqn:E.
  - reflexivity.
  - apply Nat.ltb_ge in E. lia.
Qed.

(** C5. A [LatencyStats] whose window holds fewer than 10 samples gives the
    z-score 0.0 to every probed value. *)
Theorem zscore_cold_start (self : LatencyStats.t) (value : R) :
  (deque_len (LatencyStats.samples self) < 10)%nat ->
  LatencyStats.zscore self value = Ret 0.0.
Proof.
  intros Hcold. unfold LatencyStats.zscore.
  assert (E : (deque_len (LatencyStats.samples self) <? 10)%nat = true)
    by now apply Nat.ltb_lt.
  now rewrite E.
Qed.

Lemma zscore_cold_start_witness :
  LatencyStats.zscore (warm_latency 9) 26 = Ret 0.0.
Proof.
  apply (zscore_cold_start (warm_latency 9) 26).
  rewrite warm_latency_len. lia.
Defined.

(** C6. With at least 10 samples and population standard deviation 0 the
    z-score of every probed value is 0.0; samples that are all the same
    value have standard deviation 0, as ten samples of 10 have, for which
    the z-score of 50 is 0.0; and [zscore] never raises, so its division is
    not reached with a zero divisor. *)
Theorem zscore_zero_variance :
  (forall (self : LatencyStats.t) (value : R),
      (10 <= deque_len (LatencyStats.samples self))%nat ->
      pstdev (items (LatencyStats.samples self)) = Ret 0 ->
      LatencyStats.zscore self value = Ret 0.0) /\
  (forall (self : LatencyStats.t) (c : R),
      (10 <= deque_len (LatencyStats.samples self))%nat ->
      (forall x, In x (items (LatencyStats.samples self)) -> x = c) ->
      pstdev (items (LatencyStats.samples self)) = Ret 0) /\
  LatencyStats.zscore
    (LatencyStats.mk (mkDeque 200 [10; 10; 10; 10; 10; 10; 10; 10; 10; 10])
       (Some 10) 0.25 None None) 50 = Ret 0.0 /\
  (forall (self : LatencyStats.t) (value : R) (e : pyexc),
      LatencyStats.zscore self value <> Raise e).
Proof.
  assert (G1 : forall (self : LatencyStats.t) (value : R),
      (10 <= deque_len (LatencyStats.samples self))%nat ->
      pstdev (items (LatencyStats.samples self)) = Ret 0 ->
      LatencyStats.zscore self value = Ret 0.0).
  { intros self value Hlen Hsd.
    rewrite (zscore_warm self value Hlen). cbv zeta.
    assert (Hne : items (LatencyStats.samples self) <> []).
    { unfold deque_len in Hlen. intros E. rewrite E in Hlen. simpl in Hlen. lia. }
    rewrite (pstdev_nonempty _ Hne) in Hsd. injection Hsd as Hsd. rewrite Hsd.
    destruct (Reqb 0 0) eqn:E.
    - reflexivity.
    - apply Reqb_false in E. contradiction. }
  assert (G2 : forall (self : LatencyStats.t) (c : R),
      (10 <= deque_len (LatencyStats.samples self))%nat ->
      (forall x, In x (items (LatencyStats.samples self)) -> x = c) ->
      pstdev (items (LatencyStats.samples self)) = Ret 0).
  { intros self c Hlen Hall.
    rewrite (all_equal_repeat c _ Hall). apply pstdev_repeat.
    unfold deque_len in Hlen. lia. }
  split; [exact G1|]. split; [exact G2|]. split.
  - apply G1; [|apply (G2 _ 10)].
    + unfold deque_len. cbn [LatencyStats.samples items length]. lia.
    + unfold deque_len. cbn [LatencyStats.samples items length]. lia.
    + cbn [LatencyStats.samples items]. intros x Hx.
      repeat (destruct Hx as [Hx|Hx]; [now symmetry|]). contradiction.
  - intros self value e H. destruct (zscore_total self value) as [z Hz]. congruence.
Qed.

Lemma zscore_zero_variance_witness :
  pstdev (items (LatencyStats.samples (warm_latency 12))) = Ret 0 /\
  LatencyStats.zscore (warm_latency 12) 50 = Ret 0.0.
Proof.
  assert (Hlen : (10 <= deque_len (LatencyStats.samples (warm_latency 12)))%nat)
    by (rewrite warm_latency_len; lia).
  assert (Hsd : pstdev (items (LatencyStats.samples (warm_latency 12))) = Ret 0).
  { apply (proj1 (proj2 zscore_zero_variance) (warm_latency 12) 16 Hlen).
    apply warm_latency_items. }
  split; [exact Hsd|].
  apply (proj1 zscore_zero_variance (warm_latency 12) 50 Hlen Hsd).
Defined.

(** ** Rounding *)

Lemma round_half_even_below (x : R) (z : Z) :
  IZR z <= x < IZR z + 1 / 2 -> round_half_even x = z.
Proof.
  intros [Hlo Hhi]. unfold round_half_even.
  assert (Hf : Zfloor x = z) by (apply Zfloor_eq; lra).
  rewrite Hf.
  destruct (Rltb (x - IZR z) (1 / 2)) eqn:E; [reflexivity|].
  apply Rltb_false in E. lra.
Qed.

Lemma round_half_even_above (x : R) (z : Z) :
  IZR z + 1 / 2 < x < IZR z + 1 -> round_half_even x = (z + 1)%Z.
Proof.
  intros [Hlo Hhi]. unfold round_half_even.
  assert (Hf : Zfloor x = z) by (apply Zfloor_eq; lra).
  rewrite Hf.
  destruct (Rltb (x - IZR z) (1 / 2)) eqn:E.
  { apply Rltb_true in E. lra. }
  destruct (Rltb (1 / 2) (x - IZR z)) eqn:E'; [reflexivity|].
  apply Rltb_false in E'. lra.
Qed.

Lemma py_round_below (x : R) (n : nat) (z : Z) :
  IZR z <= x * 10 ^ n < IZR z + 1 / 2 -> py_round x n = IZR z / 10 ^ n.
Proof. intros H. unfold py_round. now rewrite (round_half_even_below _ z H). Qed.

(** ** The bounded window *)

Lemma feed_snoc {A : Type} (d : deque A) (xs : list A) (x : A) :
  feed d (xs ++ [x]) = deque_append (feed d xs) x.
Proof. unfold feed. now rewrite fold_left_app. Qed.

Lemma feed_maxlen {A : Type} (xs : list A) (d : deque A) :
  maxlen (feed d xs) = maxlen d.
Proof.
  revert d. induction xs as [|x xs IH]; intros d; [reflexivity|].
  unfold feed in *. cbn [fold_left]. now rewrite IH.
Qed.

Lemma tail_skipn {A : Type} (k : nat) (l : list A) :
  tail (skipn k l) = skipn (S k) l.
Proof.
  revert l. induction k as [|k IH]; intros [|a l]; try reflexivity.
  cbn [skipn]. rewrite IH. now destruct l.
Qed.

Lemma deque_append_len {A : Type} (d : deque A) (x : A) :
  (deque_len d <= maxlen d)%nat ->
  (deque_len (deque_append d x) <= maxlen d)%nat.
Proof.
  unfold deque_len, deque_append. cbn [items maxlen]. intros H.
  destruct (maxlen d <? length (items d ++ [x]))%nat eqn:E.
  - destruct (items d) as [|a l]; cbn [app tail length] in *; [lia|].
    rewrite length_app. cbn [length]. lia.
  - apply Nat.ltb_ge in E. exact E.
Qed.

(** Feeding a fresh deque of capacity [W]: what stays is the last [W] items
    fed, in the order they came. *)
Lemma deque_fifo {A : Type} (W : nat) (xs : list A) :
  items (feed (deque_new W) xs) = skipn (length xs - W) xs /\
  (deque_len (feed (deque_new W) xs) <= W)%nat.
Proof.
  induction xs as [|x xs IH] using rev_ind.
  - split; [reflexivity | unfold deque_len, feed; cbn; lia].
  - destruct IH as [IHi IHl]. rewrite feed_snoc.
    split.
    2:{ pose proof (deque_append_len (feed (deque_new W) xs) x) as H.
        rewrite feed_maxlen in H. apply H. exact IHl. }
    unfold deque_append. cbn [items]. rewrite feed_maxlen, IHi.
    cbn [maxlen deque_new]. rewrite !length_app, length_skipn. cbn [length].
    destruct (W <? length xs - (length xs - W) + 1)%nat eqn:E.
    + apply Nat.ltb_lt in E.
      assert (HW : (W <= length xs)%nat) by lia.
      replace (length xs + 1 - W)%nat with (S (length xs - W)) by lia.
      rewrite <- tail_skipn.
      rewrite skipn_app.
      replace (length xs - W - length xs)%nat with 0%nat by lia.
      reflexivity.
    + apply Nat.ltb_ge in E.
      replace (length xs - W)%nat with 0%nat by lia.
      replace (length xs + 1 - W)%nat with 0%nat by lia.
      reflexivity.
Qed.

(** The windows of the two statistics objects hold the last 200 values. *)
Lemma LatencyStats_window (xs : list R) :
  let s := fold_left LatencyStats.add xs LatencyStats.new in
  items (LatencyStats.samples s) = skipn (length xs - 200) xs /\
  (deque_len (LatencyStats.samples s) <= 200)%nat.
Proof.
  assert (H : forall (l : list R) (s : LatencyStats.t),
             LatencyStats.samples (fold_left LatencyStats.add l s) =
             feed (LatencyStats.samples s) l).
  { induction l as [|a l IH]; intros s; [reflexivity|].
    cbn [fold_left]. rewrite IH. reflexivity. }
  cbv zeta. rewrite H. apply (deque_fifo 200 xs).
Qed.

Lemma UptimeStats_window (w : Z) (bs : list bool) :
  let s := fold_left UptimeStats.add bs (UptimeStats.new w) in
  items (UptimeStats.results s) =
    skipn (length bs - 200) (map (fun b : bool => if b then 1%Z else 0%Z) bs) /\
  (deque_len (UptimeStats.results s) <= 200)%nat.
Proof.
  assert (H : forall (l : list bool) (s : UptimeStats.t),
             UptimeStats.results (fold_left UptimeStats.add l s) =
             feed (UptimeStats.results s)
                  (map (fun b : bool => if b then 1%Z else 0%Z) l)).
  { induction l as [|a l IH]; intros s; [reflexivity|].
    cbn [fold_left map]. rewrite IH. reflexivity. }
  cbv zeta. rewrite H.
  rewrite <- (length_map (fun b : bool => if b then 1%Z else 0%Z) bs).
  apply (deque_fifo 200).
Qed.

(** C3. The capacity of both windows is the constant 200 of the dataclass
    defaults, whatever window the objects are constructed for: an
    [UptimeStats] constructed with [window=3] holds all four of four added
    outcomes. *)
Theorem window_capacity_not_configured :
  maxlen (LatencyStats.samples LatencyStats.new) = 200%nat /\
  maxlen (UptimeStats.results (UptimeStats.new 3)) = 200%nat /\
  items (UptimeStats.results
           (fold_left UptimeStats.add [true; true; false; true]
              (UptimeStats.new 3))) = [1; 1; 0; 1]%Z /\
  ~ (deque_len (UptimeStats.results
                  (fold_left UptimeStats.add [true; true; false; true]
                     (UptimeStats.new 3))) <= 3)%nat.
Proof.
  split; [reflexivity|]. split; [reflexivity|]. split; [reflexivity|].
  vm_compute. lia.
Qed.

(** ** Sorting, median and percentile *)

Lemma insert_sorted_length (x : R) (l : list R) :
  length (insert_sorted x l) = S (length l).
Proof.
  induction l as [|y t IH]; [reflexivity|].
  cbn [insert_sorted]. destruct (Rleb x y); cbn [length]; [reflexivity|].
  now rewrite IH.
Qed.

Lemma sorted_length (l : list R) : length (sorted l) = length l.
Proof.
  induction l as [|x l IH]; [reflexivity|].
  unfold sorted in *. cbn [fold_right length].
  now rewrite insert_sorted_length, IH.
Qed.

Lemma insert_sorted_perm (x : R) (l : list R) :
  Permutation (insert_sorted x l) (x :: l).
Proof.
  induction l as [|y t IH]; [reflexivity|].
  cbn [insert_sorted]. destruct (Rleb x y); [reflexivity|].
  rewrite IH. apply perm_swap.
Qed.

Lemma sorted_perm (l : list R) : Permutation (sorted l) l.
Proof.
  induction l as [|x l IH]; [reflexivity|].
  unfold sorted in *. cbn [fold_right].
  rewrite insert_sorted_perm. now apply perm_skip.
Qed.

Lemma insert_sorted_hdrel (a x : R) (l : list R) :
  a <= x -> HdRel Rle a l -> HdRel Rle a (insert_sorted x l).
Proof.
  intros Hax Hl. destruct l as [|y t]; cbn [insert_sorted].
  - now constructor.
  - destruct (Rleb x y); constructor; [exact Hax|].
    now inversion Hl.
Qed.

Lemma insert_sorted_sorted (x : R) (l : list R) :
  Sorted Rle l -> Sorted Rle (insert_sorted x l).
Proof.
  induction l as [|y t IH]; intros Hs; cbn [insert_sorted].
  - repeat constructor.
  - destruct (Rleb x y) eqn:E.
    + apply Rleb_true in E. constructor; [exact Hs | now constructor].
    + apply Rleb_false in E. inversion Hs; subst.
      constructor; [now apply IH|].
      apply insert_sorted_hdrel; [lra | assumption].
Qed.

Lemma sorted_sorted (l : list R) : Sorted Rle (sorted l).
Proof.
  induction l as [|x l IH]; [constructor|].
  unfold sorted in *. cbn [fold_right]. now apply insert_sorted_sorted.
Qed.

Lemma index_in_range (l : list R) (k : nat) :
  (k < length l)%nat -> index l (Z.of_nat k) = Ret (nth k l 0).
Proof.
  intros Hk. unfold index.
  destruct (Z.of_nat k <? 0)%Z eqn:E; [apply Z.ltb_lt in E; lia|].
  rewrite E, Nat2Z.id.
  now rewrite (nth_error_nth' l 0 Hk).
Qed.

Lemma median_nonempty (xs : list R) :
  xs <> [] -> median xs = Ret (sorted_middle xs).
Proof.
  intros Hne. unfold median, sorted_middle. rewrite sorted_length.
  assert (Hn : (0 < length xs)%nat) by (destruct xs; [contradiction | simpl; lia]).
  destruct (length xs =? 0)%nat eqn:E; [apply Nat.eqb_eq in E; lia|].
  destruct (Nat.odd (length xs)) eqn:Eo.
  - apply index_in_range. rewrite sorted_length.
    apply Nat.div_lt; lia.
  - assert (H2 : (2 <= length xs)%nat).
    { destruct (length xs) as [|[|n]]; [lia | discriminate | lia]. }
    assert (Hh : (1 <= length xs / 2)%nat).
    { apply (Nat.div_le_lower_bound (length xs) 2 1); lia. }
    replace (Z.of_nat (length xs / 2) - 1)%Z
      with (Z.of_nat (length xs / 2 - 1)) by lia.
    assert (Hlt : (length xs / 2 < length xs)%nat) by (apply Nat.div_lt; lia).
    rewrite !index_in_range by (rewrite sorted_length; lia).
    reflexivity.
Qed.

Lemma floor_95 (k : Z) :
  (0 <= k)%Z -> Zfloor (0.95 * IZR k) = (19 * k / 20)%Z.
Proof.
  intros Hk. apply Zfloor_eq.
  pose proof (Z.div_mod (19 * k) 20 ltac:(lia)) as Hdm.
  pose proof (Z.mod_pos_bound (19 * k) 20 ltac:(lia)) as [Hr0 Hr1].
  assert (HR : 19 * IZR k = 20 * IZR (19 * k / 20) + IZR ((19 * k) mod 20)).
  { rewrite <- !mult_IZR, <- plus_IZR. now f_equal. }
  apply IZR_le in Hr0. apply IZR_lt in Hr1. lra.
Qed.

Lemma p95_index (n : nat) :
  (0 < n)%nat ->
  py_int (0.95 * IZR (Z.of_nat n - 1)) = Zfloor (0.95 * (INR n - 1)) /\
  Zfloor (0.95 * (INR n - 1)) = (19 * (Z.of_nat n - 1) / 20)%Z /\
  (Z.to_nat (Zfloor (0.95 * (INR n - 1))) < n)%nat.
Proof.
  intros Hn.
  assert (HI : IZR (Z.of_nat n - 1) = INR n - 1).
  { rewrite minus_IZR, <- INR_IZR_INZ. reflexivity. }
  assert (Hk : (0 <= Z.of_nat n - 1)%Z) by lia.
  assert (Hf := floor_95 _ Hk). rewrite HI in Hf.
  split; [|split].
  - unfold py_int. rewrite HI.
    destruct (Rleb 0 (0.95 * (INR n - 1))) eqn:E; [reflexivity|].
    apply Rleb_false in E. apply IZR_le in Hk. rewrite HI in Hk. lra.
  - exact Hf.
  - rewrite Hf.
    assert (19 * (Z.of_nat n - 1) / 20 <= Z.of_nat n - 1)%Z.
    { apply Z.div_le_upper_bound; lia. }
    assert (0 <= 19 * (Z.of_nat n - 1) / 20)%Z by (apply Z.div_pos; lia).
    lia.
Qed.

Lemma summary_nonempty (self : LatencyStats.t) :
  let xs := items (LatencyStats.samples self) in
  xs <> [] ->
  LatencyStats.summary self =
    Ret (mkSummary (length xs)
           (Some (py_round (sorted_middle xs) 2))
           (Some (py_round (nearest_rank_95 xs) 2))
           (Some (py_round (float_or (LatencyStats.ema self) (sorted_middle xs)) 2))).
Proof.
  intros xs Hne. unfold LatencyStats.summary, deque_len. fold xs.
  assert (Hn : (0 < length xs)%nat) by (destruct xs; [contradiction | simpl; lia]).
  destruct (length xs =? 0)%nat eqn:E; [apply Nat.eqb_eq in E; lia|].
  rewrite (median_nonempty xs Hne).
  destruct (p95_index (length xs) Hn) as (Hp & _ & Hlt).
  rewrite Hp.
  rewrite <- (Z2Nat.id (Zfloor (0.95 * (INR (length xs) - 1)))).
  2:{ apply Zfloor_lub.
      assert (1 <= INR (length xs)) by (apply (le_INR 1); lia). lra. }
  cbn [mbind res_bind].
  rewrite index_in_range by (rewrite sorted_length; exact Hlt).
  reflexivity.
Qed.

Lemma summary_total (self : LatencyStats.t) :
  exists s, LatencyStats.summary self = Ret s.
Proof.
  destruct (items (LatencyStats.samples self)) as [|a l] eqn:E.
  - eexists. unfold LatencyStats.summary, deque_len. rewrite E. reflexivity.
  - eexists. apply summary_nonempty. rewrite E. discriminate.
Qed.

(** C7. The window and its sorted copy hold the same samples, the copy in
    ascending order.  An empty window gives the summary with the count 0
    and no other key.  A window of [n > 0] samples gives the count [n], as
    median the sorted-middle value rounded to two decimals, and as p95 the
    sorted sample at index [floor(0.95 * (n - 1))], which is
    [19 * (n - 1) / 20] in whole numbers, rounded to two decimals. *)
Theorem summary_median_p95 (self : LatencyStats.t) :
  let xs := items (LatencyStats.samples self) in
  Sorted Rle (sorted xs) /\ Permutation (sorted xs) xs /\
  (length xs = 0%nat ->
     LatencyStats.summary self = Ret (mkSummary 0 None None None)) /\
  ((0 < length xs)%nat ->
     Zfloor (0.95 * (INR (length xs) - 1)) =
       (19 * (Z.of_nat (length xs) - 1) / 20)%Z /\
     exists s,
       LatencyStats.summary self = Ret s /\
       count s = length xs /\
       median_ms s = Some (py_round (sorted_middle xs) 2) /\
       p95_ms s = Some (py_round (nearest_rank_95 xs) 2)).
Proof.
  intros xs. split; [apply sorted_sorted|]. split; [apply sorted_perm|]. split.
  - intros H0. unfold LatencyStats.summary, deque_len. fold xs.
    now rewrite H0.
  - intros Hn. split; [apply (p95_index _ Hn)|].
    assert (Hne : xs <> []) by (intros E; rewrite E in Hn; simpl in Hn; lia).
    eexists. split; [apply (summary_nonempty self Hne)|].
    repeat split.
Qed.

Lemma summary_median_p95_witness :
  exists s,
    LatencyStats.summary one_sample = Ret s /\
    count s = 1%nat /\
    median_ms s = Some (py_round (sorted_middle [0.0625]) 2) /\
    p95_ms s = Some (py_round (nearest_rank_95 [0.0625]) 2).
Proof.
  assert (H : (0 < length (items (LatencyStats.samples one_sample)))%nat).
  { cbv [one_sample LatencyStats.samples items length]. lia. }
  apply (proj2 (proj2 (proj2 (proj2 (summary_median_p95 one_sample))) H)).
Defined.

Lemma sorted_middle_one (x : R) : sorted_middle [x] = x.
Proof. reflexivity. Qed.

Lemma nearest_rank_95_one (x : R) : nearest_rank_95 [x] = x.
Proof.
  unfold nearest_rank_95. cbn [length INR].
  replace (Zfloor (0.95 * (1 - 1))) with 0%Z; [reflexivity|].
  symmetry. apply Zfloor_eq. lra.
Qed.

(** C7, as stated, fails on a window holding the one sample 0.0625: the
    sorted-middle value and the sorted sample at index 0 are both 0.0625,
    and the summary reports 0.06 for both. *)
Lemma summary_rounds_counterexample :
  exists s,
    LatencyStats.summary one_sample = Ret s /\
    sorted_middle (items (LatencyStats.samples one_sample)) = 0.0625 /\
    nearest_rank_95 (items (LatencyStats.samples one_sample)) = 0.0625 /\
    median_ms s = Some 0.06 /\
    p95_ms s = Some 0.06 /\
    median_ms s <> Some (sorted_middle (items (LatencyStats.samples one_sample))) /\
    p95_ms s <> Some (nearest_rank_95 (items (LatencyStats.samples one_sample))).
Proof.
  assert (Hr : py_round 0.0625 2 = 0.06).
  { rewrite (py_round_below 0.0625 2 6); cbn [pow]; lra. }
  eexists. split.
  { apply (summary_nonempty one_sample). discriminate. }
  cbn [median_ms p95_ms one_sample LatencyStats.samples items].
  rewrite sorted_middle_one, nearest_rank_95_one, Hr.
  repeat split; intros H; injection H; lra.
Qed.

(** ** The probe *)

Lemma resolve_once_answer (self : DNSUptimerAI.t) (target resolver_ip rtype : string)
    (ts te n1 n2 : R) (ans : list string) :
  DNSUptimerAI._resolve_once self target resolver_ip rtype
    (mkEnv ts te (Ret ans) n1 n2) =
  Ret (true, (te - ts) * 1000.0, Some ans, None).
Proof. reflexivity. Qed.

Lemma resolve_once_caught (self : DNSUptimerAI.t) (target resolver_ip rtype : string)
    (ts te n1 n2 : R) (e : pyexc) :
  catches ExceptException e = true ->
  DNSUptimerAI._resolve_once self target resolver_ip rtype
    (mkEnv ts te (Raise e) n1 n2) =
  Ret (false, (te - ts) * 1000.0, None, Some (str_exc e)).
Proof.
  intros H. unfold DNSUptimerAI._resolve_once, try_except.
  cbn [answer mbind res_bind t_end t_start]. now rewrite H.
Qed.

(** C8. A probe whose resolution returns an answer gives success with the
    elapsed milliseconds, the addresses and no error text.  A probe whose
    resolution raises any instance of [Exception], in particular each of the
    DNS failures, returns failure with the elapsed milliseconds, no addresses
    and the text of the exception: nothing is raised. *)
Theorem resolve_once_never_raises (self : DNSUptimerAI.t)
    (target resolver_ip rtype : string) (ts te n1 n2 : R) :
  (forall ans : list string,
      DNSUptimerAI._resolve_once self target resolver_ip rtype
        (mkEnv ts te (Ret ans) n1 n2) =
      Ret (true, (te - ts) * 1000.0, Some ans, None)) /\
  (forall (k : dns_failure) (msg : string),
      DNSUptimerAI._resolve_once self target resolver_ip rtype
        (mkEnv ts te (Raise (DNSException k msg)) n1 n2) =
      Ret (false, (te - ts) * 1000.0, None, Some msg)) /\
  (forall e : pyexc,
      catches ExceptException e = true ->
      DNSUptimerAI._resolve_once self target resolver_ip rtype
        (mkEnv ts te (Raise e) n1 n2) =
      Ret (false, (te - ts) * 1000.0, None, Some (str_exc e))).
Proof.
  split; [|split].
  - intros ans. apply resolve_once_answer.
  - intros k msg. now apply (resolve_once_caught _ _ _ _ _ _ _ _ (DNSException k msg)).
  - intros e He. now apply resolve_once_caught.
Qed.

Lemma resolve_once_never_raises_witness :
  DNSUptimerAI._resolve_once (warm_monitor 9) "example.com" "1.1.1.1" "A"
    (mkEnv 0 3 (Raise (OtherException "Network is unreachable")) 0 0) =
  Ret (false, (3 - 0) * 1000.0, None, Some "Network is unreachable").
Proof.
  apply (proj2 (proj2 (resolve_once_never_raises (warm_monitor 9)
                         "example.com" "1.1.1.1" "A" 0 3 0 0))
           (OtherException "Network is unreachable")).
  reflexivity.
Defined.

(** ** One probe-and-update cycle *)

Lemma ratio_total (u : UptimeStats.t) :
  UptimeStats.ratio u =
    Ret (match items (UptimeStats.results u) with
         | [] => 0.0
         | _ => IZR (UptimeStats.Zsum (items (UptimeStats.results u))) /
                INR (deque_len (UptimeStats.results u))
         end).
Proof.
  unfold UptimeStats.ratio, deque_len.
  destruct (items (UptimeStats.results u)) as [|a l]; [reflexivity|].
  apply py_div_nonzero. apply not_0_INR. discriminate.
Qed.

Lemma ratio_value (u : UptimeStats.t) (k : Z) (n : nat) :
  (0 < n)%nat ->
  UptimeStats.Zsum (items (UptimeStats.results u)) = k ->
  deque_len (UptimeStats.results u) = n ->
  UptimeStats.ratio u = Ret (IZR k / IZR (Z.of_nat n)).
Proof.
  intros Hn Hk Hl. rewrite ratio_total, Hk, Hl, <- INR_IZR_INZ.
  unfold deque_len in Hl.
  destruct (items (UptimeStats.results u)); [simpl in Hl; lia | reflexivity].
Qed.

Lemma check_and_analyze_run (self : DNSUptimerAI.t)
    (target resolver_ip rtype : string) (env : probe_env)
    (ok : bool) (x : R) (addrs : option (list string)) (err : option string) :
  DNSUptimerAI._resolve_once self target resolver_ip rtype env =
    Ret (ok, x, addrs, err) ->
  let key := (target, resolver_ip, rtype) in
  let l1 := LatencyStats.add (latency_of self key) x in
  let u1 := UptimeStats.add (uptime_of self key) ok in
  exists (z : R) (summ : summary_dict) (upt : R),
    LatencyStats.zscore l1 x = Ret z /\
    LatencyStats.summary l1 = Ret summ /\
    UptimeStats.ratio u1 = Ret upt /\
    let result :=
      CheckResult.mk target resolver_ip rtype ok (py_round x 2) (py_round z 2)
        (default [] addrs) err (py_round upt 4) summ (now_result env) in
    let a :=
      DNSUptimerAI.anomaly_logic ok x z upt
        (deque_len (UptimeStats.results u1)) (LatencyStats.ema l1) in
    exists self' : DNSUptimerAI.t,
      DNSUptimerAI._check_and_analyze self target resolver_ip rtype env =
        Ret (self', option_map (fun a => mkAlert target resolver_ip rtype a result) a) /\
      DNSUptimerAI.last_results self' !! key = Some result /\
      DNSUptimerAI.uptime self' !! key = Some u1 /\
      DNSUptimerAI.latency self' !! key =
        Some (match a with
              | Some a => LatencyStats.set_anomaly l1 a (now_anomaly env)
              | None => l1
              end).
Proof.
  intros Hres key l1 u1.
  destruct (zscore_total l1 x) as [z Hz].
  destruct (summary_total l1) as [summ Hs].
  pose proof (ratio_total u1) as Hu.
  exists z, summ. eexists. split; [exact Hz|]. split; [exact Hs|]. split; [exact Hu|].
  cbv zeta.
  unfold DNSUptimerAI._check_and_analyze. rewrite Hres. cbn [mbind res_bind].
  fold key.
  assert (Eu : UptimeStats.add
                 (fst (defaultdict_get (UptimeStats.new (DNSUptimerAI.window self))
                         (DNSUptimerAI.uptime self) key)) ok = u1).
  { unfold u1, uptime_of, defaultdict_get.
    now destruct (_ !! key). }
  assert (El : LatencyStats.add
                 (fst (defaultdict_get LatencyStats.new
                         (DNSUptimerAI.latency self) key)) x = l1).
  { unfold l1, latency_of, defaultdict_get.
    now destruct (_ !! key). }
  destruct (defaultdict_get (UptimeStats.new (DNSUptimerAI.window self))
              (DNSUptimerAI.uptime self) key) as [u0 um].
  destruct (defaultdict_get LatencyStats.new (DNSUptimerAI.latency self) key)
    as [l0 lm].
  cbn [fst] in Eu, El. rewrite Eu, El, Hz. cbn [mbind res_bind].
  rewrite Hs. cbn [mbind res_bind]. rewrite Hu. cbn [mbind res_bind].
  match goal with
  | |- context [DNSUptimerAI.anomaly_logic ?a ?b ?c ?d ?e ?f] =>
      destruct (DNSUptimerAI.anomaly_logic a b c d e f) as [an|]
  end.
  - eexists. split; [reflexivity|].
    cbn [DNSUptimerAI.last_results DNSUptimerAI.uptime DNSUptimerAI.latency].
    now rewrite !lookup_insert_eq.
  - eexists. split; [reflexivity|].
    cbn [DNSUptimerAI.last_results DNSUptimerAI.uptime DNSUptimerAI.latency].
    now rewrite !lookup_insert_eq.
Qed.

(** ** The anomaly decision *)

Lemma anomaly_logic_failed (x z upt : R) (n : nat) (e : option R) :
  DNSUptimerAI.anomaly_logic false x z upt n e =
    Some (if Rltb upt 0.95 && (20 <=? n)%nat
          then RepeatedFailures upt else SingleFailure).
Proof.
  unfold DNSUptimerAI.anomaly_logic. cbn [negb].
  now destruct (Rltb upt 0.95 && (20 <=? n)%nat).
Qed.

Lemma anomaly_logic_succeeded (x z upt : R) (n : nat) (e : option R) :
  DNSUptimerAI.anomaly_logic true x z upt n e <> None <->
  3.0 <= z /\ x > float_or e x * 1.5.
Proof.
  unfold DNSUptimerAI.anomaly_logic. cbn [negb].
  destruct (Rleb 3.0 z) eqn:Ez; destruct (Rltb (float_or e x * 1.5) x) eqn:Ex;
    cbn [andb];
    try apply Rleb_true in Ez; try apply Rleb_false in Ez;
    try apply Rltb_true in Ex; try apply Rltb_false in Ex;
    split; try congruence; try (intros [? ?]; lra); intros _; split; lra.
Qed.

Lemma deque_append_len_le {A : Type} (d : deque A) (x : A) :
  (deque_len (deque_append d x) <= S (deque_len d))%nat.
Proof.
  unfold deque_len, deque_append. cbn [items].
  destruct (maxlen d <? length (items d ++ [x]))%nat.
  - destruct (items d) as [|a l]; cbn [app tail length]; [lia|].
    rewrite length_app. cbn [length]. lia.
  - rewrite length_app. cbn [length]. lia.
Qed.

(** C4. A failed probe always has an anomaly reason, and an alert goes out
    with it.  The reason is "Repeated failures" exactly when the key has at
    least 20 recorded outcomes (this one counted) and the uptime ratio over
    them is below 0.95; otherwise it is "Single failure", as it is for a key
    with 5 prior outcomes. *)
Theorem failed_probe_reason (self : DNSUptimerAI.t)
    (target resolver_ip rtype : string) (env : probe_env)
    (x : R) (addrs : option (list string)) (err : option string) :
  DNSUptimerAI._resolve_once self target resolver_ip rtype env =
    Ret (false, x, addrs, err) ->
  let key := (target, resolver_ip, rtype) in
  let u0 := uptime_of self key in
  let u1 := UptimeStats.add u0 false in
  exists (self' : DNSUptimerAI.t) (al : alert) (upt : R) (l' : LatencyStats.t),
    DNSUptimerAI._check_and_analyze self target resolver_ip rtype env =
      Ret (self', Some al) /\
    UptimeStats.ratio u1 = Ret upt /\
    DNSUptimerAI.uptime self' !! key = Some u1 /\
    DNSUptimerAI.latency self' !! key = Some l' /\
    LatencyStats.last_anomaly l' = Some (alert_anomaly al) /\
    ((20 <= deque_len (UptimeStats.results u1))%nat /\ upt < 0.95 <->
       alert_anomaly al = RepeatedFailures upt) /\
    (~ ((20 <= deque_len (UptimeStats.results u1))%nat /\ upt < 0.95) <->
       alert_anomaly al = SingleFailure) /\
    (deque_len (UptimeStats.results u0) = 5%nat ->
       alert_anomaly al = SingleFailure).
Proof.
  intros Hres key u0 u1.
  destruct (check_and_analyze_run self target resolver_ip rtype env false x addrs err Hres)
    as (z & summ & upt & _ & _ & Hu & self' & Hrun & _ & Hup & Hlat).
  fold key in Hrun, Hup, Hlat. fold u0 in Hrun, Hup, Hlat, Hu.
  fold u1 in Hrun, Hup, Hlat, Hu.
  rewrite anomaly_logic_failed in Hrun, Hlat. cbn [option_map] in Hrun.
  eexists self', _, upt, _.
  split; [exact Hrun|]. split; [exact Hu|]. split; [exact Hup|].
  split; [exact Hlat|]. split; [reflexivity|].
  cbn [alert_anomaly].
  assert (Hlen : (deque_len (UptimeStats.results u1) <=
                  S (deque_len (UptimeStats.results u0)))%nat)
    by apply deque_append_len_le.
  destruct (Rltb upt 0.95) eqn:Er;
    [apply Rltb_true in Er | apply Rltb_false in Er];
    (destruct (20 <=? deque_len (UptimeStats.results u1))%nat eqn:En;
     [apply Nat.leb_le in En | apply Nat.leb_gt in En]);
    cbn [andb]; repeat split; intros; try easy; try lia; try lra;
    try (exfalso; lia); try (exfalso; lra).
  all: try (match goal with H : ~ _ |- _ => exfalso; apply H; split; [lia|lra] end).
  all: try (match goal with H : _ /\ _ |- _ => destruct H; exfalso; first [lia|lra] end).
Qed.

Lemma failed_probe_reason_witness :
  exists (self' : DNSUptimerAI.t) (al : alert) (upt : R) (l' : LatencyStats.t),
    DNSUptimerAI._check_and_analyze (warm_monitor 5) "example.com" "1.1.1.1" "A"
      (timed_out 3000) = Ret (self', Some al) /\
    UptimeStats.ratio (UptimeStats.add (uptime_of (warm_monitor 5) key0) false) =
      Ret upt /\
    DNSUptimerAI.uptime self' !! key0 =
      Some (UptimeStats.add (uptime_of (warm_monitor 5) key0) false) /\
    DNSUptimerAI.latency self' !! key0 = Some l' /\
    LatencyStats.last_anomaly l' = Some (alert_anomaly al) /\
    ((20 <= deque_len (UptimeStats.results
                         (UptimeStats.add (uptime_of (warm_monitor 5) key0) false)))%nat
     /\ upt < 0.95 <-> alert_anomaly al = RepeatedFailures upt) /\
    (~ ((20 <= deque_len (UptimeStats.results
                            (UptimeStats.add (uptime_of (warm_monitor 5) key0) false)))%nat
        /\ upt < 0.95) <-> alert_anomaly al = SingleFailure) /\
    (deque_len (UptimeStats.results (uptime_of (warm_monitor 5) key0)) = 5%nat ->
       alert_anomaly al = SingleFailure).
Proof.
  apply (failed_probe_reason (warm_monitor 5) "example.com" "1.1.1.1" "A"
           (timed_out 3000) ((3000 / 1000 - 0) * 1000.0) None
           (Some "The DNS operation timed out.")).
  reflexivity.
Defined.

(** ** The concrete inputs *)

Lemma resolve_answered (self : DNSUptimerAI.t) (target resolver_ip rtype : string)
    (ms : R) :
  DNSUptimerAI._resolve_once self target resolver_ip rtype (answered ms) =
  Ret (true, ms, Some ["93.184.216.34"], None).
Proof.
  unfold answered. rewrite resolve_once_answer. do 4 f_equal. lra.
Qed.

Lemma latency_of_warm (n : nat) : latency_of (warm_monitor n) key0 = warm_latency n.
Proof.
  unfold latency_of, warm_monitor. cbn [DNSUptimerAI.latency].
  now rewrite lookup_singleton_eq.
Qed.

Lemma add_warm (n : nat) (x : R) :
  (n < 200)%nat ->
  LatencyStats.add (warm_latency n) x =
  LatencyStats.mk (mkDeque 200 (repeat 16 n ++ [x]))
    (Some (0.25 * x + (1 - 0.25) * 16)) 0.25 None None.
Proof.
  intros Hn. unfold LatencyStats.add, warm_latency, deque_append.
  cbn [LatencyStats.samples LatencyStats.ema LatencyStats.alpha
       LatencyStats.last_anomaly LatencyStats.last_anomaly_ts items maxlen].
  rewrite length_app, repeat_length. cbn [length].
  destruct (200 <? n + 1)%nat eqn:E; [apply Nat.ltb_lt in E; lia|].
  reflexivity.
Qed.

Lemma zscore_after_9 :
  LatencyStats.zscore (LatencyStats.add (warm_latency 9) 26) 26 = Ret 3.
Proof.
  rewrite add_warm by lia.
  rewrite zscore_warm.
  2:{ unfold deque_len. cbn [LatencyStats.samples items repeat app length]. lia. }
  cbv zeta. cbn [LatencyStats.samples items repeat app length].
  assert (Hmu : Rsum [16; 16; 16; 16; 16; 16; 16; 16; 16; 26] / INR 10 = 17).
  { unfold Rsum. cbn [fold_right INR]. lra. }
  rewrite Hmu.
  assert (Hv : sumsq 17 [16; 16; 16; 16; 16; 16; 16; 16; 16; 26] / INR 10 = 3 * 3).
  { unfold sumsq, Rsum. cbn [map fold_right INR]. lra. }
  rewrite Hv, sqrt_square by lra.
  destruct (Reqb 3 0) eqn:E; [apply Reqb_true in E; lra|].
  f_equal. lra.
Qed.

Lemma py_round_integer (z : Z) (n : nat) : py_round (IZR z) n = IZR z.
Proof.
  assert (Hp : 0 < 10 ^ n) by (apply pow_lt; lra).
  unfold py_round.
  assert (Hz : IZR z * 10 ^ n = IZR (z * 10 ^ Z.of_nat n)).
  { rewrite mult_IZR. f_equal. rewrite <- pow_IZR. reflexivity. }
  rewrite (round_half_even_below _ (z * 10 ^ Z.of_nat n)) by (rewrite Hz; lra).
  rewrite <- Hz. field. lra.
Qed.

(** The warm statistics are what the probes leave behind. *)
Lemma warm_latency_reached (n : nat) :
  (n < 200)%nat ->
  fold_left LatencyStats.add (repeat 16 (S n)) LatencyStats.new =
  warm_latency (S n).
Proof.
  induction n as [|n IH]; intros Hn.
  - reflexivity.
  - change (repeat 16 (S (S n))) with (16 :: repeat 16 (S n)).
    rewrite repeat_cons, fold_left_app, IH by lia. cbn [fold_left].
    rewrite add_warm by lia. unfold warm_latency.
    rewrite <- repeat_cons. do 2 f_equal. lra.
Qed.

Lemma warm_uptime_reached (n : nat) :
  (n <= 200)%nat ->
  fold_left UptimeStats.add (repeat true n) (UptimeStats.new 200) = warm_uptime n.
Proof.
  induction n as [|n IH]; intros Hn.
  - reflexivity.
  - change (repeat true (S n)) with (true :: repeat true n).
    rewrite repeat_cons, fold_left_app, IH by lia. cbn [fold_left].
    unfold UptimeStats.add, warm_uptime, deque_append.
    cbn [UptimeStats.window UptimeStats.results items maxlen].
    rewrite length_app, repeat_length. cbn [length].
    destruct (200 <? n + 1)%nat eqn:E; [apply Nat.ltb_lt in E; lia|].
    now rewrite <- repeat_cons.
Qed.

(** A failed probe on a key with 25 prior outcomes at ratio 0.80 is reported
    as repeated failures, the ratio being 20/26 with this outcome counted. *)
Lemma failed_probe_repeated_example :
  exists (self' : DNSUptimerAI.t) (al : alert),
    DNSUptimerAI._check_and_analyze degraded_monitor "example.com" "1.1.1.1" "A"
      (timed_out 3000) = Ret (self', Some al) /\
    UptimeStats.ratio degraded_uptime = Ret 0.8 /\
    alert_anomaly al = RepeatedFailures (20 / 26).
Proof.
  destruct (check_and_analyze_run degraded_monitor "example.com" "1.1.1.1" "A"
              (timed_out 3000) false ((3000 / 1000 - 0) * 1000.0) None
              (Some "The DNS operation timed out.") eq_refl)
    as (z & summ & upt & _ & _ & Hu & self' & Hrun & _).
  fold key0 in Hu, Hrun.
  assert (Hup : uptime_of degraded_monitor key0 = degraded_uptime).
  { unfold uptime_of, degraded_monitor. cbn [DNSUptimerAI.uptime].
    now rewrite lookup_singleton_eq. }
  rewrite Hup in Hu, Hrun.
  rewrite (ratio_value _ 20 26) in Hu by (reflexivity || lia).
  injection Hu as Hu.
  change (Z.of_nat 26) with 26%Z in Hu. subst upt. rewrite anomaly_logic_failed in Hrun.
  assert (Hn : deque_len (UptimeStats.results
                            (UptimeStats.add degraded_uptime false)) = 26%nat)
    by reflexivity.
  rewrite Hn in Hrun.
  assert (Hlt : Rltb (20 / 26) 0.95 = true) by (apply Rltb_true; lra).
  rewrite Hlt in Hrun. cbn [andb Nat.leb option_map] in Hrun.
  eexists self', _. split; [exact Hrun|]. split; [|reflexivity].
  rewrite (ratio_value _ 20 25) by (reflexivity || lia).
  change (Z.of_nat 25) with 25%Z. f_equal. lra.
Qed.

Lemma resolve_once_base_exception (self : DNSUptimerAI.t)
    (target resolver_ip rtype : string) (ts te n1 n2 : R) :
  DNSUptimerAI._resolve_once self target resolver_ip rtype
    (mkEnv ts te (Raise CancelledError) n1 n2) = Raise CancelledError.
Proof. reflexivity. Qed.

(** ** The z-score and the spike gate *)

(** C1. The z-score stored in the result of a probe is the z-score of the
    sample against the window that already holds the sample, rounded to two
    decimals: [zscore] runs after [add]. *)
Theorem stored_zscore_uses_updated_window (self : DNSUptimerAI.t)
    (target resolver_ip rtype : string) (env : probe_env)
    (ok : bool) (x : R) (addrs : option (list string)) (err : option string) :
  DNSUptimerAI._resolve_once self target resolver_ip rtype env =
    Ret (ok, x, addrs, err) ->
  let key := (target, resolver_ip, rtype) in
  exists (self' : DNSUptimerAI.t) (al : option alert) (r : CheckResult.t) (z : R),
    DNSUptimerAI._check_and_analyze self target resolver_ip rtype env =
      Ret (self', al) /\
    DNSUptimerAI.last_results self' !! key = Some r /\
    LatencyStats.zscore (LatencyStats.add (latency_of self key) x) x = Ret z /\
    CheckResult.zscore r = py_round z 2.
Proof.
  intros Hres key.
  destruct (check_and_analyze_run self target resolver_ip rtype env ok x addrs err Hres)
    as (z & summ & upt & Hz & _ & _ & self' & Hrun & Hlast & _ & _).
  eexists self', _, _, z.
  split; [exact Hrun|]. split; [exact Hlast|]. split; [exact Hz|]. reflexivity.
Qed.

Lemma stored_zscore_uses_updated_window_witness :
  exists (self' : DNSUptimerAI.t) (al : option alert) (r : CheckResult.t) (z : R),
    DNSUptimerAI._check_and_analyze (warm_monitor 9) "example.com" "1.1.1.1" "A"
      (answered 26) = Ret (self', al) /\
    DNSUptimerAI.last_results self' !! key0 = Some r /\
    LatencyStats.zscore (LatencyStats.add (latency_of (warm_monitor 9) key0) 26) 26 =
      Ret z /\
    CheckResult.zscore r = py_round z 2.
Proof.
  apply (stored_zscore_uses_updated_window (warm_monitor 9)
           "example.com" "1.1.1.1" "A" (answered 26) true 26
           (Some ["93.184.216.34"]) None).
  apply resolve_answered.
Defined.

(** C1, as stated, fails on a key that has seen nine probes of 16 ms when a
    probe of 26 ms succeeds: against the window before [add] the z-score is
    0.0 (fewer than 10 samples), and the result stores 3. *)
Lemma stored_zscore_counterexample :
  exists (self' : DNSUptimerAI.t) (al : option alert) (r : CheckResult.t)
         (z_prior : R),
    DNSUptimerAI._check_and_analyze (warm_monitor 9) "example.com" "1.1.1.1" "A"
      (answered 26) = Ret (self', al) /\
    DNSUptimerAI.last_results self' !! key0 = Some r /\
    LatencyStats.zscore (latency_of (warm_monitor 9) key0) 26 = Ret z_prior /\
    z_prior = 0 /\
    CheckResult.zscore r = 3 /\
    CheckResult.zscore r <> z_prior /\
    CheckResult.zscore r <> py_round z_prior 2.
Proof.
  destruct (check_and_analyze_run (warm_monitor 9) "example.com" "1.1.1.1" "A"
              (answered 26) true 26 (Some ["93.184.216.34"]) None
              (resolve_answered _ _ _ _ 26))
    as (z & summ & upt & Hz & _ & _ & self' & Hrun & Hlast & _ & _).
  fold key0 in Hz, Hlast. rewrite latency_of_warm, zscore_after_9 in Hz.
  injection Hz as Hz. subst z.
  assert (H3 : py_round 3 2 = 3) by apply (py_round_integer 3 2).
  assert (H0 : py_round 0 2 = 0) by apply (py_round_integer 0 2).
  eexists self', _, _, 0.
  split; [exact Hrun|]. split; [exact Hlast|].
  split.
  { rewrite latency_of_warm, (zscore_cold_start_aux (warm_latency 9) 26).
    - f_equal. lra.
    - rewrite warm_latency_len. lia. }
  cbn [CheckResult.zscore]. rewrite H3, H0.
  repeat split; lra.
Qed.

Lemma ema_after_add (l0 : LatencyStats.t) (x : R) :
  LatencyStats.ema (LatencyStats.add l0 x) =
    Some (match LatencyStats.ema l0 with
          | None => x
          | Some e => LatencyStats.alpha l0 * x + (1 - LatencyStats.alpha l0) * e
          end).
Proof.
  unfold LatencyStats.add. cbn [LatencyStats.ema].
  now destruct (LatencyStats.ema l0).
Qed.

Lemma add_alpha (xs : list R) (s : LatencyStats.t) :
  LatencyStats.alpha (fold_left LatencyStats.add xs s) = LatencyStats.alpha s.
Proof.
  revert s. induction xs as [|x xs IH]; intros s; [reflexivity|].
  cbn [fold_left]. now rewrite IH.
Qed.

Lemma ema_stays_between (lo hi : R) (xs : list R) :
  forall s : LatencyStats.t,
    0 <= LatencyStats.alpha s <= 1 ->
    (forall x, In x xs -> lo <= x <= hi) ->
    (forall e, LatencyStats.ema s = Some e -> lo <= e <= hi) ->
    forall e, LatencyStats.ema (fold_left LatencyStats.add xs s) = Some e ->
              lo <= e <= hi.
Proof.
  induction xs as [|x xs IH]; intros s Ha Hxs Hs e He.
  - now apply Hs.
  - cbn [fold_left] in He. apply (IH (LatencyStats.add s x)); try assumption.
    + intros y Hy. apply Hxs. now right.
    + intros e' He'. rewrite ema_after_add in He'. injection He' as <-.
      assert (Hx : lo <= x <= hi) by (apply Hxs; now left).
      destruct (LatencyStats.ema s) as [e0|] eqn:E0; [|exact Hx].
      specialize (Hs e0 eq_refl).
      split; nra.
Qed.

(** C2. A successful probe has an anomaly reason exactly when its z-score
    (against the window that already holds the sample) is at least 3.0 and
    its latency exceeds 1.5 times the EMA as it is after this sample's
    update, the latency itself standing in for an EMA of 0.  For a key with
    a prior EMA [e > 0], smoothing 0.25 and a latency that is not negative,
    that gate is [latency > 1.8 * e]. *)
Theorem spike_gate_uses_updated_ema (self : DNSUptimerAI.t)
    (target resolver_ip rtype : string) (env : probe_env)
    (x : R) (addrs : option (list string)) (err : option string) :
  DNSUptimerAI._resolve_once self target resolver_ip rtype env =
    Ret (true, x, addrs, err) ->
  let key := (target, resolver_ip, rtype) in
  let l0 := latency_of self key in
  let l1 := LatencyStats.add l0 x in
  exists (self' : DNSUptimerAI.t) (al : option alert) (z : R),
    DNSUptimerAI._check_and_analyze self target resolver_ip rtype env =
      Ret (self', al) /\
    LatencyStats.zscore l1 x = Ret z /\
    LatencyStats.ema l1 =
      Some (match LatencyStats.ema l0 with
            | None => x
            | Some e => LatencyStats.alpha l0 * x + (1 - LatencyStats.alpha l0) * e
            end) /\
    (al <> None <-> 3.0 <= z /\ x > float_or (LatencyStats.ema l1) x * 1.5) /\
    (forall e : R,
        LatencyStats.ema l0 = Some e -> LatencyStats.alpha l0 = 0.25 ->
        0 < e -> 0 <= x ->
        (x > float_or (LatencyStats.ema l1) x * 1.5 <-> x > 1.8 * e)).
Proof.
  intros Hres key l0 l1.
  destruct (check_and_analyze_run self target resolver_ip rtype env true x addrs err Hres)
    as (z & summ & upt & Hz & _ & _ & self' & Hrun & _ & _ & _).
  fold key in Hz, Hrun. fold l0 in Hz, Hrun. fold l1 in Hz, Hrun.
  eexists self', _, z.
  split; [exact Hrun|]. split; [exact Hz|]. split; [apply ema_after_add|].
  split.
  - rewrite <- (anomaly_logic_succeeded x z upt
                  (deque_len (UptimeStats.results
                                (UptimeStats.add (uptime_of self key) true)))
                  (LatencyStats.ema l1)).
    destruct (DNSUptimerAI.anomaly_logic true x z upt _ (LatencyStats.ema l1));
      cbn [option_map]; split; congruence.
  - intros e He Ha Hpos Hx. unfold l1. rewrite ema_after_add, He, Ha.
    rewrite float_or_nonzero by lra. lra.
Qed.

Lemma spike_gate_uses_updated_ema_witness :
  exists (self' : DNSUptimerAI.t) (al : option alert) (z : R),
    DNSUptimerAI._check_and_analyze (warm_monitor 16) "example.com" "1.1.1.1" "A"
      (answered 26.625) = Ret (self', al) /\
    LatencyStats.zscore
      (LatencyStats.add (latency_of (warm_monitor 16) key0) 26.625) 26.625 = Ret z /\
    LatencyStats.ema (LatencyStats.add (latency_of (warm_monitor 16) key0) 26.625) =
      Some (match LatencyStats.ema (latency_of (warm_monitor 16) key0) with
            | None => 26.625
            | Some e =>
                LatencyStats.alpha (latency_of (warm_monitor 16) key0) * 26.625 +
                (1 - LatencyStats.alpha (latency_of (warm_monitor 16) key0)) * e
            end) /\
    (al <> None <->
       3.0 <= z /\
       26.625 >
         float_or
           (LatencyStats.ema
              (LatencyStats.add (latency_of (warm_monitor 16) key0) 26.625))
           26.625 * 1.5) /\
    (forall e : R,
        LatencyStats.ema (latency_of (warm_monitor 16) key0) = Some e ->
        LatencyStats.alpha (latency_of (warm_monitor 16) key0) = 0.25 ->
        0 < e -> 0 <= 26.625 ->
        (26.625 >
           float_or
             (LatencyStats.ema
                (LatencyStats.add (latency_of (warm_monitor 16) key0) 26.625))
             26.625 * 1.5 <-> 26.625 > 1.8 * e)).
Proof.
  apply (spike_gate_uses_updated_ema (warm_monitor 16)
           "example.com" "1.1.1.1" "A" (answered 26.625) 26.625
           (Some ["93.184.216.34"]) None).
  apply resolve_answered.
Defined.

(** The key of [varied_monitor]: twenty samples, mean 16, deviation 1. *)
Lemma varied_samples :
  LatencyStats.samples varied_latency = mkDeque 200 alternating.
Proof. reflexivity. Qed.

Lemma latency_of_varied : latency_of varied_monitor key0 = varied_latency.
Proof.
  unfold latency_of, varied_monitor. cbn [DNSUptimerAI.latency].
  now rewrite lookup_singleton_eq.
Qed.

Lemma varied_ema :
  exists e : R, LatencyStats.ema varied_latency = Some e /\ 15 <= e <= 17.
Proof.
  destruct (LatencyStats.ema varied_latency) as [e|] eqn:E.
  - exists e. split; [reflexivity|].
    apply (ema_stays_between 15 17 alternating LatencyStats.new).
    + cbn [LatencyStats.new LatencyStats.alpha]. lra.
    + unfold alternating. intros x Hx. cbn [In] in Hx.
      repeat (destruct Hx as [<-|Hx]; [lra|]). destruct Hx.
    + intros e' He'. discriminate.
    + exact E.
  - exfalso. unfold varied_latency in E.
    change alternating with (removelast alternating ++ [17]) in E.
    rewrite fold_left_app in E. cbn [fold_left] in E.
    rewrite ema_after_add in E. discriminate.
Qed.

Lemma varied_add_items (x : R) :
  items (LatencyStats.samples (LatencyStats.add varied_latency x)) =
  alternating ++ [x].
Proof.
  unfold LatencyStats.add. cbn [LatencyStats.samples].
  rewrite varied_samples. reflexivity.
Qed.

Lemma zscore_varied_prior : LatencyStats.zscore varied_latency 26 = Ret 10.
Proof.
  rewrite zscore_warm.
  2:{ unfold deque_len. rewrite varied_samples. cbn [items alternating length]. lia. }
  cbv zeta. rewrite varied_samples. cbn [items].
  change (length alternating) with 20%nat.
  assert (Hmu : Rsum alternating / INR 20 = 16).
  { unfold alternating, Rsum. cbn [fold_right INR]. lra. }
  rewrite Hmu.
  assert (Hv : sumsq 16 alternating / INR 20 = 1).
  { unfold alternating, sumsq, Rsum. cbn [map fold_right INR]. lra. }
  rewrite Hv, sqrt_1.
  destruct (Reqb 1 0) eqn:E; [apply Reqb_true in E; lra|].
  f_equal. lra.
Qed.

Lemma zscore_varied_after :
  exists z : R,
    LatencyStats.zscore (LatencyStats.add varied_latency 26) 26 = Ret z /\
    4.065 < z < 4.07.
Proof.
  rewrite zscore_warm.
  2:{ unfold deque_len. rewrite varied_add_items.
      cbn [alternating app length]. lia. }
  cbv zeta. rewrite varied_add_items.
  change (length (alternating ++ [26])) with 21%nat.
  assert (Hmu : Rsum (alternating ++ [26]) / INR 21 = 346 / 21).
  { unfold alternating, Rsum. cbn [app fold_right INR]. lra. }
  rewrite Hmu.
  assert (Hv : sumsq (346 / 21) (alternating ++ [26]) / INR 21 = 2420 / 441).
  { unfold alternating, sumsq, Rsum. cbn [app map fold_right INR]. lra. }
  rewrite Hv.
  assert (Hlo : 2.341 < sqrt (2420 / 441)).
  { rewrite <- (sqrt_square 2.341) by lra. apply sqrt_lt_1_alt. lra. }
  assert (Hhi : sqrt (2420 / 441) < 2.3428).
  { rewrite <- (sqrt_square 2.3428) by lra. apply sqrt_lt_1_alt. lra. }
  set (s := sqrt (2420 / 441)) in *.
  destruct (Reqb s 0) eqn:E; [apply Reqb_true in E; lra|].
  eexists. split; [reflexivity|].
  assert (Hs : 0 < s) by lra.
  replace (26 - 346 / 21) with (200 / 21) by lra.
  split.
  - apply (Rmult_lt_reg_r s); [exact Hs|].
    replace (200 / 21 / s * s) with (200 / 21) by (field; lra). lra.
  - apply (Rmult_lt_reg_r s); [exact Hs|].
    replace (200 / 21 / s * s) with (200 / 21) by (field; lra). lra.
Qed.

Lemma zscore_flat_window (n : nat) (v : R) :
  (10 <= n)%nat -> LatencyStats.zscore (warm_latency n) v = Ret 0.0.
Proof.
  intros Hn. rewrite zscore_warm by (rewrite warm_latency_len; lia).
  cbv zeta. unfold warm_latency. cbn [LatencyStats.samples items].
  assert (Hne : repeat 16 n <> []) by (destruct n; [lia | discriminate]).
  pose proof (pstdev_repeat 16 n ltac:(lia)) as H.
  rewrite (pstdev_nonempty _ Hne) in H. injection H as H. rewrite H.
  destruct (Reqb 0 0) eqn:E; [reflexivity|].
  apply Reqb_false in E. contradiction.
Qed.

Lemma zscore_after_16_spike :
  LatencyStats.zscore (LatencyStats.add (warm_latency 16) 50) 50 = Ret 4.
Proof.
  rewrite add_warm by lia.
  rewrite zscore_warm.
  2:{ unfold deque_len. cbn [LatencyStats.samples items repeat app length]. lia. }
  cbv zeta. cbn [LatencyStats.samples items repeat app length].
  assert (Hmu : Rsum [16; 16; 16; 16; 16; 16; 16; 16; 16; 16; 16; 16; 16; 16;
                      16; 16; 50] / INR 17 = 18).
  { unfold Rsum. cbn [fold_right INR]. lra. }
  rewrite Hmu.
  assert (Hv : sumsq 18 [16; 16; 16; 16; 16; 16; 16; 16; 16; 16; 16; 16; 16;
                         16; 16; 16; 50] / INR 17 = 8 * 8).
  { unfold sumsq, Rsum. cbn [map fold_right INR]. lra. }
  rewrite Hv, sqrt_square by lra.
  destruct (Reqb 8 0) eqn:E; [apply Reqb_true in E; lra|].
  f_equal. lra.
Qed.

(** C2, as stated, fails on a key that has seen twenty probes alternating
    between 15 ms and 17 ms when a probe of 26 ms succeeds: the z-score is
    at least 3.0 against either window (10 against the twenty prior
    samples, 4.07 as stored) and the latency exceeds 1.5 times the EMA
    before the update, which lies between 15 and 17; and there is no
    anomaly, since 1.5 times the EMA after the update is at least 26.
    And on a key that has seen sixteen probes of 16 ms a successful probe
    of 50 ms is a latency spike, by the z-score 4 of the window that holds
    it and the EMA 24.5 after the update, while its z-score against the
    sixteen prior samples is 0.0. *)
Lemma spike_gate_counterexample :
  (exists (self' : DNSUptimerAI.t) (r : CheckResult.t)
          (z_prior z e_before e_after : R),
      DNSUptimerAI._check_and_analyze varied_monitor "example.com" "1.1.1.1" "A"
        (answered 26) = Ret (self', None) /\
      DNSUptimerAI.last_results self' !! key0 = Some r /\
      CheckResult.ok r = true /\
      LatencyStats.zscore (latency_of varied_monitor key0) 26 = Ret z_prior /\
      z_prior = 10 /\
      LatencyStats.zscore
        (LatencyStats.add (latency_of varied_monitor key0) 26) 26 = Ret z /\
      3.0 <= z /\
      CheckResult.zscore r = 4.07 /\
      LatencyStats.ema (latency_of varied_monitor key0) = Some e_before /\
      15 <= e_before <= 17 /\
      26 > e_before * 1.5 /\
      LatencyStats.ema (LatencyStats.add (latency_of varied_monitor key0) 26) =
        Some e_after /\
      e_after = 0.25 * 26 + (1 - 0.25) * e_before /\
      26 <= e_after * 1.5) /\
  (exists (self' : DNSUptimerAI.t) (al : alert) (z_prior : R),
      DNSUptimerAI._check_and_analyze (warm_monitor 16) "example.com" "1.1.1.1" "A"
        (answered 50) = Ret (self', Some al) /\
      alert_anomaly al = LatencySpike 4 50 /\
      LatencyStats.zscore (latency_of (warm_monitor 16) key0) 50 = Ret z_prior /\
      z_prior = 0 /\
      LatencyStats.ema (LatencyStats.add (latency_of (warm_monitor 16) key0) 50) =
        Some 24.5 /\
      50 > 24.5 * 1.5).
Proof.
  split.
  - destruct (check_and_analyze_run varied_monitor "example.com" "1.1.1.1" "A"
                (answered 26) true 26 (Some ["93.184.216.34"]) None
                (resolve_answered _ _ _ _ 26))
      as (z & summ & upt & Hz & _ & _ & self' & Hrun & Hlast & _ & _).
    fold key0 in Hz, Hrun, Hlast.
    rewrite latency_of_varied in Hz, Hrun.
    destruct zscore_varied_after as (z' & Hz' & Hzlo & Hzhi).
    assert (z = z') by congruence. subst z'.
    destruct varied_ema as (e & He & Helo & Hehi).
    assert (Hafter : LatencyStats.ema (LatencyStats.add varied_latency 26) =
                     Some (0.25 * 26 + (1 - 0.25) * e)).
    { rewrite ema_after_add, He. unfold varied_latency. rewrite add_alpha.
      reflexivity. }
    assert (Hnone : DNSUptimerAI.anomaly_logic true 26 z upt
                      (deque_len (UptimeStats.results
                         (UptimeStats.add (uptime_of varied_monitor key0) true)))
                      (LatencyStats.ema (LatencyStats.add varied_latency 26)) =
                    None).
    { match goal with |- ?a = None => destruct a eqn:E end; [|reflexivity].
      exfalso.
      assert (Hn : DNSUptimerAI.anomaly_logic true 26 z upt
                     (deque_len (UptimeStats.results
                        (UptimeStats.add (uptime_of varied_monitor key0) true)))
                     (LatencyStats.ema (LatencyStats.add varied_latency 26)) <>
                   None) by (rewrite E; discriminate).
      apply anomaly_logic_succeeded in Hn. destruct Hn as [_ Hn].
      rewrite Hafter, float_or_nonzero in Hn by lra. lra. }
    rewrite Hnone in Hrun. cbn [option_map] in Hrun.
    eexists self', _, 10, z, e, (0.25 * 26 + (1 - 0.25) * e).
    split; [exact Hrun|]. split; [exact Hlast|].
    cbn [CheckResult.ok CheckResult.zscore].
    rewrite latency_of_varied.
    split; [reflexivity|]. split; [exact zscore_varied_prior|].
    split; [reflexivity|]. split; [exact Hz|]. split; [lra|].
    split.
    { unfold py_round. rewrite (round_half_even_above _ 406).
      - cbn [pow]. change (406 + 1)%Z with 407%Z. lra.
      - cbn [pow]. lra. }
    split; [exact He|]. split; [lra|]. split; [lra|].
    split; [exact Hafter|]. split; [reflexivity | lra].
  - destruct (check_and_analyze_run (warm_monitor 16) "example.com" "1.1.1.1" "A"
                (answered 50) true 50 (Some ["93.184.216.34"]) None
                (resolve_answered _ _ _ _ 50))
      as (z & summ & upt & Hz & _ & _ & self' & Hrun & _ & _ & _).
    fold key0 in Hz, Hrun.
    rewrite latency_of_warm in Hz, Hrun.
    rewrite zscore_after_16_spike in Hz. injection Hz as Hz. subst z.
    assert (He : LatencyStats.ema (LatencyStats.add (warm_latency 16) 50) =
                 Some 24.5).
    { rewrite add_warm by lia. cbn [LatencyStats.ema]. f_equal. lra. }
    rewrite He in Hrun.
    assert (Hspike : forall n : nat,
               DNSUptimerAI.anomaly_logic true 50 4 upt n (Some 24.5) =
               Some (LatencySpike 4 50)).
    { intros n. unfold DNSUptimerAI.anomaly_logic. cbn [negb].
      rewrite (proj2 (Rleb_true 3.0 4)) by lra.
      rewrite float_or_nonzero by lra.
      rewrite (proj2 (Rltb_true (24.5 * 1.5) 50)) by lra. reflexivity. }
    rewrite Hspike in Hrun. cbn [option_map] in Hrun.
    eexists self', _, 0.0.
    split; [exact Hrun|]. split; [reflexivity|].
    rewrite latency_of_warm.
    split.
    { apply zscore_flat_window. lia. }
    split; [lra|]. split; [exact He | lra].
Qed.

(** ** The monitor loop *)

Lemma is_set_true (self : DNSUptimerAI.t) (env : loop_env) (ts now : R) :
  stop_at env = Some ts -> ts <= now -> is_set self env now = true.
Proof.
  intros H Hle. unfold is_set, monitor_at. rewrite H.
  rewrite (proj2 (Rleb_true ts now) Hle). reflexivity.
Qed.

Lemma is_set_false (self : DNSUptimerAI.t) (env : loop_env) (ts now : R) :
  DNSUptimerAI._stop self = false ->
  stop_at env = Some ts -> now < ts -> is_set self env now = false.
Proof.
  intros Hf H Hlt. unfold is_set, monitor_at. rewrite H.
  rewrite (proj2 (Rleb_false ts now) Hlt). exact Hf.
Qed.

Lemma is_set_entered_stopped (self : DNSUptimerAI.t) (env : loop_env) (now : R) :
  DNSUptimerAI._stop self = true -> is_set self env now = true.
Proof.
  intros Hs. unfold is_set, monitor_at.
  destruct (stop_at env) as [ts|]; [|exact Hs].
  destruct (Rleb ts now); [reflexivity | exact Hs].
Qed.

Lemma is_set_unset (self : DNSUptimerAI.t) (env : loop_env) (now : R) :
  is_set self env now = false ->
  DNSUptimerAI._stop self = false /\
  forall ts, stop_at env = Some ts -> now < ts.
Proof.
  unfold is_set, monitor_at. intros H.
  destruct (stop_at env) as [ts|].
  - destruct (Rleb ts now) eqn:E; [discriminate H|].
    split; [exact H|]. intros ts' [= <-]. now apply Rleb_false.
  - split; [exact H|]. intros ts' [=].
Qed.

Lemma run_loop_stopped (fuel : nat) (self : DNSUptimerAI.t) (env : loop_env)
    (i : nat) (now : R) :
  is_set self env now = true -> run_loop (S fuel) self env i now = [Exited now].
Proof. intros H. cbn [run_loop]. now rewrite H. Qed.

Lemma run_loop_waves_unset (fuel : nat) (self : DNSUptimerAI.t) (env : loop_env) :
  forall (i : nat) (now t : R) (tasks : list CheckKey),
    In (WaveStarted t tasks) (run_loop fuel self env i now) ->
    is_set self env t = false.
Proof.
  induction fuel as [|fuel IH]; intros i now t tasks Hin; cbn [run_loop] in Hin.
  - destruct Hin.
  - destruct (is_set self env now) eqn:E.
    + destruct Hin as [Hin|[]]. discriminate.
    + destruct Hin as [Hin|Hin].
      * injection Hin as <- _. exact E.
      * eapply IH. exact Hin.
Qed.

(** C9. The loop reads the event before every wave.  Entered on a monitor
    that [stop] has been called on, or whose event is set, it exits at once
    and starts no wave, whatever the signal's time.  Entered with the event
    not set and the stop signal given at time [ts]: a loop that evaluates
    its condition at or after [ts] exits there and starts nothing; every
    wave the loop starts, in any run, starts before [ts]; a stop signal that
    arrives during a wave lets the wave finish and the loop exits without
    sleeping; a stop signal that arrives during the sleep ends the sleep at
    [ts], before the interval is over, and the loop exits at [ts]. *)
Theorem stop_ends_the_loop (self : DNSUptimerAI.t) (env : loop_env) :
  (forall (fuel i : nat) (now : R),
      run_loop (S fuel) (stop self) env i now = [Exited now]) /\
  (DNSUptimerAI._stop self = true ->
   forall (fuel i : nat) (now : R),
     run_loop (S fuel) self env i now = [Exited now] /\
     forall (t : R) (tasks : list CheckKey),
       ~ In (WaveStarted t tasks) (run_loop fuel self env i now)) /\
  (DNSUptimerAI._stop self = false ->
   forall ts : R, stop_at env = Some ts ->
   (forall (fuel i : nat) (now : R),
       ts <= now -> run_loop (S fuel) self env i now = [Exited now]) /\
   (forall (fuel i : nat) (now t : R) (tasks : list CheckKey),
       In (WaveStarted t tasks) (run_loop fuel self env i now) -> t < ts) /\
   (forall (fuel i : nat) (now : R),
       now < ts <= now + wave_time env i ->
       run_loop (S (S fuel)) self env i now =
         [WaveStarted now (wave_tasks self); Exited (now + wave_time env i)]) /\
   (forall (fuel i : nat) (now : R),
       let woke := now + wave_time env i in
       0 <= wave_time env i ->
       woke < ts < woke + DNSUptimerAI.interval self ->
       wait_for_stop self env (DNSUptimerAI.interval self) woke = ts /\
       ts - woke < DNSUptimerAI.interval self /\
       run_loop (S (S fuel)) self env i now =
         [WaveStarted now (wave_tasks self); Exited ts])).
Proof.
  split; [|split].
  - intros fuel i now. apply run_loop_stopped.
    now apply is_set_entered_stopped.
  - intros Hset fuel i now. split.
    + apply run_loop_stopped. now apply is_set_entered_stopped.
    + intros t tasks Hin. apply run_loop_waves_unset in Hin.
      rewrite (is_set_entered_stopped self env t Hset) in Hin. discriminate.
  - intros Hunset ts Hstop. split; [|split; [|split]].
    + intros fuel i now Hle. apply run_loop_stopped.
      now apply (is_set_true self env ts).
    + intros fuel i now t tasks Hin.
      apply run_loop_waves_unset, is_set_unset in Hin.
      now apply (proj2 Hin).
    + intros fuel i now [Hlt Hle].
      cbn [run_loop]. rewrite (is_set_false self env ts now Hunset Hstop Hlt).
      assert (Hw : wait_for_stop self env (DNSUptimerAI.interval self)
                     (now + wave_time env i) = now + wave_time env i).
      { unfold wait_for_stop. now rewrite (is_set_true self env ts _ Hstop Hle). }
      rewrite Hw, (is_set_true self env ts _ Hstop Hle). reflexivity.
    + intros fuel i now woke Hd [Hlo Hhi].
      assert (Hw : wait_for_stop self env (DNSUptimerAI.interval self) woke = ts).
      { unfold wait_for_stop.
        rewrite (is_set_false self env ts woke Hunset Hstop Hlo).
        destruct (Rleb (DNSUptimerAI.interval self) 0) eqn:E.
        { apply Rleb_true in E. lra. }
        rewrite Hstop.
        destruct (Rltb ts (woke + DNSUptimerAI.interval self)) eqn:E'; [reflexivity|].
        apply Rltb_false in E'. lra. }
      split; [exact Hw|]. split; [lra|].
      cbn [run_loop].
      rewrite (is_set_false self env ts now Hunset Hstop)
        by (unfold woke in Hlo; lra).
      fold woke. rewrite Hw.
      rewrite (is_set_true self env ts ts Hstop) by lra. reflexivity.
Qed.

Lemma stop_ends_the_loop_witness :
  wait_for_stop (warm_monitor 9) stop_at_10
    (DNSUptimerAI.interval (warm_monitor 9)) (0 + 2) = 10 /\
  10 - (0 + 2) < DNSUptimerAI.interval (warm_monitor 9) /\
  run_loop 2 (warm_monitor 9) stop_at_10 0 0 =
    [WaveStarted 0 (wave_tasks (warm_monitor 9)); Exited 10].
Proof.
  apply (proj2 (proj2 (proj2
           (proj2 (proj2 (stop_ends_the_loop (warm_monitor 9) stop_at_10))
              eq_refl 10 eq_refl))) 0%nat 0%nat 0).
  - cbn [stop_at_10 wave_time]. lra.
  - cbn [stop_at_10 wave_time warm_monitor DNSUptimerAI.interval]. lra.
Defined.

(** * Further properties *)

(** ** The two windows *)

(** X1. Whatever is added to a fresh [LatencyStats] or [UptimeStats], the
    window never holds more than 200 items and holds exactly the last 200
    that were added, oldest first. *)
Theorem windows_keep_last_200 (xs : list R) (w : Z) (bs : list bool) :
  let l := fold_left LatencyStats.add xs LatencyStats.new in
  let u := fold_left UptimeStats.add bs (UptimeStats.new w) in
  items (LatencyStats.samples l) = skipn (length xs - 200) xs /\
  deque_len (LatencyStats.samples l) = Nat.min (length xs) 200 /\
  items (UptimeStats.results u) =
    map (fun b : bool => if b then 1%Z else 0%Z) (skipn (length bs - 200) bs) /\
  deque_len (UptimeStats.results u) = Nat.min (length bs) 200.
Proof.
  cbv zeta.
  assert (HL : forall (l : list R) (s : LatencyStats.t),
             LatencyStats.samples (fold_left LatencyStats.add l s) =
             feed (LatencyStats.samples s) l).
  { induction l as [|a l IH]; intros s; [reflexivity|].
    cbn [fold_left]. rewrite IH. reflexivity. }
  assert (HU : forall (l : list bool) (s : UptimeStats.t),
             UptimeStats.results (fold_left UptimeStats.add l s) =
             feed (UptimeStats.results s)
                  (map (fun b : bool => if b then 1%Z else 0%Z) l)).
  { induction l as [|a l IH]; intros s; [reflexivity|].
    cbn [fold_left map]. rewrite IH. reflexivity. }
  destruct (deque_fifo 200 xs) as [Hx _].
  destruct (deque_fifo 200 (map (fun b : bool => if b then 1%Z else 0%Z) bs))
    as [Hb _].
  rewrite length_map in Hb.
  unfold deque_len. rewrite HL, HU.
  change (LatencyStats.samples LatencyStats.new) with (@deque_new R 200).
  change (UptimeStats.results (UptimeStats.new w)) with (@deque_new Z 200).
  rewrite Hx, Hb, skipn_map, length_map, !length_skipn.
  repeat split; lia.
Qed.

Lemma windows_keep_last_200_aux (w : Z) (bs : list bool) :
  let u := fold_left UptimeStats.add bs (UptimeStats.new w) in
  items (UptimeStats.results u) =
    map (fun b : bool => if b then 1%Z else 0%Z) (skipn (length bs - 200) bs) /\
  deque_len (UptimeStats.results u) = Nat.min (length bs) 200.
Proof.
  cbv zeta. destruct (UptimeStats_window w bs) as [Hi _].
  unfold deque_len. rewrite Hi, skipn_map, length_map, length_skipn.
  split; [reflexivity | lia].
Qed.

Lemma windows_keep_last_200_lat (xs : list R) :
  deque_len (LatencyStats.samples (fold_left LatencyStats.add xs LatencyStats.new)) =
  Nat.min (length xs) 200.
Proof.
  destruct (LatencyStats_window xs) as [Hi _]. cbv zeta in Hi.
  unfold deque_len. rewrite Hi, length_skipn. lia.
Qed.

(** ** The moving average *)

(** X2. The EMA of a fresh [LatencyStats] is undefined until the first
    sample and defined ever after; the first sample is taken as it is, and
    the EMA never leaves the range of the samples added so far. *)
Theorem ema_defined_and_bounded (xs : list R) (lo hi : R) :
  let s := fold_left LatencyStats.add xs LatencyStats.new in
  (LatencyStats.ema s = None <-> xs = []) /\
  (forall x, xs = [x] -> LatencyStats.ema s = Some x) /\
  ((forall x, In x xs -> lo <= x <= hi) ->
   forall e, LatencyStats.ema s = Some e -> lo <= e <= hi).
Proof.
  cbv zeta. split; [|split].
  - destruct xs as [|x xs] using rev_ind; [easy|].
    rewrite fold_left_app. cbn [fold_left]. rewrite ema_after_add.
    split; [discriminate|]. intros H. now destruct xs.
  - intros x ->. reflexivity.
  - intros Hxs e He.
    apply (ema_stays_between lo hi xs LatencyStats.new); try assumption.
    + cbn [LatencyStats.new LatencyStats.alpha]. lra.
    + intros e' He'. discriminate.
Qed.

Lemma ema_defined_and_bounded_witness :
  16 <= 0.25 * 26 + (1 - 0.25) * 16 <= 26.
Proof.
  apply (proj2 (proj2 (ema_defined_and_bounded [16; 26] 16 26))).
  - intros x [<-|[<-|[]]]; lra.
  - reflexivity.
Defined.

(** ** The uptime ratio *)

Lemma Zsum_outcomes (bs : list bool) :
  UptimeStats.Zsum (map (fun b : bool => if b then 1%Z else 0%Z) bs) =
  Z.of_nat (count_occ Bool.bool_dec bs true).
Proof.
  induction bs as [|b bs IH]; [reflexivity|].
  cbn [map]. unfold UptimeStats.Zsum in *. cbn [fold_right]. rewrite IH.
  destruct b; cbn [count_occ].
  - destruct (Bool.bool_dec true true); [lia | contradiction].
  - destruct (Bool.bool_dec false true); [discriminate | lia].
Qed.

(** X3. After any run of outcomes added to a fresh [UptimeStats], [ratio]
    returns the share of successes among the outcomes in the window (the
    last 200), a number between 0 and 1; it returns 0.0 when nothing was
    added, and never raises. *)
Theorem ratio_is_share_of_successes (w : Z) (bs : list bool) :
  let u := fold_left UptimeStats.add bs (UptimeStats.new w) in
  let kept := skipn (length bs - 200) bs in
  exists r : R,
    UptimeStats.ratio u = Ret r /\
    0 <= r <= 1 /\
    r * INR (length kept) = INR (count_occ Bool.bool_dec kept true) /\
    (bs = [] -> r = 0) /\
    (bs <> [] -> (forall b, In b kept -> b = true) -> r = 1).
Proof.
  cbv zeta.
  destruct (windows_keep_last_200_aux w bs) as [Hit Hlen].
  set (u := fold_left UptimeStats.add bs (UptimeStats.new w)) in *.
  set (kept := skipn (length bs - 200) bs) in *.
  assert (Hk : length kept = Nat.min (length bs) 200).
  { unfold kept. rewrite length_skipn. lia. }
  pose proof (count_occ_bound Bool.bool_dec true kept) as Hc.
  destruct bs as [|b0 bs'] eqn:Ebs.
  - exists 0.0. rewrite ratio_total, Hit. cbn [kept length Nat.sub skipn map].
    split; [reflexivity|]. cbn [count_occ INR].
    split; [lra|]. split; [lra|]. split; [intros _; lra | congruence].
  - rewrite <- Ebs in *.
    assert (Hpos : (0 < length kept)%nat) by (rewrite Hk, Ebs; cbn [length]; lia).
    exists (INR (count_occ Bool.bool_dec kept true) / INR (length kept)).
    assert (Hn0 : INR (length kept) <> 0) by (apply not_0_INR; lia).
    assert (Hn1 : 0 < INR (length kept)) by (apply lt_0_INR; lia).
    split.
    { rewrite (ratio_value u (Z.of_nat (count_occ Bool.bool_dec kept true))
                 (length kept)); try assumption.
      - now rewrite <- !INR_IZR_INZ.
      - rewrite Hit. apply Zsum_outcomes.
      - now rewrite Hlen, Hk. }
    apply le_INR in Hc.
    assert (H0 : 0 <= INR (count_occ Bool.bool_dec kept true)) by apply pos_INR.
    split.
    { split.
      - apply Rmult_le_pos; [exact H0 | left; now apply Rinv_0_lt_compat].
      - apply (Rmult_le_reg_r (INR (length kept))); [exact Hn1|].
        unfold Rdiv. rewrite Rmult_assoc, Rinv_l by exact Hn0. lra. }
    split; [field; exact Hn0|].
    split; [intros E; rewrite E in Ebs; discriminate|].
    intros _ Hall.
    assert (Hcnt : count_occ Bool.bool_dec kept true = length kept).
    { clear -Hall. induction kept as [|b l IH]; [reflexivity|].
      rewrite (Hall b) by now left. cbn [count_occ length].
      destruct (Bool.bool_dec true true); [|contradiction].
      f_equal. apply IH. intros b' Hb'. apply Hall. now right. }
    rewrite Hcnt. field. exact Hn0.
Qed.

(** ** How large a z-score can be *)










(** ** What one cycle changes *)

Lemma check_and_analyze_frame (self self' : DNSUptimerAI.t)
    (target resolver_ip rtype : string) (env : probe_env) (al : option alert) :
  DNSUptimerAI._check_and_analyze self target resolver_ip rtype env =
    Ret (self', al) ->
  (forall key' : CheckKey,
      key' <> (target, resolver_ip, rtype) ->
      DNSUptimerAI.latency self' !! key' = DNSUptimerAI.latency self !! key' /\
      DNSUptimerAI.uptime self' !! key' = DNSUptimerAI.uptime self !! key' /\
      DNSUptimerAI.last_results self' !! key' =
        DNSUptimerAI.last_results self !! key') /\
  DNSUptimerAI.targets self' = DNSUptimerAI.targets self /\
  DNSUptimerAI.resolvers self' = DNSUptimerAI.resolvers self /\
  DNSUptimerAI.records self' = DNSUptimerAI.records self /\
  DNSUptimerAI.interval self' = DNSUptimerAI.interval self /\
  DNSUptimerAI.window self' = DNSUptimerAI.window self /\
  DNSUptimerAI.timeout self' = DNSUptimerAI.timeout self /\
  DNSUptimerAI.webhook self' = DNSUptimerAI.webhook self /\
  DNSUptimerAI._stop self' = DNSUptimerAI._stop self.
Proof.
  unfold DNSUptimerAI._check_and_analyze.
  destruct (DNSUptimerAI._resolve_once self target resolver_ip rtype env)
    as [[[[ok x] addrs] err]|e]; [|discriminate].
  cbn [mbind res_bind].
  set (key := (target, resolver_ip, rtype)).
  assert (Hum : forall key', key' <> key ->
            (defaultdict_get (UptimeStats.new (DNSUptimerAI.window self))
               (DNSUptimerAI.uptime self) key).2 !! key' =
            DNSUptimerAI.uptime self !! key').
  { intros key' Hne. unfold defaultdict_get.
    destruct (_ !! key); cbn [snd]; [reflexivity|].
    now rewrite lookup_insert_ne. }
  assert (Hlm : forall key', key' <> key ->
            (defaultdict_get LatencyStats.new (DNSUptimerAI.latency self) key).2
              !! key' =
            DNSUptimerAI.latency self !! key').
  { intros key' Hne. unfold defaultdict_get.
    destruct (_ !! key); cbn [snd]; [reflexivity|].
    now rewrite lookup_insert_ne. }
  destruct (defaultdict_get (UptimeStats.new (DNSUptimerAI.window self))
              (DNSUptimerAI.uptime self) key) as [u0 um].
  destruct (defaultdict_get LatencyStats.new (DNSUptimerAI.latency self) key)
    as [l0 lm].
  cbn [snd] in Hum, Hlm.
  destruct (LatencyStats.zscore (LatencyStats.add l0 x) x) as [z|]; [|discriminate].
  cbn [mbind res_bind].
  destruct (LatencyStats.summary (LatencyStats.add l0 x)) as [summ|]; [|discriminate].
  cbn [mbind res_bind].
  destruct (UptimeStats.ratio (UptimeStats.add u0 ok)) as [upt|]; [|discriminate].
  cbn [mbind res_bind].
  destruct (DNSUptimerAI.anomaly_logic ok x z upt _ _) as [a|];
    intros H; injection H as <- <-;
    cbn [DNSUptimerAI.latency DNSUptimerAI.uptime DNSUptimerAI.last_results
         DNSUptimerAI.targets DNSUptimerAI.resolvers DNSUptimerAI.records
         DNSUptimerAI.interval DNSUptimerAI.window DNSUptimerAI.timeout
         DNSUptimerAI.webhook DNSUptimerAI._stop];
    (split; [|repeat split; reflexivity]);
    intros key' Hne;
    rewrite ?lookup_insert_ne by (intros E; apply Hne; now symmetry);
    rewrite Hum, Hlm by exact Hne; repeat split; reflexivity.
Qed.

(** X5. A probe-and-update cycle for one key returns whenever the probe
    does, and leaves alone the statistics and the last result of every other
    key, and every field of the configuration (targets, resolvers, record
    types, interval, window, timeout, webhook) and the stop flag of the
    monitor. *)
Theorem cycle_touches_only_its_key (self : DNSUptimerAI.t)
    (target resolver_ip rtype : string) (env : probe_env)
    (ok : bool) (x : R) (addrs : option (list string)) (err : option string) :
  DNSUptimerAI._resolve_once self target resolver_ip rtype env =
    Ret (ok, x, addrs, err) ->
  exists (self' : DNSUptimerAI.t) (al : option alert),
    DNSUptimerAI._check_and_analyze self target resolver_ip rtype env =
      Ret (self', al) /\
    (forall key' : CheckKey,
        key' <> (target, resolver_ip, rtype) ->
        DNSUptimerAI.latency self' !! key' = DNSUptimerAI.latency self !! key' /\
        DNSUptimerAI.uptime self' !! key' = DNSUptimerAI.uptime self !! key' /\
        DNSUptimerAI.last_results self' !! key' =
          DNSUptimerAI.last_results self !! key') /\
    is_Some (DNSUptimerAI.latency self' !! (target, resolver_ip, rtype)) /\
    is_Some (DNSUptimerAI.uptime self' !! (target, resolver_ip, rtype)) /\
    is_Some (DNSUptimerAI.last_results self' !! (target, resolver_ip, rtype)) /\
    DNSUptimerAI.targets self' = DNSUptimerAI.targets self /\
    DNSUptimerAI.resolvers self' = DNSUptimerAI.resolvers self /\
    DNSUptimerAI.records self' = DNSUptimerAI.records self /\
    DNSUptimerAI.interval self' = DNSUptimerAI.interval self /\
    DNSUptimerAI.window self' = DNSUptimerAI.window self /\
    DNSUptimerAI.timeout self' = DNSUptimerAI.timeout self /\
    DNSUptimerAI.webhook self' = DNSUptimerAI.webhook self /\
    DNSUptimerAI._stop self' = DNSUptimerAI._stop self.
Proof.
  intros Hres.
  destruct (check_and_analyze_run self target resolver_ip rtype env ok x addrs err Hres)
    as (z & summ & upt & _ & _ & _ & self' & Hrun & Hlast & Hup & Hlat).
  destruct (check_and_analyze_frame _ _ _ _ _ _ _ Hrun)
    as (Hf & Ht & Hr & Hrec & Hi & Hw & Hto & Hwh & Hs).
  eexists self', _. split; [exact Hrun|]. split; [exact Hf|].
  rewrite Hlast, Hup, Hlat. repeat split; try assumption; eexists; reflexivity.
Qed.

Lemma cycle_touches_only_its_key_witness :
  exists (self' : DNSUptimerAI.t) (al : option alert),
    DNSUptimerAI._check_and_analyze (warm_monitor 9) "example.org" "8.8.8.8" "AAAA"
      (answered 26) = Ret (self', al) /\
    (forall key' : CheckKey,
        key' <> ("example.org", "8.8.8.8", "AAAA") ->
        DNSUptimerAI.latency self' !! key' =
          DNSUptimerAI.latency (warm_monitor 9) !! key' /\
        DNSUptimerAI.uptime self' !! key' =
          DNSUptimerAI.uptime (warm_monitor 9) !! key' /\
        DNSUptimerAI.last_results self' !! key' =
          DNSUptimerAI.last_results (warm_monitor 9) !! key') /\
    is_Some (DNSUptimerAI.latency self' !! ("example.org", "8.8.8.8", "AAAA")) /\
    is_Some (DNSUptimerAI.uptime self' !! ("example.org", "8.8.8.8", "AAAA")) /\
    is_Some (DNSUptimerAI.last_results self' !! ("example.org", "8.8.8.8", "AAAA")) /\
    DNSUptimerAI.targets self' = DNSUptimerAI.targets (warm_monitor 9) /\
    DNSUptimerAI.resolvers self' = DNSUptimerAI.resolvers (warm_monitor 9) /\
    DNSUptimerAI.records self' = DNSUptimerAI.records (warm_monitor 9) /\
    DNSUptimerAI.interval self' = DNSUptimerAI.interval (warm_monitor 9) /\
    DNSUptimerAI.window self' = DNSUptimerAI.window (warm_monitor 9) /\
    DNSUptimerAI.timeout self' = DNSUptimerAI.timeout (warm_monitor 9) /\
    DNSUptimerAI.webhook self' = DNSUptimerAI.webhook (warm_monitor 9) /\
    DNSUptimerAI._stop self' = DNSUptimerAI._stop (warm_monitor 9).
Proof.
  apply (cycle_touches_only_its_key (warm_monitor 9) "example.org" "8.8.8.8" "AAAA"
           (answered 26) true 26 (Some ["93.184.216.34"]) None).
  apply resolve_answered.
Defined.

(** ** Alerts and the anomaly fields *)

Lemma py_round_zero (n : nat) : py_round 0.0 n = 0.
Proof. replace 0.0 with (IZR 0) by lra. apply py_round_integer. Qed.

(** X6. A successful probe on a key whose window held fewer than 9 samples
    never raises an anomaly, however slow it was: the z-score stored is 0
    and no alert goes out. *)
Theorem no_spike_during_cold_start (self : DNSUptimerAI.t)
    (target resolver_ip rtype : string) (env : probe_env)
    (x : R) (addrs : option (list string)) (err : option string) :
  DNSUptimerAI._resolve_once self target resolver_ip rtype env =
    Ret (true, x, addrs, err) ->
  (deque_len (LatencyStats.samples
                (latency_of self (target, resolver_ip, rtype))) < 9)%nat ->
  exists (self' : DNSUptimerAI.t) (r : CheckResult.t) (l' : LatencyStats.t),
    DNSUptimerAI._check_and_analyze self target resolver_ip rtype env =
      Ret (self', None) /\
    DNSUptimerAI.last_results self' !! (target, resolver_ip, rtype) = Some r /\
    CheckResult.zscore r = 0 /\
    DNSUptimerAI.latency self' !! (target, resolver_ip, rtype) = Some l' /\
    LatencyStats.last_anomaly l' =
      LatencyStats.last_anomaly (latency_of self (target, resolver_ip, rtype)).
Proof.
  intros Hres Hcold.
  destruct (check_and_analyze_run self target resolver_ip rtype env true x addrs err Hres)
    as (z & summ & upt & Hz & _ & _ & self' & Hrun & Hlast & _ & Hlat).
  set (key := (target, resolver_ip, rtype)) in *.
  assert (Hlen : (deque_len (LatencyStats.samples
                               (LatencyStats.add (latency_of self key) x)) < 10)%nat).
  { pose proof (deque_append_len_le (LatencyStats.samples (latency_of self key)) x).
    change (LatencyStats.samples (LatencyStats.add (latency_of self key) x))
      with (deque_append (LatencyStats.samples (latency_of self key)) x).
    lia. }
  rewrite (zscore_cold_start_aux _ x Hlen) in Hz. injection Hz as <-.
  assert (Hnone : forall n e, DNSUptimerAI.anomaly_logic true x 0.0 upt n e = None).
  { intros n e. unfold DNSUptimerAI.anomaly_logic. cbn [negb].
    destruct (Rleb 3.0 0.0) eqn:E; [apply Rleb_true in E; lra | reflexivity]. }
  rewrite Hnone in Hrun, Hlat. cbn [option_map] in Hrun.
  eexists self', _, _. split; [exact Hrun|]. split; [exact Hlast|].
  split; [apply py_round_zero|]. split; [exact Hlat | reflexivity].
Qed.

Lemma no_spike_during_cold_start_witness :
  exists (self' : DNSUptimerAI.t) (r : CheckResult.t) (l' : LatencyStats.t),
    DNSUptimerAI._check_and_analyze (warm_monitor 5) "example.com" "1.1.1.1" "A"
      (answered 3000) = Ret (self', None) /\
    DNSUptimerAI.last_results self' !! key0 = Some r /\
    CheckResult.zscore r = 0 /\
    DNSUptimerAI.latency self' !! key0 = Some l' /\
    LatencyStats.last_anomaly l' =
      LatencyStats.last_anomaly (latency_of (warm_monitor 5) key0).
Proof.
  apply (no_spike_during_cold_start (warm_monitor 5) "example.com" "1.1.1.1" "A"
           (answered 3000) 3000 (Some ["93.184.216.34"]) None).
  - apply resolve_answered.
  - fold key0. rewrite latency_of_warm, warm_latency_len. lia.
Defined.

(** X7. The anomaly fields of a key change exactly when an alert goes out:
    with an alert they become its reason and the time of the alert, without
    one they stay what they were; and the alert carries the result that was
    stored for the key. *)
Theorem anomaly_fields_follow_alerts (self : DNSUptimerAI.t)
    (target resolver_ip rtype : string) (env : probe_env)
    (ok : bool) (x : R) (addrs : option (list string)) (err : option string) :
  DNSUptimerAI._resolve_once self target resolver_ip rtype env =
    Ret (ok, x, addrs, err) ->
  let key := (target, resolver_ip, rtype) in
  let l0 := latency_of self key in
  exists (self' : DNSUptimerAI.t) (al : option alert) (l' : LatencyStats.t)
         (r : CheckResult.t),
    DNSUptimerAI._check_and_analyze self target resolver_ip rtype env =
      Ret (self', al) /\
    DNSUptimerAI.latency self' !! key = Some l' /\
    DNSUptimerAI.last_results self' !! key = Some r /\
    match al with
    | Some a =>
        LatencyStats.last_anomaly l' = Some (alert_anomaly a) /\
        LatencyStats.last_anomaly_ts l' = Some (now_anomaly env) /\
        alert_payload a = r /\
        (alert_target a, alert_resolver a, alert_rtype a) = key
    | None =>
        ok = true /\
        LatencyStats.last_anomaly l' = LatencyStats.last_anomaly l0 /\
        LatencyStats.last_anomaly_ts l' = LatencyStats.last_anomaly_ts l0
    end.
Proof.
  intros Hres key l0.
  destruct (check_and_analyze_run self target resolver_ip rtype env ok x addrs err Hres)
    as (z & summ & upt & _ & _ & _ & self' & Hrun & Hlast & _ & Hlat).
  fold key in Hrun, Hlast, Hlat. fold l0 in Hrun, Hlat.
  eexists self', _, _, _. split; [exact Hrun|]. split; [exact Hlat|].
  split; [exact Hlast|].
  destruct (DNSUptimerAI.anomaly_logic ok x z upt _ _) as [a|] eqn:Ea;
    cbn [option_map].
  - repeat split.
  - split; [|split; reflexivity].
    destruct ok; [reflexivity|]. rewrite anomaly_logic_failed in Ea. discriminate.
Qed.

Lemma anomaly_fields_follow_alerts_witness :
  exists (self' : DNSUptimerAI.t) (al : option alert) (l' : LatencyStats.t)
         (r : CheckResult.t),
    DNSUptimerAI._check_and_analyze (warm_monitor 9) "example.com" "1.1.1.1" "A"
      (timed_out 3000) = Ret (self', al) /\
    DNSUptimerAI.latency self' !! key0 = Some l' /\
    DNSUptimerAI.last_results self' !! key0 = Some r /\
    match al with
    | Some a =>
        LatencyStats.last_anomaly l' = Some (alert_anomaly a) /\
        LatencyStats.last_anomaly_ts l' = Some (now_anomaly (timed_out 3000)) /\
        alert_payload a = r /\
        (alert_target a, alert_resolver a, alert_rtype a) = key0
    | None =>
        false = true /\
        LatencyStats.last_anomaly l' =
          LatencyStats.last_anomaly (latency_of (warm_monitor 9) key0) /\
        LatencyStats.last_anomaly_ts l' =
          LatencyStats.last_anomaly_ts (latency_of (warm_monitor 9) key0)
    end.
Proof.
  apply (anomaly_fields_follow_alerts (warm_monitor 9) "example.com" "1.1.1.1" "A"
           (timed_out 3000) false ((3000 / 1000 - 0) * 1000.0) None
           (Some "The DNS operation timed out.")).
  reflexivity.
Defined.

Lemma float_or_same (x : R) : float_or (Some x) x = x.
Proof. unfold float_or. now destruct (Reqb x 0). Qed.

(** X8. The first probe of a key that has no statistics yet creates them
    from the defaults: afterwards the window holds the one latency, which is
    also the EMA, the median and the p95; the outcomes hold the one outcome;
    the z-score is 0; and an alert goes out exactly when the probe failed,
    as a single failure. *)
Theorem first_probe_of_a_key (self : DNSUptimerAI.t)
    (target resolver_ip rtype : string) (env : probe_env)
    (ok : bool) (x : R) (addrs : option (list string)) (err : option string) :
  DNSUptimerAI._resolve_once self target resolver_ip rtype env =
    Ret (ok, x, addrs, err) ->
  let key := (target, resolver_ip, rtype) in
  DNSUptimerAI.latency self !! key = None ->
  DNSUptimerAI.uptime self !! key = None ->
  exists (self' : DNSUptimerAI.t) (al : option alert) (l' : LatencyStats.t)
         (u' : UptimeStats.t) (r : CheckResult.t),
    DNSUptimerAI._check_and_analyze self target resolver_ip rtype env =
      Ret (self', al) /\
    DNSUptimerAI.latency self' !! key = Some l' /\
    LatencyStats.samples l' = mkDeque 200 [x] /\
    LatencyStats.ema l' = Some x /\
    DNSUptimerAI.uptime self' !! key = Some u' /\
    UptimeStats.results u' = mkDeque 200 [if ok then 1%Z else 0%Z] /\
    UptimeStats.window u' = DNSUptimerAI.window self /\
    DNSUptimerAI.last_results self' !! key = Some r /\
    CheckResult.zscore r = 0 /\
    CheckResult.latency_summary r =
      mkSummary 1 (Some (py_round x 2)) (Some (py_round x 2)) (Some (py_round x 2)) /\
    CheckResult.uptime_window_ratio r = (if ok then 1 else 0) /\
    (ok = true -> al = None) /\
    (ok = false -> exists a, al = Some a /\ alert_anomaly a = SingleFailure).
Proof.
  intros Hres key Hl0 Hu0.
  destruct (check_and_analyze_run self target resolver_ip rtype env ok x addrs err Hres)
    as (z & summ & upt & Hz & Hs & Hu & self' & Hrun & Hlast & Hup & Hlat).
  fold key in Hz, Hs, Hu, Hrun, Hlast, Hup, Hlat.
  assert (El : latency_of self key = LatencyStats.new)
    by (unfold latency_of; now rewrite Hl0).
  assert (Eu : uptime_of self key = UptimeStats.new (DNSUptimerAI.window self))
    by (unfold uptime_of; now rewrite Hu0).
  rewrite El in Hz, Hs, Hrun, Hlat. rewrite Eu in Hu, Hrun, Hup, Hlat.
  rewrite zscore_cold_start_aux in Hz
    by (unfold deque_len; cbn; lia).
  injection Hz as <-.
  rewrite summary_nonempty in Hs by discriminate.
  change (items (LatencyStats.samples (LatencyStats.add LatencyStats.new x)))
    with [x] in Hs.
  change (LatencyStats.ema (LatencyStats.add LatencyStats.new x))
    with (Some x) in Hs.
  rewrite sorted_middle_one, nearest_rank_95_one, float_or_same in Hs.
  injection Hs as <-.
  rewrite (ratio_value _ (if ok then 1 else 0)%Z 1) in Hu
    by (try lia; now destruct ok).
  injection Hu as <-.
  assert (Hr : py_round (IZR (if ok then 1 else 0) / IZR (Z.of_nat 1)) 4 =
               (if ok then 1 else 0)).
  { change (Z.of_nat 1) with 1%Z.
    replace (IZR (if ok then 1 else 0) / 1) with (IZR (if ok then 1 else 0))
      by (field; lra).
    rewrite py_round_integer. now destruct ok. }
  eexists self', _, _, _, _.
  split; [exact Hrun|]. split; [exact Hlat|].
  split. { now destruct (DNSUptimerAI.anomaly_logic ok x 0.0 _ _ _). }
  split. { now destruct (DNSUptimerAI.anomaly_logic ok x 0.0 _ _ _). }
  split; [exact Hup|]. split; [reflexivity|]. split; [reflexivity|].
  split; [exact Hlast|].
  cbn [CheckResult.zscore CheckResult.latency_summary
       CheckResult.uptime_window_ratio].
  split; [apply py_round_zero|]. split; [reflexivity|]. split; [exact Hr|].
  split.
  - intros ->. unfold DNSUptimerAI.anomaly_logic. cbn [negb].
    destruct (Rleb 3.0 0.0) eqn:E; [apply Rleb_true in E; lra | reflexivity].
  - intros ->. rewrite anomaly_logic_failed. cbn [option_map].
    eexists. split; [reflexivity|]. cbn [alert_anomaly].
    change (deque_len (UptimeStats.results
              (UptimeStats.add (UptimeStats.new (DNSUptimerAI.window self)) false)))
      with 1%nat.
    cbn [Nat.leb]. now rewrite andb_false_r.
Qed.

Lemma first_probe_of_a_key_witness :
  exists (self' : DNSUptimerAI.t) (al : option alert) (l' : LatencyStats.t)
         (u' : UptimeStats.t) (r : CheckResult.t),
    DNSUptimerAI._check_and_analyze (warm_monitor 9) "example.org" "8.8.8.8" "AAAA"
      (answered 26) = Ret (self', al) /\
    DNSUptimerAI.latency self' !! ("example.org", "8.8.8.8", "AAAA") = Some l' /\
    LatencyStats.samples l' = mkDeque 200 [26] /\
    LatencyStats.ema l' = Some 26 /\
    DNSUptimerAI.uptime self' !! ("example.org", "8.8.8.8", "AAAA") = Some u' /\
    UptimeStats.results u' = mkDeque 200 [1%Z] /\
    UptimeStats.window u' = DNSUptimerAI.window (warm_monitor 9) /\
    DNSUptimerAI.last_results self' !! ("example.org", "8.8.8.8", "AAAA") = Some r /\
    CheckResult.zscore r = 0 /\
    CheckResult.latency_summary r =
      mkSummary 1 (Some (py_round 26 2)) (Some (py_round 26 2))
        (Some (py_round 26 2)) /\
    CheckResult.uptime_window_ratio r = 1 /\
    (true = true -> al = None) /\
    (true = false -> exists a, al = Some a /\ alert_anomaly a = SingleFailure).
Proof.
  apply (first_probe_of_a_key (warm_monitor 9) "example.org" "8.8.8.8" "AAAA"
           (answered 26) true 26 (Some ["93.184.216.34"]) None).
  - apply resolve_answered.
  - apply lookup_singleton_ne. discriminate.
  - apply lookup_singleton_ne. discriminate.
Defined.

(** ** When failures count as repeated *)

Lemma count_true_false (l : list bool) :
  (count_occ Bool.bool_dec l true + count_occ Bool.bool_dec l false =
   length l)%nat.
Proof.
  induction l as [|b l IH]; [reflexivity|].
  destruct b; cbn [count_occ length];
    destruct (Bool.bool_dec _ _); try discriminate; try contradiction;
    destruct (Bool.bool_dec _ _); try discriminate; try contradiction; lia.
Qed.

Lemma ratio_of_outcomes (w : Z) (bs : list bool) :
  bs <> [] ->
  let u := fold_left UptimeStats.add bs (UptimeStats.new w) in
  let kept := skipn (length bs - 200) bs in
  (0 < length kept)%nat /\
  deque_len (UptimeStats.results u) = length kept /\
  UptimeStats.ratio u =
    Ret (INR (count_occ Bool.bool_dec kept true) / INR (length kept)).
Proof.
  intros Hne u kept.
  destruct (windows_keep_last_200_aux w bs) as [Hit Hlen]. fold u in Hit, Hlen.
  fold kept in Hit.
  assert (Hk : length kept = Nat.min (length bs) 200).
  { unfold kept. rewrite length_skipn. lia. }
  assert (Hpos : (0 < length kept)%nat).
  { rewrite Hk. destruct bs; [contradiction | cbn [length]; lia]. }
  split; [exact Hpos|]. split; [now rewrite Hlen, Hk|].
  rewrite (ratio_value u (Z.of_nat (count_occ Bool.bool_dec kept true))
             (length kept)); try assumption.
  - now rewrite <- !INR_IZR_INZ.
  - rewrite Hit. apply Zsum_outcomes.
  - now rewrite Hlen, Hk.
Qed.

(** X9. For a key whose outcomes were all recorded by the monitor, a failed
    probe is reported as repeated failures exactly when the window, this
    failure included, holds at least 20 outcomes and more than one in twenty
    of them are failures; otherwise it is reported as a single failure. *)
Theorem repeated_failures_above_five_percent (self : DNSUptimerAI.t)
    (target resolver_ip rtype : string) (env : probe_env)
    (x : R) (addrs : option (list string)) (err : option string)
    (w : Z) (bs : list bool) :
  DNSUptimerAI._resolve_once self target resolver_ip rtype env =
    Ret (false, x, addrs, err) ->
  uptime_of self (target, resolver_ip, rtype) =
    fold_left UptimeStats.add bs (UptimeStats.new w) ->
  let kept := skipn (length (bs ++ [false]) - 200) (bs ++ [false]) in
  let n := length kept in
  let f := count_occ Bool.bool_dec kept false in
  exists (self' : DNSUptimerAI.t) (a : alert),
    DNSUptimerAI._check_and_analyze self target resolver_ip rtype env =
      Ret (self', Some a) /\
    ((exists upt, alert_anomaly a = RepeatedFailures upt) <->
       (20 <= n /\ n < 20 * f)%nat) /\
    (alert_anomaly a = SingleFailure <-> (n < 20 \/ 20 * f <= n)%nat).
Proof.
  intros Hres Hupt kept n f.
  destruct (check_and_analyze_run self target resolver_ip rtype env false x addrs err Hres)
    as (z & summ & upt & _ & _ & Hu & self' & Hrun & _).
  rewrite Hupt in Hu, Hrun.
  assert (Hsnoc : UptimeStats.add (fold_left UptimeStats.add bs (UptimeStats.new w)) false =
                  fold_left UptimeStats.add (bs ++ [false]) (UptimeStats.new w))
    by now rewrite fold_left_app.
  rewrite Hsnoc in Hu, Hrun.
  destruct (ratio_of_outcomes w (bs ++ [false])) as (Hpos & Hlen & Hr).
  { now destruct bs. }
  cbv zeta in Hpos, Hlen, Hr. fold kept in Hpos, Hlen, Hr. fold n in Hpos, Hlen, Hr.
  rewrite Hr in Hu. injection Hu as Hu.
  rewrite anomaly_logic_failed, Hlen in Hrun. cbn [option_map] in Hrun.
  eexists self', _. split; [exact Hrun|]. cbn [alert_anomaly].
  pose proof (count_true_false kept) as Hc. fold n in Hc. fold f in Hc.
  set (s := count_occ Bool.bool_dec kept true) in *.
  assert (HN : 0 < INR n) by (apply lt_0_INR; exact Hpos).
  assert (HS : INR s + INR f = INR n) by (rewrite <- plus_INR; now f_equal).
  assert (Hgate : upt < 0.95 <-> (n < 20 * f)%nat).
  { rewrite <- Hu. split.
    - intros Hlt. apply (Rmult_lt_compat_r (INR n)) in Hlt; [|exact HN].
      unfold Rdiv in Hlt. rewrite Rmult_assoc, Rinv_l, Rmult_1_r in Hlt by lra.
      apply INR_lt. rewrite mult_INR.
      replace (INR 20) with 20 by (rewrite INR_IZR_INZ; reflexivity). lra.
    - intros Hlt. apply lt_INR in Hlt. rewrite mult_INR in Hlt.
      replace (INR 20) with 20 in Hlt by (rewrite INR_IZR_INZ; reflexivity).
      apply (Rmult_lt_reg_r (INR n)); [exact HN|].
      unfold Rdiv. rewrite Rmult_assoc, Rinv_l, Rmult_1_r by lra. lra. }
  destruct (Rltb upt 0.95) eqn:Er;
    [apply Rltb_true in Er; apply Hgate in Er
    | apply Rltb_false in Er;
      assert (Er' : ~ (n < 20 * f)%nat) by (intros C; apply Hgate in C; lra)];
    (destruct (20 <=? n)%nat eqn:En;
     [apply Nat.leb_le in En | apply Nat.leb_gt in En]);
    cbn [andb]; split; split;
    try (intros [? ?]; discriminate); try discriminate; try lia;
    try (intros _; eexists; reflexivity); try reflexivity;
    try (intros [? ?]; exfalso; lia); try (intros [?|?]; exfalso; lia).
Qed.

Lemma repeated_failures_above_five_percent_witness :
  exists (self' : DNSUptimerAI.t) (a : alert),
    DNSUptimerAI._check_and_analyze (warm_monitor 30) "example.com" "1.1.1.1" "A"
      (timed_out 3000) = Ret (self', Some a) /\
    ((exists upt, alert_anomaly a = RepeatedFailures upt) <->
       (20 <= length (skipn (length (repeat true 30 ++ [false]) - 200)
                        (repeat true 30 ++ [false])) /\
        length (skipn (length (repeat true 30 ++ [false]) - 200)
                  (repeat true 30 ++ [false])) <
        20 * count_occ Bool.bool_dec
               (skipn (length (repeat true 30 ++ [false]) - 200)
                  (repeat true 30 ++ [false])) false)%nat) /\
    (alert_anomaly a = SingleFailure <->
       (length (skipn (length (repeat true 30 ++ [false]) - 200)
                  (repeat true 30 ++ [false])) < 20 \/
        20 * count_occ Bool.bool_dec
               (skipn (length (repeat true 30 ++ [false]) - 200)
                  (repeat true 30 ++ [false])) false <=
        length (skipn (length (repeat true 30 ++ [false]) - 200)
                  (repeat true 30 ++ [false])))%nat).
Proof.
  apply (repeated_failures_above_five_percent (warm_monitor 30)
           "example.com" "1.1.1.1" "A" (timed_out 3000)
           ((3000 / 1000 - 0) * 1000.0) None
           (Some "The DNS operation timed out.") 200 (repeat true 30)).
  - reflexivity.
  - fold key0. rewrite (warm_uptime_reached 30) by lia.
    unfold uptime_of, warm_monitor. cbn [DNSUptimerAI.uptime].
    now rewrite lookup_singleton_eq.
Defined.

(** ** The waves of the loop *)

Lemma length_flat_map_const {A B : Type} (f : A -> list B) (l : list A) (k : nat) :
  (forall a, length (f a) = k) -> length (flat_map f l) = (length l * k)%nat.
Proof.
  intros Hf. induction l as [|a l IH]; [reflexivity|].
  cbn [flat_map length]. rewrite length_app, Hf, IH. lia.
Qed.

Lemma NoDup_map_injective {A B : Type} (f : A -> B) (l : list A) :
  (forall a b, f a = f b -> a = b) -> List.NoDup l -> List.NoDup (map f l).
Proof.
  intros Hinj Hl. induction Hl as [|a l Hnotin Hl IH]; cbn [map]; constructor.
  - intros Hin. apply in_map_iff in Hin as (b & E & Hb).
    apply Hinj in E. subst b. contradiction.
  - exact IH.
Qed.

Lemma NoDup_flat_map {A B : Type} (f : A -> list B) (l : list A) :
  List.NoDup l ->
  (forall a, In a l -> List.NoDup (f a)) ->
  (forall a1 a2 b, In a1 l -> In a2 l -> In b (f a1) -> In b (f a2) -> a1 = a2) ->
  List.NoDup (flat_map f l).
Proof.
  induction l as [|a l IH]; intros Hl Hf Hinj; cbn [flat_map].
  - constructor.
  - inversion Hl as [|? ? Hnotin Hl']; subst.
    apply List.NoDup_app.
    + apply Hf. now left.
    + apply IH; [assumption | |].
      * intros a' Ha'. apply Hf. now right.
      * intros a1 a2 b H1 H2. apply Hinj; now right.
    + intros b Hb Hb'.
      apply in_flat_map in Hb' as (a' & Ha' & Hb').
      apply Hnotin.
      rewrite (Hinj a a' b); try assumption; [now left | now right].
Qed.

(** X10. A wave holds one task for every combination of a configured
    target, resolver and record type, and no other task: their number is the
    product of the three counts, and no combination comes twice when no name
    is configured twice. *)
Theorem wave_covers_the_cross_product (self : DNSUptimerAI.t) :
  (forall t r rt : string,
      In (t, r, rt) (wave_tasks self) <->
      In t (DNSUptimerAI.targets self) /\
      In r (DNSUptimerAI.resolvers self) /\
      In rt (DNSUptimerAI.records self)) /\
  length (wave_tasks self) =
    (length (DNSUptimerAI.targets self) * length (DNSUptimerAI.resolvers self) *
     length (DNSUptimerAI.records self))%nat /\
  (List.NoDup (DNSUptimerAI.targets self) ->
   List.NoDup (DNSUptimerAI.resolvers self) ->
   List.NoDup (DNSUptimerAI.records self) ->
   List.NoDup (wave_tasks self)).
Proof.
  unfold wave_tasks. split; [|split].
  - intros t r rt. rewrite in_flat_map. split.
    + intros (t' & Ht' & H). apply in_flat_map in H as (r' & Hr' & H).
      apply in_map_iff in H as (rt' & E & Hrt'). injection E as -> -> ->.
      now repeat split.
    + intros (Ht & Hr & Hrt). exists t. split; [exact Ht|].
      apply in_flat_map. exists r. split; [exact Hr|].
      apply in_map_iff. now exists rt.
  - rewrite (length_flat_map_const _ _
               (length (DNSUptimerAI.resolvers self) *
                length (DNSUptimerAI.records self))); [lia|].
    intros t. apply length_flat_map_const. intros r. apply length_map.
  - intros Ht Hr Hrt. apply NoDup_flat_map; [exact Ht | |].
    + intros t _. apply NoDup_flat_map; [exact Hr | |].
      * intros r _. apply NoDup_map_injective; [|exact Hrt].
        intros a b E. now injection E.
      * intros r1 r2 [[t' r'] rt'] _ _ H1 H2.
        apply in_map_iff in H1 as (? & E1 & _). apply in_map_iff in H2 as (? & E2 & _).
        congruence.
    + intros t1 t2 [[t' r'] rt'] _ _ H1 H2.
      apply in_flat_map in H1 as (? & _ & H1). apply in_flat_map in H2 as (? & _ & H2).
      apply in_map_iff in H1 as (? & E1 & _). apply in_map_iff in H2 as (? & E2 & _).
      congruence.
Qed.

Lemma wave_covers_the_cross_product_witness :
  List.NoDup (wave_tasks (warm_monitor 9)).
Proof.
  apply (proj2 (proj2 (wave_covers_the_cross_product (warm_monitor 9))));
    cbn [warm_monitor DNSUptimerAI.targets DNSUptimerAI.resolvers
         DNSUptimerAI.records];
    (constructor; [intros [] | constructor]).
Defined.

Lemma run_loop_unstopped_step (fuel : nat) (self : DNSUptimerAI.t)
    (env : loop_env) (i : nat) (now : R) :
  DNSUptimerAI._stop self = false ->
  stop_at env = None ->
  run_loop (S fuel) self env i now =
  WaveStarted now (wave_tasks self) ::
    run_loop fuel self env (S i)
      (now + wave_time env i + Rmax 0 (DNSUptimerAI.interval self)).
Proof.
  intros Hf Hs. cbn [run_loop].
  unfold wait_for_stop, is_set, monitor_at. rewrite Hs, Hf.
  f_equal. f_equal.
  destruct (Rleb (DNSUptimerAI.interval self) 0) eqn:E.
  - apply Rleb_true in E. rewrite Rmax_left by exact E. lra.
  - apply Rleb_false in E. rewrite Rmax_right by lra. reflexivity.
Qed.

(** X11. Entered with the event not set and without a stop signal, the
    loop never exits: every evaluation of its condition starts a wave, and
    each wave starts when the one before it has finished and the interval
    (nothing, for an interval that is not positive) has passed since. *)
Theorem loop_without_stop_never_exits (self : DNSUptimerAI.t) (env : loop_env) :
  DNSUptimerAI._stop self = false ->
  stop_at env = None ->
  forall (fuel i : nat) (now : R),
    length (run_loop fuel self env i now) = fuel /\
    (forall t, ~ In (Exited t) (run_loop fuel self env i now)) /\
    (forall k, (k < fuel)%nat ->
       nth_error (run_loop fuel self env i now) k =
       Some (WaveStarted (wave_start self env i k now) (wave_tasks self))).
Proof.
  intros Hf Hs. induction fuel as [|fuel IH]; intros i now.
  - split; [reflexivity|]. split; [intros t []|]. intros k Hk. lia.
  - rewrite (run_loop_unstopped_step _ _ _ _ _ Hf Hs).
    destruct (IH (S i) (now + wave_time env i + Rmax 0 (DNSUptimerAI.interval self)))
      as (Hlen & Hex & Hnth).
    split; [cbn [length]; now rewrite Hlen|]. split.
    + intros t [H|H]; [discriminate | now apply (Hex t)].
    + intros [|k] Hk; cbn [nth_error].
      * do 2 f_equal. unfold wave_start, Rsum. cbn [seq map fold_right]. lra.
      * rewrite Hnth by lia. do 2 f_equal.
        unfold wave_start. cbn [seq map]. rewrite Rsum_cons. lra.
Qed.

Lemma loop_without_stop_never_exits_witness :
  length (run_loop 3 (warm_monitor 9) never_stopped 0 0) = 3%nat /\
  (forall t, ~ In (Exited t) (run_loop 3 (warm_monitor 9) never_stopped 0 0)) /\
  (forall k, (k < 3)%nat ->
     nth_error (run_loop 3 (warm_monitor 9) never_stopped 0 0) k =
     Some (WaveStarted (wave_start (warm_monitor 9) never_stopped 0 k 0)
             (wave_tasks (warm_monitor 9)))).
Proof.
  apply (loop_without_stop_never_exits (warm_monitor 9) never_stopped
           eq_refl eq_refl 3 0 0).
Defined.

Lemma wait_for_stop_bounds (self : DNSUptimerAI.t) (env : loop_env)
    (ts timeout now : R) :
  DNSUptimerAI._stop self = false ->
  stop_at env = Some ts -> 0 < timeout ->
  let woke := wait_for_stop self env timeout now in
  now <= woke <= now + timeout /\
  (ts <= woke \/ woke = now + timeout).
Proof.
  intros Hf Hs Ht woke. unfold woke, wait_for_stop, is_set, monitor_at.
  rewrite Hs.
  destruct (Rleb ts now) eqn:E1;
    [apply Rleb_true in E1 | apply Rleb_false in E1].
  - cbn [stop DNSUptimerAI._stop]. split; [lra | left; lra].
  - rewrite Hf.
    destruct (Rleb timeout 0) eqn:E2; [apply Rleb_true in E2; lra|].
    destruct (Rltb ts (now + timeout)) eqn:E3;
      [apply Rltb_true in E3 | apply Rltb_false in E3].
    + split; [lra | left; lra].
    + split; [lra | right; reflexivity].
Qed.

(** X12. Entered with the event not set, with a positive interval and
    waves that take no negative time, a stop signal at [ts] ends the loop:
    if [ts] is at most [n] intervals after the loop's start, then within
    [n + 1] evaluations of its condition the loop has exited, at or after
    [ts], having started at most [n] waves, each before [ts]; evaluating
    further adds nothing. *)
Theorem loop_exits_after_stop (self : DNSUptimerAI.t) (env : loop_env) (ts : R) :
  DNSUptimerAI._stop self = false ->
  stop_at env = Some ts ->
  0 < DNSUptimerAI.interval self ->
  (forall j, 0 <= wave_time env j) ->
  forall (n i : nat) (now : R),
    ts - now <= INR n * DNSUptimerAI.interval self ->
    exists (waves : list loop_event) (t : R),
      (forall extra : nat,
          run_loop (S n + extra) self env i now = waves ++ [Exited t]) /\
      ts <= t /\ now <= t /\
      (length waves <= n)%nat /\
      (forall e, In e waves ->
         exists t' tasks, e = WaveStarted t' tasks /\ t' < ts).
Proof.
  intros Hf Hs Hi Hw. induction n as [|n IH]; intros i now Hn.
  - cbn [INR] in Hn. exists [], now. split.
    + intros extra. apply run_loop_stopped.
      apply (is_set_true self env ts); [exact Hs | lra].
    + split; [lra|]. split; [lra|]. split; [cbn; lia|]. intros e [].
  - destruct (Rle_dec ts now) as [Hle|Hgt].
    + exists [], now. split.
      * intros extra. apply run_loop_stopped. now apply (is_set_true self env ts).
      * split; [lra|]. split; [lra|]. split; [cbn; lia|]. intros e [].
    + assert (Hlt : now < ts) by lra.
      set (now1 := now + wave_time env i).
      set (now2 := wait_for_stop self env (DNSUptimerAI.interval self) now1).
      destruct (wait_for_stop_bounds self env ts (DNSUptimerAI.interval self) now1
                  Hf Hs Hi)
        as [[Hlo Hhi] Hcase]. fold now2 in Hlo, Hhi, Hcase.
      pose proof (Hw i) as Hwi.
      assert (Hn2 : ts - now2 <= INR n * DNSUptimerAI.interval self).
      { rewrite S_INR in Hn. destruct Hcase as [Hc|Hc].
        - assert (0 <= INR n * DNSUptimerAI.interval self)
            by (apply Rmult_le_pos; [apply pos_INR | lra]).
          lra.
        - rewrite Hc. unfold now1. lra. }
      destruct (IH (S i) now2 Hn2) as (waves & t & Hrun & Hts & Hnow & Hlen & Hall).
      exists (WaveStarted now (wave_tasks self) :: waves), t. split.
      * intros extra. change (S (S n) + extra)%nat with (S (S n + extra)).
        cbn [run_loop]. rewrite (is_set_false self env ts now Hf Hs Hlt).
        fold now1. fold now2. rewrite (Hrun extra). reflexivity.
      * split; [exact Hts|]. split; [unfold now1 in Hlo; lra|].
        split; [cbn [length]; lia|].
        intros e [<-|He]; [now exists now, (wave_tasks self) | now apply Hall].
Qed.

Lemma loop_exits_after_stop_witness :
  exists (waves : list loop_event) (t : R),
    (forall extra : nat,
        run_loop (2 + extra) (warm_monitor 9) stop_at_10 0 0 = waves ++ [Exited t]) /\
    10 <= t /\ 0 <= t /\
    (length waves <= 1)%nat /\
    (forall e, In e waves ->
       exists t' tasks, e = WaveStarted t' tasks /\ t' < 10).
Proof.
  apply (loop_exits_after_stop (warm_monitor 9) stop_at_10 10 eq_refl eq_refl).
  - cbn [warm_monitor DNSUptimerAI.interval]. lra.
  - intros j. cbn [stop_at_10 wave_time]. lra.
  - cbn [INR warm_monitor DNSUptimerAI.interval]. lra.
Defined.

(** ** What the summary reports *)

Lemma round_half_even_cases (x : R) :
  (x - IZR (Zfloor x) < 1 / 2 /\ round_half_even x = Zfloor x) \/
  (1 / 2 < x - IZR (Zfloor x) /\ round_half_even x = (Zfloor x + 1)%Z) \/
  (x - IZR (Zfloor x) = 1 / 2 /\
   (round_half_even x = Zfloor x \/ round_half_even x = (Zfloor x + 1)%Z) /\
   Z.even (round_half_even x) = true).
Proof.
  unfold round_half_even.
  destruct (Rltb (x - IZR (Zfloor x)) (1 / 2)) eqn:E1.
  { apply Rltb_true in E1. now left. }
  apply Rltb_false in E1.
  destruct (Rltb (1 / 2) (x - IZR (Zfloor x))) eqn:E2.
  { apply Rltb_true in E2. right. now left. }
  apply Rltb_false in E2. right. right. split; [lra|].
  destruct (Z.even (Zfloor x)) eqn:Ev.
  - split; [now left | exact Ev].
  - split; [now right|]. rewrite Z.even_add, Ev. reflexivity.
Qed.

Lemma round_half_even_close (x : R) :
  x - 1 / 2 <= IZR (round_half_even x) <= x + 1 / 2.
Proof.
  pose proof (Zfloor_bound x) as [Hlo Hhi].
  destruct (round_half_even_cases x) as [[Hd ->]|[[Hd ->]|(Hd & [-> | ->] & _)]];
    rewrite ?plus_IZR; lra.
Qed.

Lemma round_half_even_mono (x y : R) :
  x <= y -> (round_half_even x <= round_half_even y)%Z.
Proof.
  intros Hxy.
  pose proof (Zfloor_bound x) as [Hxlo Hxhi].
  pose proof (Zfloor_bound y) as [Hylo Hyhi].
  pose proof (Zfloor_le x y Hxy) as Hf.
  destruct (Z.eq_dec (Zfloor x) (Zfloor y)) as [E|NE].
  - destruct (round_half_even_cases x) as [[Hx Ex]|[[Hx Ex]|(Hx & Ex & Evx)]];
      destruct (round_half_even_cases y) as [[Hy Ey]|[[Hy Ey]|(Hy & Ey & Evy)]];
      rewrite E in *; try lia; try (exfalso; lra).
    all: repeat match goal with H : _ \/ _ |- _ => destruct H end.
    all: try lia.
    all: match goal with
         | Hx : round_half_even ?u = (?f + 1)%Z, Hy : round_half_even ?v = ?f,
           Hu : Z.even (round_half_even ?u) = true,
           Hv : Z.even (round_half_even ?v) = true |- _ =>
             rewrite Hx in Hu; rewrite Hy in Hv;
             rewrite Z.even_add, Hv in Hu; discriminate
         end.
  - assert (Hlt : (Zfloor x + 1 <= Zfloor y)%Z) by lia.
    assert (Hx : (round_half_even x <= Zfloor x + 1)%Z).
    { destruct (round_half_even_cases x) as [[_ ->]|[[_ ->]|(_ & [-> | ->] & _)]]; lia. }
    assert (Hy : (Zfloor y <= round_half_even y)%Z).
    { destruct (round_half_even_cases y) as [[_ ->]|[[_ ->]|(_ & [-> | ->] & _)]]; lia. }
    lia.
Qed.

Lemma py_round_mono (x y : R) (n : nat) : x <= y -> py_round x n <= py_round y n.
Proof.
  intros Hxy. assert (Hp : 0 < 10 ^ n) by (apply pow_lt; lra).
  unfold py_round, Rdiv. apply Rmult_le_compat_r.
  - left. now apply Rinv_0_lt_compat.
  - apply IZR_le, round_half_even_mono. apply Rmult_le_compat_r; lra.
Qed.

Lemma py_round_close (x : R) (n : nat) :
  x - / (2 * 10 ^ n) <= py_round x n <= x + / (2 * 10 ^ n).
Proof.
  assert (Hp : 0 < 10 ^ n) by (apply pow_lt; lra).
  pose proof (round_half_even_close (x * 10 ^ n)) as [Hlo Hhi].
  unfold py_round. split.
  - apply (Rmult_le_reg_r (10 ^ n)); [exact Hp|].
    replace (IZR (round_half_even (x * 10 ^ n)) / 10 ^ n * 10 ^ n)
      with (IZR (round_half_even (x * 10 ^ n))) by (field; lra).
    replace ((x - / (2 * 10 ^ n)) * 10 ^ n) with (x * 10 ^ n - 1 / 2)
      by (field; lra).
    exact Hlo.
  - apply (Rmult_le_reg_r (10 ^ n)); [exact Hp|].
    replace (IZR (round_half_even (x * 10 ^ n)) / 10 ^ n * 10 ^ n)
      with (IZR (round_half_even (x * 10 ^ n))) by (field; lra).
    replace ((x + / (2 * 10 ^ n)) * 10 ^ n) with (x * 10 ^ n + 1 / 2)
      by (field; lra).
    exact Hhi.
Qed.

Lemma sorted_nth_le (l : list R) :
  StronglySorted Rle l ->
  forall i j, (i <= j < length l)%nat -> nth i l 0 <= nth j l 0.
Proof.
  induction 1 as [|a l Hs IH Hall]; intros i j [Hij Hj].
  - cbn [length] in Hj. lia.
  - destruct i as [|i], j as [|j]; cbn [nth length] in *; try lia.
    + lra.
    + rewrite List.Forall_forall in Hall. apply Hall. apply nth_In. lia.
    + apply IH. lia.
Qed.

Lemma sorted_nth_In (xs : list R) (i : nat) :
  (i < length xs)%nat -> In (nth i (sorted xs) 0) xs.
Proof.
  intros Hi. apply (Permutation_in _ (sorted_perm xs)).
  apply nth_In. now rewrite sorted_length.
Qed.

Lemma sorted_strongly (xs : list R) : StronglySorted Rle (sorted xs).
Proof.
  apply Sorted_StronglySorted; [|apply sorted_sorted].
  intros x y z. apply Rle_trans.
Qed.

Lemma sorted_middle_between (xs : list R) (lo hi : R) :
  (0 < length xs)%nat ->
  (forall x, In x xs -> lo <= x <= hi) ->
  lo <= sorted_middle xs <= hi.
Proof.
  intros Hn Hall. unfold sorted_middle.
  assert (Hh : (length xs / 2 < length xs)%nat) by (apply Nat.div_lt; lia).
  pose proof (Hall _ (sorted_nth_In xs (length xs / 2) Hh)) as H1.
  destruct (Nat.odd (length xs)); [exact H1|].
  assert (Hh' : (length xs / 2 - 1 < length xs)%nat) by lia.
  pose proof (Hall _ (sorted_nth_In xs (length xs / 2 - 1) Hh')) as H2.
  lra.
Qed.

Lemma sorted_middle_below_rank (xs : list R) :
  (0 < length xs)%nat -> length xs <> 2%nat ->
  sorted_middle xs <= nearest_rank_95 xs.
Proof.
  intros Hn H2.
  destruct (p95_index (length xs) Hn) as (_ & Hf & Hlt).
  unfold sorted_middle, nearest_rank_95.
  set (pi := Z.to_nat (Zfloor (0.95 * (INR (length xs) - 1)))) in *.
  assert (Hpi : (length xs / 2 <= pi)%nat).
  { unfold pi. rewrite Hf.
    apply Nat2Z.inj_le. rewrite Z2Nat.id by (apply Z.div_pos; lia).
    rewrite Nat2Z.inj_div. change (Z.of_nat 2) with 2%Z.
    apply Z.div_le_lower_bound; [lia|].
    pose proof (Z.mul_div_le (Z.of_nat (length xs)) 2 ltac:(lia)). lia. }
  pose proof (sorted_strongly xs) as Hs.
  assert (Hmid : nth (length xs / 2) (sorted xs) 0 <= nth pi (sorted xs) 0).
  { apply sorted_nth_le; [exact Hs|]. rewrite sorted_length. lia. }
  destruct (Nat.odd (length xs)); [exact Hmid|].
  assert (Hlow : nth (length xs / 2 - 1) (sorted xs) 0 <=
                 nth (length xs / 2) (sorted xs) 0).
  { apply sorted_nth_le; [exact Hs|]. rewrite sorted_length.
    assert (length xs / 2 < length xs)%nat by (apply Nat.div_lt; lia). lia. }
  lra.
Qed.

(** X13. For a window that is not empty the p95 of the summary is one of
    the samples, rounded; the median and the p95 reported are within 0.005
    of the exact values and within the rounded range of the samples; and the
    median reported is at most the p95 reported unless the window holds
    exactly two samples. *)
Theorem summary_values_in_range (self : LatencyStats.t) (lo hi : R) :
  let xs := items (LatencyStats.samples self) in
  (0 < length xs)%nat ->
  exists (s : summary_dict) (m p : R),
    LatencyStats.summary self = Ret s /\
    count s = length xs /\
    median_ms s = Some m /\
    p95_ms s = Some p /\
    In (nearest_rank_95 xs) xs /\
    p = py_round (nearest_rank_95 xs) 2 /\
    nearest_rank_95 xs - 0.005 <= p <= nearest_rank_95 xs + 0.005 /\
    sorted_middle xs - 0.005 <= m <= sorted_middle xs + 0.005 /\
    ((forall x, In x xs -> lo <= x <= hi) ->
       py_round lo 2 <= m <= py_round hi 2 /\
       py_round lo 2 <= p <= py_round hi 2) /\
    (length xs <> 2%nat -> m <= p).
Proof.
  intros xs Hn.
  assert (Hne : xs <> []) by (intros E; rewrite E in Hn; cbn in Hn; lia).
  destruct (p95_index (length xs) Hn) as (_ & _ & Hlt).
  assert (Hin : In (nearest_rank_95 xs) xs) by (apply sorted_nth_In; exact Hlt).
  assert (Hhalf : / (2 * 10 ^ 2) = 0.005) by (cbn [pow]; lra).
  eexists _, _, _. split; [apply (summary_nonempty self Hne)|].
  cbn [count median_ms p95_ms]. fold xs.
  split; [reflexivity|]. split; [reflexivity|]. split; [reflexivity|].
  split; [exact Hin|]. split; [reflexivity|].
  split. { pose proof (py_round_close (nearest_rank_95 xs) 2). lra. }
  split. { pose proof (py_round_close (sorted_middle xs) 2). lra. }
  split.
  - intros Hall.
    destruct (sorted_middle_between xs lo hi Hn Hall) as [Hm1 Hm2].
    destruct (Hall _ Hin) as [Hp1 Hp2].
    repeat split; now apply py_round_mono.
  - intros H2. apply py_round_mono. now apply sorted_middle_below_rank.
Qed.

Lemma summary_values_in_range_witness :
  exists (s : summary_dict) (m p : R),
    LatencyStats.summary (warm_latency 12) = Ret s /\
    count s = length (items (LatencyStats.samples (warm_latency 12))) /\
    median_ms s = Some m /\
    p95_ms s = Some p /\
    In (nearest_rank_95 (items (LatencyStats.samples (warm_latency 12))))
       (items (LatencyStats.samples (warm_latency 12))) /\
    p = py_round (nearest_rank_95 (items (LatencyStats.samples (warm_latency 12)))) 2 /\
    nearest_rank_95 (items (LatencyStats.samples (warm_latency 12))) - 0.005 <= p <=
      nearest_rank_95 (items (LatencyStats.samples (warm_latency 12))) + 0.005 /\
    sorted_middle (items (LatencyStats.samples (warm_latency 12))) - 0.005 <= m <=
      sorted_middle (items (LatencyStats.samples (warm_latency 12))) + 0.005 /\
    ((forall x, In x (items (LatencyStats.samples (warm_latency 12))) -> 16 <= x <= 16) ->
       py_round 16 2 <= m <= py_round 16 2 /\
       py_round 16 2 <= p <= py_round 16 2) /\
    (length (items (LatencyStats.samples (warm_latency 12))) <> 2%nat -> m <= p).
Proof.
  apply (summary_values_in_range (warm_latency 12) 16 16).
  change (length (items (LatencyStats.samples (warm_latency 12))))
    with (deque_len (LatencyStats.samples (warm_latency 12))).
  rewrite warm_latency_len. lia.
Defined.

(** ** What every reached state satisfies *)

Lemma deque_append_len_eq {A : Type} (d : deque A) (x : A) :
  (deque_len d <= maxlen d)%nat ->
  deque_len (deque_append d x) = Nat.min (S (deque_len d)) (maxlen d).
Proof.
  unfold deque_len, deque_append. cbn [items]. intros H.
  rewrite length_app. cbn [length].
  destruct (maxlen d <? length (items d) + 1)%nat eqn:E.
  - apply Nat.ltb_lt in E.
    destruct (items d) as [|a l]; cbn [app tail length] in *; [lia|].
    rewrite length_app. cbn [length]. lia.
  - apply Nat.ltb_ge in E. rewrite length_app. cbn [length]. lia.
Qed.

Lemma deque_append_In {A : Type} (d : deque A) (x z : A) :
  In z (items (deque_append d x)) -> In z (items d) \/ z = x.
Proof.
  unfold deque_append. cbn [items].
  assert (H : In z (items d ++ [x]) -> In z (items d) \/ z = x).
  { intros Hin. apply in_app_or in Hin as [Hin|[<-|[]]]; [now left | now right]. }
  destruct (maxlen d <? length (items d ++ [x]))%nat; [|exact H].
  intros Hin. apply H. destruct (items d ++ [x]); [destruct Hin | now right].
Qed.

Lemma summary_count (l : LatencyStats.t) (s : summary_dict) :
  LatencyStats.summary l = Ret s -> count s = deque_len (LatencyStats.samples l).
Proof.
  destruct (items (LatencyStats.samples l)) as [|a xs] eqn:E.
  - unfold LatencyStats.summary, deque_len. rewrite E. cbn [length Nat.eqb].
    intros H. now injection H as <-.
  - rewrite summary_nonempty by (rewrite E; discriminate).
    intros H. injection H as <-. reflexivity.
Qed.

Lemma key_invariant_after_cycle (self self' : DNSUptimerAI.t) (key : CheckKey)
    (l0 : LatencyStats.t) (u0 : UptimeStats.t) (l' : LatencyStats.t)
    (r : CheckResult.t) (ok : bool) (x : R) :
  maxlen (LatencyStats.samples l0) = 200%nat ->
  maxlen (UptimeStats.results u0) = 200%nat ->
  deque_len (LatencyStats.samples l0) = deque_len (UptimeStats.results u0) ->
  (deque_len (LatencyStats.samples l0) <= 200)%nat ->
  LatencyStats.alpha l0 = 0.25 ->
  UptimeStats.window u0 = DNSUptimerAI.window self' ->
  (forall z, In z (items (UptimeStats.results u0)) -> z = 0%Z \/ z = 1%Z) ->
  LatencyStats.samples l' = LatencyStats.samples (LatencyStats.add l0 x) ->
  LatencyStats.ema l' = LatencyStats.ema (LatencyStats.add l0 x) ->
  LatencyStats.alpha l' = LatencyStats.alpha l0 ->
  (CheckResult.target r, CheckResult.resolver r, CheckResult.rtype r) = key ->
  count (CheckResult.latency_summary r) =
    deque_len (LatencyStats.samples (LatencyStats.add l0 x)) ->
  key_invariant self' key l' (UptimeStats.add u0 ok) r.
Proof.
  intros Hml Hmu Hlen Hle Ha Hw Hout Hs He Hal Hk Hc.
  assert (Hl1 : deque_len (LatencyStats.samples (LatencyStats.add l0 x)) =
                Nat.min (S (deque_len (LatencyStats.samples l0))) 200).
  { change (LatencyStats.samples (LatencyStats.add l0 x))
      with (deque_append (LatencyStats.samples l0) x).
    rewrite deque_append_len_eq, Hml by (rewrite Hml; exact Hle). reflexivity. }
  assert (Hu1 : deque_len (UptimeStats.results (UptimeStats.add u0 ok)) =
                Nat.min (S (deque_len (UptimeStats.results u0))) 200).
  { change (UptimeStats.results (UptimeStats.add u0 ok))
      with (deque_append (UptimeStats.results u0) (if ok then 1%Z else 0%Z)).
    rewrite deque_append_len_eq, Hmu by (rewrite Hmu, <- Hlen; exact Hle).
    reflexivity. }
  constructor.
  - rewrite Hs. exact Hml.
  - exact Hmu.
  - rewrite Hs, Hl1, Hu1, Hlen. reflexivity.
  - rewrite Hs, Hl1. lia.
  - rewrite Hal. exact Ha.
  - rewrite He, ema_after_add. eexists. reflexivity.
  - exact Hw.
  - intros z Hz. apply deque_append_In in Hz as [Hz| ->]; [now apply Hout|].
    destruct ok; [now right | now left].
  - exact Hk.
  - rewrite Hs. exact Hc.
Qed.

Lemma reachable_invariant (self : DNSUptimerAI.t) :
  reachable self ->
  forall key : CheckKey,
    (DNSUptimerAI.latency self !! key = None /\
     DNSUptimerAI.uptime self !! key = None /\
     DNSUptimerAI.last_results self !! key = None) \/
    (exists (l : LatencyStats.t) (u : UptimeStats.t) (r : CheckResult.t),
        DNSUptimerAI.latency self !! key = Some l /\
        DNSUptimerAI.uptime self !! key = Some u /\
        DNSUptimerAI.last_results self !! key = Some r /\
        key_invariant self key l u r).
Proof.
  induction 1 as [ | self self' target resolver_ip rtype env al Hreach IH Hrun
                   | self Hreach IH ]; intros key.
  - left. cbn [DNSUptimerAI.new DNSUptimerAI.latency DNSUptimerAI.uptime
               DNSUptimerAI.last_results].
    now rewrite !lookup_empty.
  - destruct (check_and_analyze_frame _ _ _ _ _ _ _ Hrun)
      as (Hframe & _ & _ & _ & _ & Hwin & _).
    destruct (decide (key = (target, resolver_ip, rtype))) as [->|Hne].
    + right.
      destruct (DNSUptimerAI._resolve_once self target resolver_ip rtype env)
        as [[[[ok x] addrs] err]|e] eqn:Hres.
      2:{ unfold DNSUptimerAI._check_and_analyze in Hrun. rewrite Hres in Hrun.
          discriminate. }
      destruct (check_and_analyze_run self target resolver_ip rtype env ok x
                  addrs err Hres)
        as (z & summ & upt & _ & Hsum & _ & self'' & Hrun' & Hlast & Hup & Hlat).
      rewrite Hrun in Hrun'. injection Hrun' as <- _.
      set (key := (target, resolver_ip, rtype)) in *.
      eexists _, _, _. split; [exact Hlat|]. split; [exact Hup|].
      split; [exact Hlast|].
      assert (Hpre :
        maxlen (LatencyStats.samples (latency_of self key)) = 200%nat /\
        maxlen (UptimeStats.results (uptime_of self key)) = 200%nat /\
        deque_len (LatencyStats.samples (latency_of self key)) =
          deque_len (UptimeStats.results (uptime_of self key)) /\
        (deque_len (LatencyStats.samples (latency_of self key)) <= 200)%nat /\
        LatencyStats.alpha (latency_of self key) = 0.25 /\
        UptimeStats.window (uptime_of self key) = DNSUptimerAI.window self /\
        (forall z, In z (items (UptimeStats.results (uptime_of self key))) ->
                   z = 0%Z \/ z = 1%Z)).
      { unfold latency_of, uptime_of.
        destruct (IH key) as [(-> & -> & _)|(l & u & r & -> & -> & _ & Hinv)].
        - cbn. repeat split; try reflexivity; try lia; try (intros z []).
        - cbn [default from_option]. unfold Datatypes.id. destruct Hinv.
          repeat split; try assumption; lia. }
      destruct Hpre as (P1 & P2 & P3 & P4 & P5 & P6 & P7).
      apply (key_invariant_after_cycle self self' key (latency_of self key)
               (uptime_of self key) _ _ ok x); try assumption.
      * now rewrite Hwin.
      * now destruct (DNSUptimerAI.anomaly_logic _ _ _ _ _ _).
      * now destruct (DNSUptimerAI.anomaly_logic _ _ _ _ _ _).
      * now destruct (DNSUptimerAI.anomaly_logic _ _ _ _ _ _).
      * reflexivity.
      * cbn [CheckResult.latency_summary]. now apply summary_count.
    + destruct (Hframe key Hne) as (-> & -> & ->).
      destruct (IH key) as [Hnone|(l & u & r & Hl & Hu & Hr & Hinv)];
        [now left | right].
      exists l, u, r. split; [exact Hl|]. split; [exact Hu|]. split; [exact Hr|].
      destruct Hinv. constructor; try assumption. now rewrite Hwin.
  - cbn [stop DNSUptimerAI.latency DNSUptimerAI.uptime DNSUptimerAI.last_results].
    destruct (IH key) as [Hnone|(l & u & r & Hl & Hu & Hr & Hinv)];
      [now left | right].
    exists l, u, r. split; [exact Hl|]. split; [exact Hu|]. split; [exact Hr|].
    destruct Hinv. constructor; assumption.
Qed.

(** X14. In every state a monitor reaches, a key either has no statistics
    and no last result, or has all three; and then both windows have
    capacity 200 and the same length, between 1 and 200, the smoothing
    factor is 0.25, the EMA is defined, the outcomes are zeros and ones, and
    the last result names the key and counts the samples of the window. *)
Theorem reachable_keys_invariant (self : DNSUptimerAI.t) :
  reachable self ->
  forall key : CheckKey,
    (DNSUptimerAI.latency self !! key = None /\
     DNSUptimerAI.uptime self !! key = None /\
     DNSUptimerAI.last_results self !! key = None) \/
    (exists (l : LatencyStats.t) (u : UptimeStats.t) (r : CheckResult.t),
        DNSUptimerAI.latency self !! key = Some l /\
        DNSUptimerAI.uptime self !! key = Some u /\
        DNSUptimerAI.last_results self !! key = Some r /\
        maxlen (LatencyStats.samples l) = 200%nat /\
        maxlen (UptimeStats.results u) = 200%nat /\
        deque_len (LatencyStats.samples l) = deque_len (UptimeStats.results u) /\
        (1 <= deque_len (LatencyStats.samples l) <= 200)%nat /\
        LatencyStats.alpha l = 0.25 /\
        is_Some (LatencyStats.ema l) /\
        UptimeStats.window u = DNSUptimerAI.window self /\
        (forall z, In z (items (UptimeStats.results u)) -> z = 0%Z \/ z = 1%Z) /\
        (CheckResult.target r, CheckResult.resolver r, CheckResult.rtype r) = key /\
        count (CheckResult.latency_summary r) = deque_len (LatencyStats.samples l)).
Proof.
  intros Hreach key.
  destruct (reachable_invariant self Hreach key)
    as [Hnone|(l & u & r & Hl & Hu & Hr & Hinv)]; [now left | right].
  exists l, u, r. destruct Hinv.
  split; [exact Hl|]. split; [exact Hu|]. split; [exact Hr|].
  repeat (split; [assumption|]). assumption.
Qed.

Lemma reachable_keys_invariant_witness :
  exists (self' : DNSUptimerAI.t) (al : option alert),
    DNSUptimerAI._check_and_analyze
      (DNSUptimerAI.new ["example.com"] ["1.1.1.1"] ["A"] 15 200 3 None)
      "example.com" "1.1.1.1" "A" (answered 26) = Ret (self', al) /\
    forall key : CheckKey,
      (DNSUptimerAI.latency self' !! key = None /\
       DNSUptimerAI.uptime self' !! key = None /\
       DNSUptimerAI.last_results self' !! key = None) \/
      (exists (l : LatencyStats.t) (u : UptimeStats.t) (r : CheckResult.t),
          DNSUptimerAI.latency self' !! key = Some l /\
          DNSUptimerAI.uptime self' !! key = Some u /\
          DNSUptimerAI.last_results self' !! key = Some r /\
          maxlen (LatencyStats.samples l) = 200%nat /\
          maxlen (UptimeStats.results u) = 200%nat /\
          deque_len (LatencyStats.samples l) = deque_len (UptimeStats.results u) /\
          (1 <= deque_len (LatencyStats.samples l) <= 200)%nat /\
          LatencyStats.alpha l = 0.25 /\
          is_Some (LatencyStats.ema l) /\
          UptimeStats.window u = DNSUptimerAI.window self' /\
          (forall z, In z (items (UptimeStats.results u)) -> z = 0%Z \/ z = 1%Z) /\
          (CheckResult.target r, CheckResult.resolver r, CheckResult.rtype r) = key /\
          count (CheckResult.latency_summary r) = deque_len (LatencyStats.samples l)).
Proof.
  destruct (check_and_analyze_run
              (DNSUptimerAI.new ["example.com"] ["1.1.1.1"] ["A"] 15 200 3 None)
              "example.com" "1.1.1.1" "A" (answered 26) true 26
              (Some ["93.184.216.34"]) None (resolve_answered _ _ _ _ 26))
    as (z & summ & upt & _ & _ & _ & self' & Hrun & _).
  eexists self', _. split; [exact Hrun|].
  apply (reachable_keys_invariant self').
  eapply reach_cycle; [apply reach_new | exact Hrun].
Defined.

(** ** What a result can hold *)

Lemma reached_stats (self : DNSUptimerAI.t) (key : CheckKey) :
  reachable self ->
  maxlen (LatencyStats.samples (latency_of self key)) = 200%nat /\
  maxlen (UptimeStats.results (uptime_of self key)) = 200%nat /\
  deque_len (LatencyStats.samples (latency_of self key)) =
    deque_len (UptimeStats.results (uptime_of self key)) /\
  (deque_len (LatencyStats.samples (latency_of self key)) <= 200)%nat /\
  LatencyStats.alpha (latency_of self key) = 0.25 /\
  (forall z, In z (items (UptimeStats.results (uptime_of self key))) ->
             z = 0%Z \/ z = 1%Z).
Proof.
  intros Hreach. unfold latency_of, uptime_of.
  destruct (reachable_invariant self Hreach key)
    as [(-> & -> & _)|(l & u & r & -> & -> & _ & Hinv)].
  - cbn. repeat split; try reflexivity; try lia; try (intros z []).
  - cbn [default from_option]. unfold Datatypes.id. destruct Hinv.
    repeat split; try assumption; lia.
Qed.



(** ** What a probe leaves in the latency statistics *)

Lemma deque_append_items {A : Type} (d : deque A) (x : A) :
  (0 < maxlen d)%nat -> (deque_len d <= maxlen d)%nat ->
  items (deque_append d x) =
  skipn (S (deque_len d) - maxlen d) (items d) ++ [x].
Proof.
  unfold deque_len, deque_append. cbn [items]. intros Hpos Hle.
  rewrite length_app. cbn [length].
  destruct (maxlen d <? length (items d) + 1)%nat eqn:E.
  - apply Nat.ltb_lt in E.
    replace (S (length (items d)) - maxlen d)%nat with 1%nat by lia.
    destruct (items d) as [|a l]; [cbn [length] in E; lia | reflexivity].
  - apply Nat.ltb_ge in E.
    replace (S (length (items d)) - maxlen d)%nat with 0%nat by lia.
    reflexivity.
Qed.

Lemma reached_add_items (self : DNSUptimerAI.t) (key : CheckKey) (x : R) :
  reachable self ->
  items (LatencyStats.samples (LatencyStats.add (latency_of self key) x)) =
  skipn (S (deque_len (LatencyStats.samples (latency_of self key))) - 200)
    (items (LatencyStats.samples (latency_of self key))) ++ [x].
Proof.
  intros Hreach.
  destruct (reached_stats self key Hreach) as (P1 & _ & _ & P4 & _).
  change (LatencyStats.samples (LatencyStats.add (latency_of self key) x))
    with (deque_append (LatencyStats.samples (latency_of self key)) x).
  rewrite deque_append_items by (rewrite P1; lia). now rewrite P1.
Qed.

Lemma set_anomaly_same_window (l : LatencyStats.t) (a : option anomaly) (ts : R) :
  let l' := match a with
            | Some a => LatencyStats.set_anomaly l a ts
            | None => l
            end in
  LatencyStats.samples l' = LatencyStats.samples l /\
  LatencyStats.ema l' = LatencyStats.ema l /\
  LatencyStats.summary l' = LatencyStats.summary l /\
  (forall v : R, LatencyStats.zscore l' v = LatencyStats.zscore l v).
Proof. destruct a; repeat split; reflexivity. Qed.

(** C10. In every state the monitor reaches, and whatever the success flag
    of the probe, the elapsed time [x] becomes the last item of the window
    the monitor stores for the key, behind the prior items (without the
    oldest of them when the window was full), and is folded into the EMA
    with weight 0.25.  The summary of the stored result is the summary of
    that window: its count, median and p95 are computed from the items with
    [x] among them, and so is every later z-score (of a window of at least
    10 items), so a failed probe's latency enters them as a successful
    one's does. *)
Theorem latency_recorded_for_every_probe (self : DNSUptimerAI.t)
    (target resolver_ip rtype : string) (env : probe_env)
    (ok : bool) (x : R) (addrs : option (list string)) (err : option string) :
  reachable self ->
  DNSUptimerAI._resolve_once self target resolver_ip rtype env =
    Ret (ok, x, addrs, err) ->
  let key := (target, resolver_ip, rtype) in
  let l0 := latency_of self key in
  let older :=
    skipn (S (deque_len (LatencyStats.samples l0)) - 200)
      (items (LatencyStats.samples l0)) in
  let e1 := match LatencyStats.ema l0 with
            | None => x
            | Some e => 0.25 * x + (1 - 0.25) * e
            end in
  exists (self' : DNSUptimerAI.t) (al : option alert) (l' : LatencyStats.t)
         (r : CheckResult.t),
    DNSUptimerAI._check_and_analyze self target resolver_ip rtype env =
      Ret (self', al) /\
    DNSUptimerAI.latency self' !! key = Some l' /\
    DNSUptimerAI.last_results self' !! key = Some r /\
    CheckResult.ok r = ok /\
    items (LatencyStats.samples l') = older ++ [x] /\
    LatencyStats.ema l' = Some e1 /\
    LatencyStats.summary l' = Ret (CheckResult.latency_summary r) /\
    CheckResult.latency_summary r =
      mkSummary (S (length older))
        (Some (py_round (sorted_middle (older ++ [x])) 2))
        (Some (py_round (nearest_rank_95 (older ++ [x])) 2))
        (Some (py_round (float_or (Some e1) (sorted_middle (older ++ [x]))) 2)) /\
    (forall v : R,
        (10 <= S (length older))%nat ->
        let xs := older ++ [x] in
        let mu := Rsum xs / INR (length xs) in
        let sigma := sqrt (sumsq mu xs / INR (length xs)) in
        LatencyStats.zscore l' v =
          Ret (if Reqb sigma 0 then 0.0 else (v - mu) / sigma)).
Proof.
  intros Hreach Hres key l0 older e1.
  destruct (check_and_analyze_run self target resolver_ip rtype env ok x addrs err Hres)
    as (z & summ & upt & _ & Hs & _ & self' & Hrun & Hlast & _ & Hlat).
  fold key in Hs, Hrun, Hlast, Hlat. fold l0 in Hs, Hrun, Hlast, Hlat.
  destruct (reached_stats self key Hreach) as (P1 & _ & _ & P4 & P5 & _).
  fold l0 in P1, P4, P5.
  set (l1 := LatencyStats.add l0 x) in *.
  assert (Hitems : items (LatencyStats.samples l1) = older ++ [x])
    by exact (reached_add_items self key x Hreach).
  assert (Hema : LatencyStats.ema l1 = Some e1).
  { unfold l1, e1. rewrite ema_after_add, P5. reflexivity. }
  assert (Hne : items (LatencyStats.samples l1) <> []).
  { rewrite Hitems. now destruct older. }
  assert (Hlen : length (older ++ [x]) = S (length older)).
  { rewrite length_app. cbn [length]. lia. }
  pose proof (summary_nonempty l1 Hne) as Hsum. cbv zeta in Hsum.
  rewrite Hitems, Hema, Hlen in Hsum.
  assert (Hsumm : summ = mkSummary (S (length older))
            (Some (py_round (sorted_middle (older ++ [x])) 2))
            (Some (py_round (nearest_rank_95 (older ++ [x])) 2))
            (Some (py_round (float_or (Some e1) (sorted_middle (older ++ [x]))) 2)))
    by congruence.
  match type of Hlat with
  | _ = Some (match ?a with Some _ => _ | None => _ end) =>
      destruct (set_anomaly_same_window l1 a (now_anomaly env))
        as (Hsame & Hsame_ema & Hsame_sum & Hsame_z)
  end.
  eexists self', _, _, _.
  split; [exact Hrun|]. split; [exact Hlat|]. split; [exact Hlast|].
  cbn [CheckResult.ok CheckResult.latency_summary].
  split; [reflexivity|].
  split; [now rewrite Hsame|].
  split; [now rewrite Hsame_ema|].
  split; [now rewrite Hsame_sum|].
  split; [exact Hsumm|].
  intros v H10. rewrite Hsame_z.
  pose proof (zscore_warm l1 v) as Hz. cbv zeta in Hz.
  rewrite Hitems in Hz. apply Hz.
  unfold deque_len. rewrite Hitems, Hlen. exact H10.
Qed.

Lemma latency_recorded_for_every_probe_witness :
  exists (self' : DNSUptimerAI.t) (al : option alert) (l' : LatencyStats.t)
         (r : CheckResult.t),
    let x := (3000 / 1000 - 0) * 1000.0 in
    let l0 := latency_of fresh_monitor key0 in
    let older :=
      skipn (S (deque_len (LatencyStats.samples l0)) - 200)
        (items (LatencyStats.samples l0)) in
    let e1 := match LatencyStats.ema l0 with
              | None => x
              | Some e => 0.25 * x + (1 - 0.25) * e
              end in
    DNSUptimerAI._check_and_analyze fresh_monitor "example.com" "1.1.1.1" "A"
      (timed_out 3000) = Ret (self', al) /\
    DNSUptimerAI.latency self' !! key0 = Some l' /\
    DNSUptimerAI.last_results self' !! key0 = Some r /\
    CheckResult.ok r = false /\
    items (LatencyStats.samples l') = older ++ [x] /\
    LatencyStats.ema l' = Some e1 /\
    LatencyStats.summary l' = Ret (CheckResult.latency_summary r) /\
    CheckResult.latency_summary r =
      mkSummary (S (length older))
        (Some (py_round (sorted_middle (older ++ [x])) 2))
        (Some (py_round (nearest_rank_95 (older ++ [x])) 2))
        (Some (py_round (float_or (Some e1) (sorted_middle (older ++ [x]))) 2)) /\
    (forall v : R,
        (10 <= S (length older))%nat ->
        let xs := older ++ [x] in
        let mu := Rsum xs / INR (length xs) in
        let sigma := sqrt (sumsq mu xs / INR (length xs)) in
        LatencyStats.zscore l' v =
          Ret (if Reqb sigma 0 then 0.0 else (v - mu) / sigma)).
Proof.
  apply (latency_recorded_for_every_probe fresh_monitor
           "example.com" "1.1.1.1" "A" (timed_out 3000) false
           ((3000 / 1000 - 0) * 1000.0) None
           (Some "The DNS operation timed out.")).
  - apply reach_new.
  - reflexivity.
Defined.





(** ** The snapshot *)

Lemma with_latency_same (self : DNSUptimerAI.t) :
  with_latency self (DNSUptimerAI.latency self) = self.
Proof. now destruct self. Qed.

Lemma snapshot_fold (self : DNSUptimerAI.t) (ks : list CheckKey) :
  (forall k, In k ks ->
     exists (r : CheckResult.t) (l : LatencyStats.t),
       DNSUptimerAI.last_results self !! k = Some r /\
       DNSUptimerAI.latency self !! k = Some l /\
       (CheckResult.target r, CheckResult.resolver r, CheckResult.rtype r) = k) ->
  forall out0 : gmap string (list snapshot_entry),
  exists out' : gmap string (list snapshot_entry),
    fold_left snapshot_step ks (out0, self) = (out', self) /\
    forall t : string,
    exists es : list snapshot_entry,
      Forall2 (entry_of self)
        (List.filter (fun k : CheckKey => bool_decide (k.1.1 = t)) ks) es /\
      out' !! t = match es with
                  | [] => out0 !! t
                  | _ => Some (default [] (out0 !! t) ++ es)
                  end.
Proof.
  induction ks as [|k ks IH]; intros Hks out0.
  - exists out0. split; [reflexivity|]. intros t. exists []. split; [constructor | reflexivity].
  - destruct (Hks k (or_introl eq_refl)) as (r & l & Hr & Hl & Hkey).
    set (e := mkEntry r (LatencyStats.last_anomaly l) (LatencyStats.last_anomaly_ts l)).
    set (out1 := <[k.1.1 := default [] (out0 !! k.1.1) ++ [e]]> out0).
    assert (Hstep : snapshot_step (out0, self) k = (out1, self)).
    { unfold snapshot_step, defaultdict_get. rewrite Hr, Hl.
      now rewrite with_latency_same. }
    destruct (IH (fun k' Hk' => Hks k' (or_intror Hk')) out1) as (out' & Hfold & Hout).
    exists out'. split; [cbn [fold_left]; now rewrite Hstep|].
    intros t. destruct (Hout t) as (es & Hes & Hlook).
    cbn [List.filter]. destruct (decide (k.1.1 = t)) as [E|NE].
    + rewrite bool_decide_eq_true_2 by exact E.
      exists (e :: es). split.
      * constructor; [|exact Hes].
        unfold entry_of, latency_of. cbn [entry_result entry_last_anomaly
                                           entry_last_anomaly_ts e].
        rewrite Hl. now repeat split.
      * rewrite Hlook. unfold out1. rewrite <- E, lookup_insert_eq.
        cbn [default from_option]. unfold Datatypes.id.
        destruct es; [reflexivity|]. now rewrite <- app_assoc.
    + rewrite bool_decide_eq_false_2 by exact NE.
      exists es. split; [exact Hes|].
      rewrite Hlook. unfold out1. now rewrite lookup_insert_ne.
Qed.

(** X16. In a reached state, with [order] the keys of [last_results],
    [snapshot] changes nothing in the monitor and lists, under each target,
    one entry for each key of that target in the order of the keys: the
    key's last result with the key's current anomaly fields.  A target is
    absent from the snapshot exactly when none of its keys has a result. *)
Theorem snapshot_lists_last_results (self : DNSUptimerAI.t)
    (order : list CheckKey) (now : R) :
  reachable self ->
  (forall k, In k order <-> is_Some (DNSUptimerAI.last_results self !! k)) ->
  exists out : gmap string (list snapshot_entry),
    snapshot self order now = (out, now, self) /\
    forall t : string,
    exists es : list snapshot_entry,
      Forall2 (entry_of self)
        (List.filter (fun k : CheckKey => bool_decide (k.1.1 = t)) order) es /\
      out !! t = match es with [] => None | _ => Some es end /\
      (es = [] <->
       forall r rt : string, DNSUptimerAI.last_results self !! (t, r, rt) = None).
Proof.
  intros Hreach Horder.
  assert (Hks : forall k, In k order ->
            exists (r : CheckResult.t) (l : LatencyStats.t),
              DNSUptimerAI.last_results self !! k = Some r /\
              DNSUptimerAI.latency self !! k = Some l /\
              (CheckResult.target r, CheckResult.resolver r, CheckResult.rtype r) = k).
  { intros k Hk. apply Horder in Hk as [r Hr].
    destruct (reachable_invariant self Hreach k)
      as [(_ & _ & Hnone)|(l & u & r' & Hl & _ & Hr' & Hinv)]; [congruence|].
    exists r', l. split; [exact Hr'|]. split; [exact Hl|]. now destruct Hinv. }
  destruct (snapshot_fold self order Hks ∅) as (out & Hfold & Hout).
  exists out. split; [unfold snapshot; now rewrite Hfold|].
  intros t. destruct (Hout t) as (es & Hes & Hlook).
  exists es. split; [exact Hes|]. split.
  { rewrite Hlook, lookup_empty. now destruct es. }
  split.
  - intros -> r rt. apply Forall2_nil_inv_r in Hes.
    destruct (DNSUptimerAI.last_results self !! (t, r, rt)) as [res|] eqn:E;
      [|reflexivity].
    assert (Hin : In (t, r, rt) order)
      by (apply Horder; rewrite E; eexists; reflexivity).
    assert (Hf : In (t, r, rt)
                   (List.filter (fun k : CheckKey => bool_decide (k.1.1 = t)) order)).
    { apply filter_In. split; [exact Hin|]. now apply bool_decide_eq_true_2. }
    rewrite Hes in Hf. destruct Hf.
  - intros Hnone. destruct es as [|e es]; [reflexivity|].
    inversion Hes as [|k ? ks ? Hent _ Hfil]; subst.
    assert (Hf : In k (List.filter (fun k : CheckKey => bool_decide (k.1.1 = t)) order))
      by (rewrite <- Hfil; now left).
    apply filter_In in Hf as [Hin Ht]. apply bool_decide_eq_true_1 in Ht.
    destruct k as [[t' r] rt]. cbn in Ht. subst t'.
    destruct Hent as (Hr & _). rewrite Hnone in Hr. discriminate.
Qed.

Lemma snapshot_lists_last_results_witness :
  exists (self' : DNSUptimerAI.t) (al : option alert),
    DNSUptimerAI._check_and_analyze
      (DNSUptimerAI.new ["example.com"] ["1.1.1.1"] ["A"] 15 200 3 None)
      "example.com" "1.1.1.1" "A" (answered 26) = Ret (self', al) /\
    exists out : gmap string (list snapshot_entry),
      snapshot self' [key0] 1700000001 = (out, 1700000001, self') /\
      forall t : string,
      exists es : list snapshot_entry,
        Forall2 (entry_of self')
          (List.filter (fun k : CheckKey => bool_decide (k.1.1 = t)) [key0]) es /\
        out !! t = match es with [] => None | _ => Some es end /\
        (es = [] <->
         forall r rt : string,
           DNSUptimerAI.last_results self' !! (t, r, rt) = None).
Proof.
  destruct (check_and_analyze_run
              (DNSUptimerAI.new ["example.com"] ["1.1.1.1"] ["A"] 15 200 3 None)
              "example.com" "1.1.1.1" "A" (answered 26) true 26
              (Some ["93.184.216.34"]) None (resolve_answered _ _ _ _ 26))
    as (z & summ & upt & _ & _ & _ & self' & Hrun & Hlast & _).
  destruct (check_and_analyze_frame _ _ _ _ _ _ _ Hrun) as (Hframe & _).
  eexists self', _. split; [exact Hrun|].
  apply (snapshot_lists_last_results self' [key0] 1700000001).
  - eapply reach_cycle; [apply reach_new | exact Hrun].
  - intros k. split.
    + intros [<-|[]]. eexists. exact Hlast.
    + intros [r Hr]. destruct (decide (k = key0)) as [->|Hne]; [now left|].
      destruct (Hframe k Hne) as (_ & _ & Hk). rewrite Hk in Hr.
      cbn [DNSUptimerAI.new DNSUptimerAI.last_results] in Hr.
      rewrite lookup_empty in Hr. discriminate.
Defined.

(** ** The command line lists *)

Lemma split_comma_In (s : list ascii) :
  forall p, In p (split_comma s) ->
  forall c, In c p -> In c s /\ is_comma c = false.
Proof.
  induction s as [|a s IH]; intros p Hp c Hc; cbn [split_comma] in Hp.
  - destruct Hp as [<-|[]]. destruct Hc.
  - destruct (is_comma a) eqn:Ea.
    + destruct Hp as [<-|Hp]; [destruct Hc|].
      destruct (IH p Hp c Hc) as [H1 H2]. split; [now right | exact H2].
    + destruct (split_comma s) as [|q qs] eqn:Eq.
      * destruct Hp as [<-|[]]. destruct Hc as [<-|[]]. split; [now left | exact Ea].
      * destruct Hp as [<-|Hp].
        -- destruct Hc as [<-|Hc]; [split; [now left | exact Ea]|].
           destruct (IH q (or_introl eq_refl) c Hc) as [H1 H2].
           split; [now right | exact H2].
        -- destruct (IH p (or_intror Hp) c Hc) as [H1 H2].
           split; [now right | exact H2].
Qed.

Lemma split_comma_plain (n : list ascii) :
  (forall c, In c n -> is_comma c = false) -> split_comma n = [n].
Proof.
  induction n as [|a n IH]; intros Hn; [reflexivity|].
  cbn [split_comma]. rewrite (Hn a) by now left.
  rewrite IH; [reflexivity|]. intros c Hc. apply Hn. now right.
Qed.

Lemma split_comma_app (n t : list ascii) (c : ascii) :
  (forall x, In x n -> is_comma x = false) -> is_comma c = true ->
  split_comma (n ++ c :: t) = n :: split_comma t.
Proof.
  intros Hn Hc. induction n as [|a n IH]; cbn [app split_comma].
  - now rewrite Hc.
  - rewrite (Hn a) by now left.
    rewrite IH; [reflexivity|]. intros x Hx. apply Hn. now right.
Qed.

Lemma lstrip_In (s : list ascii) (c : ascii) : In c (lstrip s) -> In c s.
Proof.
  induction s as [|a s IH]; cbn [lstrip]; [easy|].
  destruct (isspace a); [intros H; right; now apply IH | easy].
Qed.

Lemma lstrip_head (s : list ascii) (c : ascii) :
  hd_error (lstrip s) = Some c -> isspace c = false.
Proof.
  induction s as [|a s IH]; cbn [lstrip]; [discriminate|].
  destruct (isspace a) eqn:E; [exact IH|].
  cbn [hd_error]. intros H. now injection H as <-.
Qed.

Lemma lstrip_id (s : list ascii) :
  (forall c, hd_error s = Some c -> isspace c = false) -> lstrip s = s.
Proof.
  destruct s as [|a s]; [reflexivity|]. intros H. cbn [lstrip].
  now rewrite (H a eq_refl).
Qed.

Lemma lstrip_spaces (s : list ascii) :
  (forall c, In c s -> isspace c = true) -> lstrip s = [].
Proof.
  induction s as [|a s IH]; intros H; [reflexivity|].
  cbn [lstrip]. rewrite (H a) by now left. apply IH. intros c Hc. apply H. now right.
Qed.

Lemma lstrip_snoc (l : list ascii) (c : ascii) :
  isspace c = false -> exists t, lstrip (l ++ [c]) = t ++ [c].
Proof.
  intros Hc. induction l as [|a l IH]; cbn [app lstrip].
  - rewrite Hc. now exists [].
  - destruct (isspace a); [exact IH|]. now exists (a :: l).
Qed.

Lemma strip_In (s : list ascii) (c : ascii) : In c (strip s) -> In c s.
Proof.
  unfold strip, rstrip. intros H. apply in_rev in H. apply lstrip_In in H.
  apply in_rev in H. now apply lstrip_In.
Qed.

Lemma strip_clean (p : list ascii) :
  (forall c, In c p -> is_comma c = false) ->
  strip p <> [] -> clean_name (strip p).
Proof.
  intros Hp Hne. split; [exact Hne|]. split.
  { intros c Hc. apply Hp. now apply strip_In. }
  split.
  - unfold strip, rstrip in *.
    destruct (lstrip p) as [|a q] eqn:E; [now cbn in Hne|].
    assert (Ha : isspace a = false) by (apply (lstrip_head p); now rewrite E).
    cbn [rev]. destruct (lstrip_snoc (rev q) a Ha) as [t Ht]. rewrite Ht.
    rewrite rev_app_distr. cbn [rev app hd_error].
    intros c H. now injection H as <-.
  - unfold strip, rstrip. rewrite rev_involutive. apply lstrip_head.
Qed.

Lemma strip_of_clean (n : list ascii) : clean_name n -> strip n = n.
Proof.
  intros (_ & _ & Hhd & Hlast). unfold strip, rstrip.
  rewrite (lstrip_id n Hhd), (lstrip_id (rev n) Hlast). apply rev_involutive.
Qed.

Lemma split_join (ns : list (list ascii)) :
  ns <> [] ->
  (forall n, In n ns -> forall c, In c n -> is_comma c = false) ->
  split_comma (join_comma ns) = ns.
Proof.
  induction ns as [|n ns IH]; intros Hne Hall; [contradiction|].
  destruct ns as [|n' rest].
  - cbn [join_comma]. apply split_comma_plain. apply Hall. now left.
  - change (join_comma (n :: n' :: rest))
      with (n ++ ","%char :: join_comma (n' :: rest)).
    rewrite split_comma_app; [|apply Hall; now left | reflexivity].
    f_equal. apply IH; [discriminate|]. intros m Hm. apply Hall. now right.
Qed.

Lemma parse_names_clean_aux (s : list ascii) :
  ascii_text s ->
  forall n, In n (parse_names s) -> clean_name n /\ ascii_text n.
Proof.
  intros Hs n Hn. unfold parse_names in Hn.
  apply filter_In in Hn as [Hn Hne].
  apply in_map_iff in Hn as (p & <- & Hp). split.
  - apply strip_clean.
    + intros c Hc. now apply (split_comma_In s p Hp c).
    + intros E. rewrite E in Hne. discriminate.
  - intros c Hc. apply Hs. apply strip_In in Hc.
    now apply (split_comma_In s p Hp c).
Qed.

(** X17. The names that [main_async] takes from a comma-separated option
    are never empty, hold no comma, have no white space at either end and
    consist of characters of the option; an option made of commas and white
    space only gives no name at all, so the monitor's waves are empty; and
    names of that kind joined by commas are read back as they were. *)
Theorem parse_names_clean (s : list ascii) :
  ascii_text s ->
  (forall n, In n (parse_names s) ->
     clean_name n /\ ascii_text n /\ forall c, In c n -> In c s) /\
  ((forall c, In c s -> isspace c = true \/ is_comma c = true) ->
   parse_names s = [] /\
   forall (rs recs : list ascii) (i : R) (w : Z) (t : R) (wh : option string),
     wave_tasks (monitor_of_args s rs recs i w t wh) = []) /\
  (forall ns : list (list ascii),
     (forall n, In n ns -> clean_name n) ->
     s = join_comma ns -> parse_names s = ns).
Proof.
  intros Hs. split; [|split].
  - intros n Hn. unfold parse_names in Hn.
    apply filter_In in Hn as [Hn Hne].
    apply in_map_iff in Hn as (p & <- & Hp).
    assert (Hsub : forall c, In c (strip p) -> In c s).
    { intros c Hc. apply strip_In in Hc. now apply (split_comma_In s p Hp c). }
    split; [|split; [|exact Hsub]].
    + apply strip_clean.
      * intros c Hc. now apply (split_comma_In s p Hp c).
      * intros E. rewrite E in Hne. discriminate.
    + intros c Hc. apply Hs. now apply Hsub.
  - intros Hall.
    assert (Hnone : parse_names s = []).
    { unfold parse_names.
      destruct (List.filter nonempty (map strip (split_comma s))) as [|n l] eqn:E;
        [reflexivity|].
      assert (Hn : In n (List.filter nonempty (map strip (split_comma s))))
        by (rewrite E; now left).
      apply filter_In in Hn as [Hn Hne].
      apply in_map_iff in Hn as (p & <- & Hp).
      assert (Hsp : strip p = []).
      { unfold strip, rstrip. rewrite (lstrip_spaces p); [reflexivity|].
        intros c Hc. destruct (split_comma_In s p Hp c Hc) as [Hin Hnc].
        destruct (Hall c Hin) as [H|H]; [exact H | congruence]. }
      rewrite Hsp in Hne. discriminate. }
    split; [exact Hnone|].
    intros rs recs i w t wh. unfold wave_tasks, monitor_of_args.
    cbn [DNSUptimerAI.new DNSUptimerAI.targets]. now rewrite Hnone.
  - intros ns Hclean ->. unfold parse_names.
    destruct ns as [|n ns]; [reflexivity|].
    rewrite split_join;
      [|discriminate | intros m Hm; now apply (Hclean m Hm)].
    set (l := n :: ns) in *. clearbody l. clear Hs.
    induction l as [|m l IH]; [reflexivity|].
    cbn [map List.filter].
    rewrite (strip_of_clean m) by (apply Hclean; now left).
    destruct m as [|a m]; [destruct (Hclean [] (or_introl eq_refl)) as [H _]; now contradiction H|].
    cbn [nonempty]. f_equal. apply IH. intros k Hk. apply Hclean. now right.
Qed.

Lemma parse_names_clean_witness :
  clean_name (String.list_ascii_of_string "b.io") /\
  ascii_text (String.list_ascii_of_string "b.io") /\
  forall c, In c (String.list_ascii_of_string "b.io") ->
            In c (String.list_ascii_of_string "a.io, b.io ").
Proof.
  apply (proj1 (parse_names_clean (String.list_ascii_of_string "a.io, b.io ")
                  ltac:(intros c Hc; cbn in Hc;
                        repeat (destruct Hc as [<-|Hc]; [vm_compute; lia|]);
                        destruct Hc))).
  vm_compute. right. left. reflexivity.
Defined.

Lemma isspace_spec (c : ascii) :
  isspace c = true <->
  (9 <= nat_of_ascii c <= 13 \/ 28 <= nat_of_ascii c <= 31 \/
   nat_of_ascii c = 32)%nat.
Proof.
  unfold isspace.
  rewrite !orb_true_iff, !andb_true_iff, !Nat.leb_le, Nat.eqb_eq. tauto.
Qed.

Lemma upper_char_code (c : ascii) :
  (nat_of_ascii c < 128)%nat ->
  (97 <= nat_of_ascii c <= 122 /\
   nat_of_ascii (upper_char c) = nat_of_ascii c - 32)%nat \/
  (~ (97 <= nat_of_ascii c <= 122)%nat /\ upper_char c = c).
Proof.
  intros Hc. unfold upper_char.
  destruct ((97 <=? nat_of_ascii c) && (nat_of_ascii c <=? 122))%nat eqn:E.
  - apply andb_true_iff in E as [E1 E2].
    apply Nat.leb_le in E1. apply Nat.leb_le in E2. left. split; [lia|].
    apply nat_ascii_embedding. lia.
  - right. split; [|reflexivity]. intros [H1 H2].
    apply Nat.leb_le in H1. apply Nat.leb_le in H2. rewrite H1, H2 in E. discriminate.
Qed.

Lemma upper_char_fixed (c : ascii) :
  ~ (97 <= nat_of_ascii c <= 122)%nat -> upper_char c = c.
Proof.
  intros H. unfold upper_char.
  destruct ((97 <=? nat_of_ascii c) && (nat_of_ascii c <=? 122))%nat eqn:E;
    [|reflexivity].
  apply andb_true_iff in E as [E1 E2].
  apply Nat.leb_le in E1. apply Nat.leb_le in E2. exfalso. apply H. lia.
Qed.

Lemma upper_char_keeps (c : ascii) :
  (nat_of_ascii c < 128)%nat ->
  ~ (97 <= nat_of_ascii (upper_char c) <= 122)%nat /\
  (nat_of_ascii (upper_char c) < 128)%nat /\
  (is_comma c = false -> is_comma (upper_char c) = false) /\
  (isspace c = false -> isspace (upper_char c) = false).
Proof.
  intros Hc.
  destruct (upper_char_code c Hc) as [[Hr E]|[Hr E]]; rewrite E.
  - split; [lia|]. split; [lia|]. split.
    + intros _. unfold is_comma. rewrite E. apply Nat.eqb_neq. lia.
    + intros _. destruct (isspace (upper_char c)) eqn:Es; [|reflexivity].
      apply isspace_spec in Es. rewrite E in Es. lia.
  - split; [exact Hr|]. split; [exact Hc|]. split; intros H; exact H.
Qed.

(** X18. The record types that [main_async] takes from the option are the
    names of the option in upper case: none is empty, none holds a comma, a
    lower-case letter or white space at either end, and [upper] leaves each
    of them as it is. *)
Theorem parse_records_upper (s : list ascii) :
  ascii_text s ->
  parse_records s = map upper (parse_names s) /\
  length (parse_records s) = length (parse_names s) /\
  forall n, In n (parse_records s) ->
    clean_name n /\
    (forall c, In c n -> ~ (97 <= nat_of_ascii c <= 122)%nat) /\
    upper n = n.
Proof.
  intros Hs. split; [reflexivity|]. split; [apply length_map|].
  intros n Hn. unfold parse_records in Hn.
  apply in_map_iff in Hn as (m & <- & Hm).
  destruct (parse_names_clean_aux s Hs m Hm)
    as ((Hne & Hcomma & Hhd & Hlast) & Hascii).
  assert (Hup : forall c, In c (upper m) ->
            ~ (97 <= nat_of_ascii c <= 122)%nat /\ is_comma c = false).
  { intros c Hc. apply in_map_iff in Hc as (a & <- & Ha).
    destruct (upper_char_keeps a (Hascii a Ha)) as (H1 & _ & H3 & _).
    split; [exact H1 | apply H3, Hcomma, Ha]. }
  split; [|split].
  - split; [intros E; apply Hne; now apply map_eq_nil in E|].
    split; [intros c Hc; now apply Hup|]. split.
    + destruct m as [|a m]; [discriminate|]. cbn [upper map hd_error].
      intros c H. injection H as <-.
      apply (upper_char_keeps a); [apply Hascii; now left | now apply Hhd].
    + unfold upper. rewrite <- map_rev.
      destruct (rev m) as [|a q] eqn:E; [discriminate|]. cbn [map hd_error].
      intros c H. injection H as <-.
      apply (upper_char_keeps a); [|now apply Hlast].
      apply Hascii. apply in_rev. rewrite E. now left.
  - intros c Hc. now apply Hup.
  - unfold upper. rewrite map_map. apply map_ext_in. intros a Ha.
    apply upper_char_fixed. apply (upper_char_keeps a). now apply Hascii.
Qed.

Lemma parse_records_upper_witness :
  parse_records (String.list_ascii_of_string "a, aaaa") =
    map upper (parse_names (String.list_ascii_of_string "a, aaaa")) /\
  length (parse_records (String.list_ascii_of_string "a, aaaa")) =
    length (parse_names (String.list_ascii_of_string "a, aaaa")) /\
  forall n, In n (parse_records (String.list_ascii_of_string "a, aaaa")) ->
    clean_name n /\
    (forall c, In c n -> ~ (97 <= nat_of_ascii c <= 122)%nat) /\
    upper n = n.
Proof.
  apply (parse_records_upper (String.list_ascii_of_string "a, aaaa")).
  intros c Hc. cbn in Hc.
  repeat (destruct Hc as [<-|Hc]; [vm_compute; lia|]). destruct Hc.
Defined.
